(** * The Seal bridge: a shallow embedding of the two server variants

    The repository holds two revisions of one Express application:

    - [src/seal-node-app/server.js], embedded in module [ServerJs];
    - [src/unnamed/part_000], embedded in module [Part000].

    Both put a bearer check in front of a few handlers that forward to the
    Seal API through [callSeal].  The embedding keeps the JavaScript data as
    the code sees it (dynamically typed values, truthiness, optional
    chaining, exceptions) and turns the outbound [fetch] into an explicit
    node of an interaction tree, so that "no upstream call" and "this
    single upstream call" are statements about a trace. *)

From Stdlib Require Import String Ascii List Bool ZArith QArith Lia DecimalString.
Import ListNotations.
Close Scope Q_scope.
Open Scope string_scope.
Open Scope Z_scope.

Set Implicit Arguments.

(** ** Strings

    A JavaScript string is a sequence of UTF-16 code units.  The embedding
    keeps the code units below 256 (Rocq's [ascii]), which covers every
    literal of the source. *)

Module JsString.

Definition code (c : ascii) : N := N_of_ascii c.

(** [WhiteSpace] and [LineTerminator] of ECMAScript, below 256:
    TAB, LF, VT, FF, CR, SP and NBSP. *)
Definition isWhiteSpace (c : ascii) : bool :=
  let n := code c in
  ((9 <=? n) && (n <=? 13) || (n =? 32) || (n =? 160))%N.

Fixpoint trimStart (s : string) : string :=
  match s with
  | EmptyString => EmptyString
  | String c r => if isWhiteSpace c then trimStart r else s
  end.

Fixpoint trimEnd (s : string) : string :=
  match s with
  | EmptyString => EmptyString
  | String c r =>
      match trimEnd r with
      | EmptyString => if isWhiteSpace c then EmptyString else String c EmptyString
      | r' => String c r'
      end
  end.

(** [String.prototype.trim] *)
Definition trim (s : string) : string := trimEnd (trimStart s).

Definition lowerChar (c : ascii) : ascii :=
  let n := code c in
  if ((65 <=? n) && (n <=? 90)
      || (192 <=? n) && (n <=? 222) && negb (n =? 215))%N
  then ascii_of_N (n + 32) else c.

(** [String.prototype.toLowerCase] *)
Fixpoint toLowerCase (s : string) : string :=
  match s with
  | EmptyString => EmptyString
  | String c r => String (lowerChar c) (toLowerCase r)
  end.

(** [String.prototype.includes]: [sub] occurs in [s]. *)
Fixpoint includes (s sub : string) : bool :=
  if prefix sub s then true
  else match s with
       | EmptyString => false
       | String _ r => includes r sub
       end.

(** [Array.prototype.includes] on an array of strings. *)
Definition mem (x : string) (l : list string) : bool :=
  existsb (String.eqb x) l.

Definition whitespaceOnly (s : string) : Prop :=
  Forall (fun c => isWhiteSpace c = true) (list_ascii_of_string s).

Definition isEmpty (s : string) : bool :=
  match s with EmptyString => true | _ => false end.

(** The source text of the empty string literal: two double quotes. *)
Definition emptyLiteral : string :=
  String (ascii_of_nat 34) (String (ascii_of_nat 34) EmptyString).

End JsString.

(** ** Numbers

    A Number is NaN, an infinity or a finite value.  Finite values are kept
    as rationals: every binary64 value is one.  The conversion of a string
    rounds to the nearest binary64 value, ties to even, as [Number()] does:
    [Number] of the text 9007199254740993 is 9007199254740992.  The two
    zeros are the same value here; the source never tells them apart. *)

Inductive JsNum : Type :=
| NaN
| Infinity (negative : bool)
| Finite (q : Q).

Module Num.

Definition ofZ (z : Z) : JsNum := Finite (inject_Z z).

Definition isZero (n : JsNum) : bool :=
  match n with Finite q => Qnum q =? 0 | _ => false end.

Definition isNaN (n : JsNum) : bool :=
  match n with NaN => true | _ => false end.

(** [ToBoolean] on a Number: false for NaN and zero. *)
Definition truthy (n : JsNum) : bool := negb (isNaN n || isZero n).

(** The sort comparator's result counts as positive. *)
Definition isPositive (n : JsNum) : bool :=
  match n with
  | NaN => false
  | Infinity neg => negb neg
  | Finite q => 0 <? Qnum q
  end.

(** The rational [a / b] divided by [2^k], as a fraction of integers. *)
Definition scale (a b k : Z) : Z * Z :=
  if 0 <=? k then (a, b * 2 ^ k) else (a * 2 ^ (- k), b).

(** The integer nearest to [p / q], the even one of two equally near. *)
Definition roundHalfEven (p q : Z) : Z :=
  let f := p / q in
  let r := p mod q in
  if 2 * r <? q then f
  else if q <? 2 * r then f + 1
  else if Z.even f then f else f + 1.

(** The [k] with [2^k <= a / b < 2^(k+1)], for positive [a] and [b]. *)
Definition binaryExponent (a b : Z) : Z :=
  let k := Z.log2 a - Z.log2 b in
  let '(p, q) := scale a b k in
  if p <? q then k - 1 else k.

(** The binary64 value nearest to [(-1)^neg * a / b], for positive [a] and
    [b]: a significand of 53 bits at the exponent of the value, of fewer
    bits below [2^-1022]; a value that rounds to [2^1024] is an infinity,
    one that rounds to no bit at all is zero. *)
Definition toBinary64 (neg : bool) (a b : Z) : JsNum :=
  let sgn := if neg then -1 else 1 in
  let e := Z.max (binaryExponent a b - 52) (-1074) in
  let '(p, q) := scale a b e in
  let n := roundHalfEven p q in
  if n =? 0 then ofZ 0
  else if 0 <=? e then
    (if 2 ^ 1024 <=? n * 2 ^ e then Infinity neg else ofZ (sgn * (n * 2 ^ e)))
  else Finite (Qred (Qmake (sgn * n) (Z.to_pos (2 ^ (- e))))).

(** The Number nearest to [(-1)^neg * m * 10^e], for [0 <= m]. *)
Definition ofDecimal (neg : bool) (m e : Z) : JsNum :=
  if m =? 0 then ofZ 0
  else if 0 <=? e then toBinary64 neg (m * 10 ^ e) 1
  else toBinary64 neg m (10 ^ (- e)).

Definition digitVal (c : ascii) : option Z :=
  let n := Z.of_N (JsString.code c) in
  if (48 <=? n) && (n <=? 57) then Some (n - 48)
  else if (97 <=? n) && (n <=? 102) then Some (n - 87)
  else if (65 <=? n) && (n <=? 70) then Some (n - 55)
  else None.

Definition digitIn (radix : Z) (c : ascii) : option Z :=
  match digitVal c with
  | Some d => if d <? radix then Some d else None
  | None => None
  end.

(** Longest run of digits in [radix] at the head of [s]: the value
    accumulated on [acc], the number of digits read, and the rest. *)
Fixpoint digits (radix acc : Z) (s : string) : Z * Z * string :=
  match s with
  | EmptyString => (acc, 0, EmptyString)
  | String c r =>
      match digitIn radix c with
      | Some d => let '(v, n, rest) := digits radix (acc * radix + d) r in
                  (v, n + 1, rest)
      | None => (acc, 0, s)
      end
  end.

(** [NonDecimalIntegerLiteral] without its two-character prefix. *)
Definition ofRadix (radix : Z) (s : string) : JsNum :=
  let '(v, n, rest) := digits radix 0 s in
  if (0 <? n) && JsString.isEmpty rest
  then (if v =? 0 then ofZ 0 else toBinary64 false v 1)
  else NaN.

(** [ExponentPart] after its [e]: an optional sign and at least one digit,
    up to the end of the string. *)
Definition exponent (s : string) : option Z :=
  let '(neg, s1) :=
    match s with
    | String "-" r => (true, r)
    | String "+" r => (false, r)
    | _ => (false, s)
    end in
  let '(v, n, rest) := digits 10 0 s1 in
  if (0 <? n) && JsString.isEmpty rest
  then Some (if neg then - v else v) else None.

(** [StrUnsignedDecimalLiteral] *)
Definition ofUnsignedDecimal (neg : bool) (s : string) : JsNum :=
  if String.eqb s "Infinity" then Infinity neg
  else
    let '(vi, ni, r1) := digits 10 0 s in
    let '(m, nf, r2) :=
      match r1 with
      | String "." r => digits 10 vi r
      | _ => (vi, 0, r1)
      end in
    if ni + nf =? 0 then NaN
    else
      match r2 with
      | EmptyString => ofDecimal neg m (- nf)
      | String c r =>
          if (Ascii.eqb c "e" || Ascii.eqb c "E")%bool then
            match exponent r with
            | Some x => ofDecimal neg m (x - nf)
            | None => NaN
            end
          else NaN
      end.

(** [StringToNumber]: the conversion [Number(s)] applies to a string. *)
Definition StringToNumber (s : string) : JsNum :=
  match JsString.trim s with
  | EmptyString => ofZ 0
  | String "0" (String "x" r) | String "0" (String "X" r) => ofRadix 16 r
  | String "0" (String "o" r) | String "0" (String "O" r) => ofRadix 8 r
  | String "0" (String "b" r) | String "0" (String "B" r) => ofRadix 2 r
  | String "-" r => ofUnsignedDecimal true r
  | String "+" r => ofUnsignedDecimal false r
  | t => ofUnsignedDecimal false t
  end.

End Num.

(** ** Values

    The values the handlers see: what [express.json()] and the query parser
    put on the request, and what [resp.json()] returns.  An object is its
    list of own properties in insertion order; a lookup reads the first
    binding of a key. *)

#[local] Set Warnings "-register-all".

Inductive JsVal : Type :=
| JUndefined
| JNull
| JBool (b : bool)
| JNum (n : JsNum)
| JStr (s : string)
| JArr (elems : list JsVal)
| JObj (fields : list (string * JsVal)).

(** A thrown [Error]: its [name] and its [message]. *)
Record JsError : Type := mkError { err_name : string; err_message : string }.

Definition TypeError (msg : string) : JsError := mkError "TypeError" msg.

(** Evaluation that may throw. *)
Inductive Exc (A : Type) : Type :=
| Ok (a : A)
| Raise (e : JsError).
Arguments Ok {A} a.
Arguments Raise {A} e.

Definition excBind {A B} (m : Exc A) (f : A -> Exc B) : Exc B :=
  match m with
  | Ok a => f a
  | Raise e => Raise e
  end.

Declare Scope exc_scope.
Delimit Scope exc_scope with exc.
Notation "x <- m ;; k" := (excBind m (fun x => k))
  (at level 61, m at next level, right associativity) : exc_scope.

(** The parts of the JavaScript runtime the embedding leaves open:
    [Number::toString] (used by template literals and by [toString]) and
    [Date.parse], which is implementation-defined outside the ISO format.
    [Date_parse] returns the time value in milliseconds, [None] for NaN. *)
Class Runtime : Type := {
  NumberToString : JsNum -> string;
  Date_parse : string -> option Z
}.

Module Js.

Fixpoint lookup (k : string) (fields : list (string * JsVal)) : option JsVal :=
  match fields with
  | [] => None
  | (k', v) :: rest => if String.eqb k k' then Some v else lookup k rest
  end.

Definition hasOwn (k : string) (fields : list (string * JsVal)) : bool :=
  match lookup k fields with Some _ => true | None => false end.

Definition nullish (v : JsVal) : bool :=
  match v with JUndefined | JNull => true | _ => false end.

(** [ToBoolean] *)
Definition truthy (v : JsVal) : bool :=
  match v with
  | JUndefined | JNull => false
  | JBool b => b
  | JNum n => Num.truthy n
  | JStr s => negb (JsString.isEmpty s)
  | JArr _ | JObj _ => true
  end.

(** [a || b] *)
Definition or (a b : JsVal) : JsVal := if truthy a then a else b.

(** Reading a property of a value that is neither [undefined] nor [null].
    Only the field names of the source are read, none of which a
    prototype defines, so primitives and arrays answer [undefined]. *)
Definition prop (v : JsVal) (k : string) : JsVal :=
  match v with
  | JObj fields => match lookup k fields with Some x => x | None => JUndefined end
  | _ => JUndefined
  end.

(** [v.k] *)
Definition get (v : JsVal) (k : string) : Exc JsVal :=
  if nullish v
  then Raise (TypeError ("Cannot read properties of " ++
                         (match v with JNull => "null" | _ => "undefined" end) ++
                         " (reading '" ++ k ++ "')"))
  else Ok (prop v k).

(** [v?.k] *)
Definition getOpt (v : JsVal) (k : string) : JsVal :=
  if nullish v then JUndefined else prop v k.

Definition strictEq_false (v : JsVal) : bool :=
  match v with JBool false => true | _ => false end.

(** The [TypeError] of a call whose callee is not a function.  The engine
    names the callee by its source text, with [(intermediate value)] for
    the parts of it that it does not print. *)
Definition notAFunction (callee : string) : JsError :=
  TypeError (callee ++ " is not a function").

Section WithRuntime.
Context {rt : Runtime}.

(** [ToString].  An object answers through [Object.prototype.toString]
    unless it has an own [toString] property, which in parsed JSON is
    never callable: the conversion then throws.  An array joins its
    elements with commas, [null] and [undefined] as the empty string. *)
Fixpoint ToString (v : JsVal) : Exc string :=
  match v with
  | JUndefined => Ok "undefined"
  | JNull => Ok "null"
  | JBool true => Ok "true"
  | JBool false => Ok "false"
  | JNum n => Ok (NumberToString n)
  | JStr s => Ok s
  | JArr elems =>
      (fix join (l : list JsVal) : Exc string :=
         match l with
         | [] => Ok ""
         | x :: rest =>
             (s <- (if nullish x then Ok "" else ToString x) ;;
              match rest with
              | [] => Ok s
              | _ => (t <- join rest ;; Ok (s ++ "," ++ t))
              end)%exc
         end) elems
  | JObj fields =>
      if hasOwn "toString" fields
      then Raise (TypeError "Cannot convert object to primitive value")
      else Ok "[object Object]"
  end.

(** [ToNumber], that is [Number(v)]. *)
Definition ToNumber (v : JsVal) : Exc JsNum :=
  match v with
  | JUndefined => Ok NaN
  | JNull => Ok (Num.ofZ 0)
  | JBool b => Ok (Num.ofZ (if b then 1 else 0))
  | JNum n => Ok n
  | JStr s => Ok (Num.StringToNumber s)
  | JArr _ | JObj _ => (s <- ToString v ;; Ok (Num.StringToNumber s))%exc
  end.

(** [v.toString()] for a [v] that is not nullish: the method of the
    prototype, unless an own [toString] property hides it.  [callee] is
    the text of the callee in the source. *)
Definition toString (callee : string) (v : JsVal) : Exc string :=
  match v with
  | JObj fields =>
      if hasOwn "toString" fields
      then Raise (notAFunction callee)
      else Ok "[object Object]"
  | _ => ToString v
  end.

(** [v.trim()]: only a string has the method. *)
Definition trim (callee : string) (v : JsVal) : Exc string :=
  match v with
  | JStr s => Ok (JsString.trim s)
  | _ => Raise (notAFunction callee)
  end.

(** [TimeClip] of a Number. *)
Definition TimeClip (n : JsNum) : option Z :=
  match n with
  | Finite q =>
      if Z.abs (Qnum q) <=? 8640000000000000 * Zpos (Qden q)
      then Some (Z.quot (Qnum q) (Zpos (Qden q))) else None
  | _ => None
  end.

(** The time value of [new Date(v)]: [None] is an invalid date. *)
Definition DateValue (v : JsVal) : Exc (option Z) :=
  match v with
  | JStr s => Ok (Date_parse s)
  | JArr _ | JObj _ => (s <- ToString v ;; Ok (Date_parse s))%exc
  | _ => (n <- ToNumber v ;; Ok (TimeClip n))%exc
  end.

(** [dateA - dateB] *)
Definition dateDiff (a b : option Z) : JsNum :=
  match a, b with
  | Some x, Some y => Num.ofZ (x - y)
  | _, _ => NaN
  end.

End WithRuntime.

Definition hexDigit (n : N) : ascii :=
  ascii_of_N (if (n <? 10)%N then 48 + n else 55 + n)%N.

Definition percent (n : N) : string :=
  String "%" (String (hexDigit (n / 16)) (String (hexDigit (n mod 16)) EmptyString)).

Definition unreserved (c : ascii) : bool :=
  let n := JsString.code c in
  ((65 <=? n) && (n <=? 90) || (97 <=? n) && (n <=? 122) || (48 <=? n) && (n <=? 57))%N
  || JsString.mem (String c EmptyString) ["-"; "_"; "."; "!"; "~"; "*"; "'"; "("; ")"].

(** [encodeURIComponent]: UTF-8, percent-encoded outside the unreserved
    set. *)
Fixpoint encodeURIComponent (s : string) : string :=
  match s with
  | EmptyString => EmptyString
  | String c r =>
      let n := JsString.code c in
      (if unreserved c then String c EmptyString
       else if (n <? 128)%N then percent n
       else percent (192 + n / 64) ++ percent (128 + n mod 64))
      ++ encodeURIComponent r
  end.

End Js.

(** ** The outbound call and the interaction tree

    [fetch] is the one effect of the handlers.  A computation is a finite
    tree: it returns, throws, or issues a [fetch] and continues with what
    the network answers. *)

(** The text [JSON.stringify(v)], kept as the value it serialises. *)
Inductive JsonText : Type :=
| JSON_stringify (v : JsVal).

(** The [init] argument of [callSeal] and of [fetch]. *)
Record RequestInit : Type := mkInit {
  method : option string;
  body : option JsonText;
  headers : option (list (string * option string))
}.

Definition noInit : RequestInit := mkInit None None None.

Record FetchRequest : Type := mkFetch {
  url : string;
  init : RequestInit
}.

(** What the handlers read of a node-fetch [Response]: [status], the
    [content-type] header ([None] when absent), and the outcomes of
    [json()] and [text()], [None] when the promise rejects. *)
Record FetchResponse : Type := mkResponse {
  resp_status : Z;
  resp_content_type : option string;
  resp_json : option JsVal;
  resp_text : option string
}.

(** The getter [Response.ok] of node-fetch. *)
Definition resp_ok (r : FetchResponse) : bool :=
  (200 <=? resp_status r) && (resp_status r <? 300).

(** [fetch] resolves with a response, whatever its status, or rejects
    when the transport fails. *)
Inductive FetchOutcome : Type :=
| Responded (r : FetchResponse)
| Rejected (e : JsError).

Inductive Prog (A : Type) : Type :=
| Ret (a : A)
| Throw (e : JsError)
| Fetch (req : FetchRequest) (k : FetchOutcome -> Prog A).
Arguments Ret {A} a.
Arguments Throw {A} e.
Arguments Fetch {A} req k.

Fixpoint bind {A B} (m : Prog A) (f : A -> Prog B) : Prog B :=
  match m with
  | Ret a => f a
  | Throw e => Throw e
  | Fetch req k => Fetch req (fun o => bind (k o) f)
  end.

(** [try { m } catch (err) { h err }] *)
Fixpoint tryCatch {A} (m : Prog A) (h : JsError -> Prog A) : Prog A :=
  match m with
  | Ret a => Ret a
  | Throw e => h e
  | Fetch req k => Fetch req (fun o => tryCatch (k o) h)
  end.

Definition liftExc {A} (m : Exc A) : Prog A :=
  match m with
  | Ok a => Ret a
  | Raise e => Throw e
  end.

Declare Scope prog_scope.
Delimit Scope prog_scope with prog.
Notation "x <- m ;; k" := (bind m (fun x => k))
  (at level 61, m at next level, right associativity) : prog_scope.
Notation "x <~ m ;; k" := (bind (liftExc m) (fun x => k))
  (at level 61, m at next level, right associativity) : prog_scope.

(** The upstream provider: its answer to the [n]-th call of a request. *)
Definition Upstream : Type := nat -> FetchRequest -> FetchOutcome.

(** Running a computation against an upstream: the result and the
    exchanges with the upstream, in order. *)
Fixpoint run {A} (up : Upstream) (n : nat) (m : Prog A)
  : Exc A * list (FetchRequest * FetchOutcome) :=
  match m with
  | Ret a => (Ok a, [])
  | Throw e => (Raise e, [])
  | Fetch req k =>
      let '(r, xs) := run up (S n) (k (up n req)) in (r, (req, up n req) :: xs)
  end.

(** The requests of a run. *)
Definition calls {A} (up : Upstream) (n : nat) (m : Prog A) : list FetchRequest :=
  map fst (snd (run up n m)).

(** The outcome of a run. *)
Definition result {A} (up : Upstream) (n : nat) (m : Prog A) : Exc A :=
  fst (run up n m).

(** ** Process configuration and the Express request and response *)

Record Env : Type := mkEnv {
  BRIDGE_BEARER : option string;
  SEAL_TOKEN : option string
}.

(** [`${process.env.X}`] *)
Definition envText (v : option string) : string :=
  match v with Some s => s | None => "undefined" end.

(** The request after routing and body parsing: the [Authorization]
    header, the [:id] path parameter, [req.query.email] and [req.body]. *)
Record Request : Type := mkRequest {
  authorization : option string;
  params_id : string;
  query_email : JsVal;
  req_body : JsVal
}.

(** [res.status(n).json(v)] *)
Record HttpReply : Type := mkReply {
  reply_status : Z;
  reply_body : JsVal
}.

Definition SEAL_BASE : string := "https://app.sealsubscriptions.com/shopify/merchant/api".

(** The callees of the handlers that can fail to be functions, as the
    engine prints them: [(req.query.email || <empty>).toString] in the
    list handler and, for a field read through [req.body?.], the optional
    chain left out. *)
Definition queryEmailCallee : string :=
  "(req.query.email || " ++ JsString.emptyLiteral ++ ").toString".

Definition bodyFieldCallee (method : string) : string :=
  "((intermediate value) || " ++ JsString.emptyLiteral ++ ")." ++ method.

(** ** Code shared by the two revisions *)

(** [{ ...a, ...b }] on header objects. *)
Fixpoint setHeader (k : string) (v : option string) (h : list (string * option string))
  : list (string * option string) :=
  match h with
  | [] => [(k, v)]
  | (k', v') :: rest =>
      if String.eqb k k' then (k', v) :: rest else (k', v') :: setHeader k v rest
  end.

Definition spreadHeaders (a b : list (string * option string)) : list (string * option string) :=
  fold_left (fun acc kv => setHeader (fst kv) (snd kv) acc) b a.

Definition optString_neqb (a : option string) (b : string) : bool :=
  match a with
  | Some s => negb (String.eqb s b)
  | None => true
  end.

(** [checkAuth(req, res, next)] *)
Definition checkAuth (env : Env) (req : Request) (next : unit -> Prog HttpReply)
  : Prog HttpReply :=
  let expected := "Bearer " ++ envText (BRIDGE_BEARER env) in
  if optString_neqb (authorization req) expected
  then Ret (mkReply 401 (JObj [("error", JStr "Unauthorized")]))
  else next tt.

(** The result of [callSeal]. *)
Record SealResult : Type := mkResult {
  ok : bool;
  status : Z;
  body_of : JsVal
}.

Definition orEmpty (s : option string) : string :=
  match s with
  | Some t => t
  | None => ""
  end.

(** The arguments [callSeal] hands to [fetch]. *)
Definition fetchArgs (env : Env) (path : string) (i : RequestInit) : FetchRequest :=
  let fullUrl := SEAL_BASE ++ path in
  mkFetch fullUrl
    (mkInit (method i) (body i)
       (Some (spreadHeaders
                [("Content-Type", Some "application/json");
                 ("X-Seal-Token", SEAL_TOKEN env)]
                (match headers i with Some h => h | None => [] end)))).

(** [resp.headers.get("content-type") || ""] *)
Definition contentType (resp : FetchResponse) : string :=
  orEmpty (resp_content_type resp).

(** The [body] that [callSeal] reads off a response. *)
Definition readBody (resp : FetchResponse) : JsVal :=
  let ct := contentType resp in
  if JsString.includes ct "application/json"
  then match resp_json resp with Some v => v | None => JObj [] end
  else JObj [("non_json", JStr (orEmpty (resp_text resp)))].

(** [callSeal(path, init = {})] *)
Definition callSeal (env : Env) (path : string) (i : RequestInit) : Prog SealResult :=
  Fetch (fetchArgs env path i)
    (fun o =>
       match o with
       | Rejected e => Throw e
       | Responded resp =>
           let body := readBody resp in
           Ret (mkResult (resp_ok resp) (resp_status resp) body)
       end).

(** [err?.message || String(err)] *)
Definition errText (e : JsError) : string :=
  if JsString.isEmpty (err_message e) then err_name e else err_message e.

Definition statusNum (n : Z) : JsVal := JNum (Num.ofZ n).

(** [app.get("/health", ...)] *)
Definition health : Prog HttpReply :=
  Ret (mkReply 200 (JObj [("ok", JBool true)])).

Section Shared.
Context {rt : Runtime}.

Fixpoint mapExc {A B} (f : A -> Exc B) (l : list A) : Exc (list B) :=
  match l with
  | [] => Ok []
  | x :: rest => (y <- f x ;; ys <- mapExc f rest ;; Ok (y :: ys))%exc
  end.

(** [a || b], the right operand evaluated on demand. *)
Definition orElse (a : JsVal) (b : Exc JsVal) : Exc JsVal :=
  if Js.truthy a then Ok a else b.

(** [i => ({ title: i.title, qty: i.quantity, id: i.id })] *)
Definition normalizeItem (i : JsVal) : Exc JsVal :=
  (title <- Js.get i "title" ;;
   qty <- Js.get i "quantity" ;;
   id <- Js.get i "id" ;;
   Ok (JObj [("title", title); ("qty", qty); ("id", id)]))%exc.

(** The arrow function mapped over the subscription list. *)
Definition normalizeSubscription (s : JsVal) : Exc JsVal :=
  (id <- Js.get s "id" ;;
   st <- Js.get s "status" ;;
   nb <- Js.get s "next_billing" ;;
   next <- orElse nb
             (nod <- Js.get s "next_order_datetime" ;;
              orElse nod
                (nc <- Js.get s "next_charge_at" ;; Ok (Js.or nc JNull))) ;;
   its <- Js.get s "items" ;;
   items <- match Js.or its (JArr []) with
            | JArr l => mapExc normalizeItem l
            | _ => Raise (Js.notAFunction "(s.items || []).map")
            end ;;
   dc <- Js.get s "discount_codes" ;;
   Ok (JObj [("id", id); ("status", st); ("next_charge_at", next);
             ("items", JArr items); ("discounts", Js.or dc (JArr []))]))%exc.

(** The catch clause of the list handler. *)
Definition listException (err : JsError) : Prog HttpReply :=
  Ret (mkReply 200
         (JObj [("subscriptions", JArr []);
                ("error", JObj [("reason", JStr "bridge_exception");
                                ("message", JStr (errText err))])])).

(** The catch clause of the other handlers. *)
Definition bridgeException (err : JsError) : Prog HttpReply :=
  Ret (mkReply 200
         (JObj [("error", JObj [("reason", JStr "bridge_exception");
                                ("message", JStr (errText err))])])).

(** [GET /api/subscriptions?email=...], given the envelope probe of the
    revision (its lines [let list = []; if ... else if ...]). *)
Definition get_api_subscriptions (probe : JsVal -> list JsVal)
           (env : Env) (req : Request) : Prog HttpReply :=
  tryCatch
    (rawEmail <~ (s <- Js.toString queryEmailCallee (Js.or (query_email req) (JStr "")) ;;
                  Ok (JsString.trim s))%exc ;;
     if JsString.isEmpty rawEmail then
       Ret (mkReply 200
              (JObj [("subscriptions", JArr []);
                     ("error", JObj [("reason", JStr "missing_email")])]))
     else
       let email := Js.encodeURIComponent rawEmail in
       r <- callSeal env ("/subscriptions?query=" ++ email ++ "&with-items=true") noInit ;;
       if negb (ok r) then
         Ret (mkReply 200
                (JObj [("subscriptions", JArr []);
                       ("error", JObj [("reason", JStr "upstream_error");
                                       ("status", statusNum (status r));
                                       ("body", body_of r)])]))
       else
         let list := probe (body_of r) in
         subs <~ mapExc normalizeSubscription list ;;
         Ret (mkReply 200 (JObj [("subscriptions", JArr subs)])))%prog
    listException.

(** [a.date_time || a.datetime || a.scheduled_at || 0] *)
Definition attemptStamp (a : JsVal) : Exc JsVal :=
  (d1 <- Js.get a "date_time" ;;
   orElse d1
     (d2 <- Js.get a "datetime" ;;
      orElse d2
        (d3 <- Js.get a "scheduled_at" ;; Ok (Js.or d3 (JNum (Num.ofZ 0))))))%exc.

(** [new Date(a.date_time || a.datetime || a.scheduled_at || 0)] *)
Definition attemptDate (a : JsVal) : Exc (option Z) :=
  (v <- attemptStamp a ;; Js.DateValue v)%exc.

(** The comparator handed to [arr.sort]. *)
Definition compareAttempts (a b : JsVal) : Exc JsNum :=
  (dateA <- attemptDate a ;;
   dateB <- attemptDate b ;;
   Ok (Js.dateDiff dateA dateB))%exc.

(** [Array.prototype.sort] is a stable sort; a comparator result that is
    NaN counts as zero.  It is written here as an insertion sort, with
    which every stable sort agrees when the comparator is a consistent
    order.  When it is not (an unreadable timestamp makes it answer NaN)
    the language leaves the order to the engine, and the order found here
    need not be the engine's; an array of which every two neighbours
    compare as NaN or zero is left as it is by this sort and by the
    engine's run detection alike. *)
Fixpoint insertBy (cmp : JsVal -> JsVal -> Exc JsNum) (x : JsVal) (l : list JsVal)
  : Exc (list JsVal) :=
  match l with
  | [] => Ok [x]
  | y :: ys =>
      (v <- cmp x y ;;
       if Num.isPositive v
       then (r <- insertBy cmp x ys ;; Ok (y :: r))
       else Ok (x :: y :: ys))%exc
  end.

Fixpoint sortBy (cmp : JsVal -> JsVal -> Exc JsNum) (l : list JsVal) : Exc (list JsVal) :=
  match l with
  | [] => Ok []
  | x :: xs => (s <- sortBy cmp xs ;; insertBy cmp x s)%exc
  end.

Definition isUndefined (v : JsVal) : bool :=
  match v with JUndefined => true | _ => false end.

(** [arr.sort(cmp)]: [undefined] elements go last without being
    compared. *)
Definition Array_sort (cmp : JsVal -> JsVal -> Exc JsNum) (arr : list JsVal)
  : Exc (list JsVal) :=
  (s <- sortBy cmp (filter (fun v => negb (isUndefined v)) arr) ;;
   Ok (s ++ filter isUndefined arr)%list)%exc.

(** The two-location probe of the attempts response. *)
Definition attemptsOf (body : JsVal) : list JsVal :=
  match Js.getOpt body "payload" with
  | JArr l => l
  | _ => match Js.getOpt body "attempts" with
         | JArr l => l
         | _ => []
         end
  end.

(** [if (arr.length > 0) { arr.sort(...); attemptId = Number(arr[0].id); }] *)
Definition resolveAttempt (body : JsVal) (attemptId : JsNum) : Exc JsNum :=
  let arr := attemptsOf body in
  if (0 <? length arr)%nat then
    (sorted <- Array_sort compareAttempts arr ;;
     id <- Js.get (nth 0%nat sorted JUndefined) "id" ;;
     Js.ToNumber id)%exc
  else Ok attemptId.

Definition upstreamError (r : SealResult) : HttpReply :=
  mkReply 200
    (JObj [("error", JObj [("reason", JStr "upstream_error");
                           ("status", statusNum (status r));
                           ("body", body_of r)])]).

Definition putJson (v : JsVal) : RequestInit :=
  mkInit (Some "PUT") (Some (JSON_stringify v)) None.

Definition noBillingAttempt : HttpReply :=
  mkReply 200
    (JObj [("error",
            JObj [("reason", JStr "no_billing_attempt_found");
                  ("message", JStr "Could not find an upcoming billing attempt for this subscription.")])]).

(** The body of the reschedule call. *)
Definition reschedulePayload (attemptId subscriptionId : JsNum)
           (date time timezone : string) (resetSchedule : JsVal) : JsVal :=
  JObj [("id", JNum attemptId);
        ("subscription_id", JNum subscriptionId);
        ("action", JStr "reschedule");
        ("date", JStr date);
        ("time", JStr time);
        ("timezone", JStr timezone);
        ("reset_schedule", resetSchedule)].

(** The end of the reschedule handler, from [if (!attemptId)] on, as a
    function of the attempt id resolved before it. *)
Definition rescheduleAttempt (env : Env) (subscriptionId : JsNum)
           (date time timezone : string) (resetSchedule : JsVal)
           (attemptId : JsNum) : Prog HttpReply :=
  (if negb (Num.truthy attemptId) then Ret noBillingAttempt
   else
     let payload :=
       reschedulePayload attemptId subscriptionId date time timezone resetSchedule in
     updateResp <- callSeal env "/subscription-billing-attempt" (putJson payload) ;;
     if negb (ok updateResp) then Ret (upstreamError updateResp)
     else
       Ret (mkReply 200
              (JObj [("ok", JBool true);
                     ("billing_attempt_id", JNum attemptId);
                     ("result", body_of updateResp)])))%prog.

(** The path of the attempts query. *)
Definition attemptsPath (subscriptionId : JsNum) : string :=
  "/subscription-billing-attempts?subscription_id=" ++ NumberToString subscriptionId.

(** [PUT /api/subscription/:id/reschedule], given how the revision
    computes [resetSchedule] from [req.body?.reset_schedule]. *)
Definition put_api_subscription_reschedule (resetOf : JsVal -> JsVal)
           (env : Env) (req : Request) : Prog HttpReply :=
  tryCatch
    (let subscriptionId := Num.StringToNumber (params_id req) in
     if negb (Num.truthy subscriptionId) then
       Ret (mkReply 400 (JObj [("error", JStr "Missing subscription id")]))
     else
       date <~ Js.trim (bodyFieldCallee "trim") (Js.or (Js.getOpt (req_body req) "date") (JStr "")) ;;
       time <~ Js.trim (bodyFieldCallee "trim") (Js.or (Js.getOpt (req_body req) "time") (JStr "")) ;;
       timezone <~ Js.trim (bodyFieldCallee "trim") (Js.or (Js.getOpt (req_body req) "timezone") (JStr "")) ;;
       let resetSchedule := resetOf (Js.getOpt (req_body req) "reset_schedule") in
       attemptId0 <~ (if Js.truthy (Js.getOpt (req_body req) "attempt_id")
                      then (a <- Js.get (req_body req) "attempt_id" ;; Js.ToNumber a)%exc
                      else Ok (Num.ofZ 0)) ;;
       if JsString.isEmpty date || JsString.isEmpty time || JsString.isEmpty timezone then
         Ret (mkReply 400 (JObj [("error", JStr "Missing date/time/timezone")]))
       else if negb (Num.truthy attemptId0) then
         attemptsResp <- callSeal env (attemptsPath subscriptionId) noInit ;;
         if negb (ok attemptsResp) then Ret (upstreamError attemptsResp)
         else
           attemptId <~ resolveAttempt (body_of attemptsResp) attemptId0 ;;
           rescheduleAttempt env subscriptionId date time timezone resetSchedule attemptId
       else
         rescheduleAttempt env subscriptionId date time timezone resetSchedule attemptId0)%prog
    bridgeException.

End Shared.

(** ** [src/seal-node-app/server.js] *)

Module ServerJs.
Section WithRuntime.
Context {rt : Runtime}.

(** Lines 62-65: [payload.subscriptions], then [subscriptions], then
    [payload]. *)
Definition probe (body : JsVal) : list JsVal :=
  match Js.getOpt (Js.getOpt body "payload") "subscriptions" with
  | JArr l => l
  | _ => match Js.getOpt body "subscriptions" with
         | JArr l => l
         | _ => match Js.getOpt body "payload" with
                | JArr l => l
                | _ => []
                end
         end
  end.

Definition actions : list string := ["pause"; "resume"; "cancel"; "reactivate"].

(** [PUT /api/subscription/:id] *)
Definition put_api_subscription (env : Env) (req : Request) : Prog HttpReply :=
  tryCatch
    (let id := Num.StringToNumber (params_id req) in
     action <~ (s <- Js.toString (bodyFieldCallee "toString") (Js.or (Js.getOpt (req_body req) "action") (JStr "")) ;;
                Ok (JsString.toLowerCase s))%exc ;;
     if negb (Num.truthy id) || JsString.isEmpty action then
       Ret (mkReply 400 (JObj [("error", JStr "Missing id or action")]))
     else if negb (JsString.mem action actions) then
       Ret (mkReply 400
              (JObj [("error", JStr "Invalid action. Must be: pause, resume, cancel, or reactivate")]))
     else
       let sealPath := "/subscription" in
       let request_payload := JObj [("id", JNum id); ("action", JStr action)] in
       r <- callSeal env sealPath (putJson request_payload) ;;
       if negb (ok r) then
         Ret (mkReply 200
                (JObj [("error",
                        JObj [("reason", JStr "upstream_error");
                              ("status", statusNum (status r));
                              ("body", body_of r);
                              ("attempted_endpoint", JStr (SEAL_BASE ++ sealPath));
                              ("request_payload", request_payload)])]))
       else Ret (mkReply 200 (body_of r)))%prog
    bridgeException.

(** Line 140: [req.body?.reset_schedule !== false] *)
Definition resetSchedule (v : JsVal) : JsVal := JBool (negb (Js.strictEq_false v)).

(** The operations of this revision. *)
Inductive Op : Type := ListSubscriptions | ChangeStatus | Reschedule.

Definition handler (op : Op) : Env -> Request -> Prog HttpReply :=
  match op with
  | ListSubscriptions => get_api_subscriptions probe
  | ChangeStatus => put_api_subscription
  | Reschedule => put_api_subscription_reschedule resetSchedule
  end.

(** [app.METHOD(path, checkAuth, handler)] *)
Definition route (op : Op) (env : Env) (req : Request) : Prog HttpReply :=
  checkAuth env req (fun _ => handler op env req).

End WithRuntime.
End ServerJs.

(** ** [src/unnamed/part_000] *)

Module Part000.
Section WithRuntime.
Context {rt : Runtime}.

(** Lines 61-64: [payload], then [subscriptions], then
    [payload.subscriptions]. *)
Definition probe (body : JsVal) : list JsVal :=
  match Js.getOpt body "payload" with
  | JArr l => l
  | _ => match Js.getOpt body "subscriptions" with
         | JArr l => l
         | _ => match Js.getOpt (Js.getOpt body "payload") "subscriptions" with
                | JArr l => l
                | _ => []
                end
         end
  end.

(** [PUT /api/subscription/:id] *)
Definition put_api_subscription (env : Env) (req : Request) : Prog HttpReply :=
  tryCatch
    (let id := Num.StringToNumber (params_id req) in
     action <~ Js.toString (bodyFieldCallee "toString") (Js.or (Js.getOpt (req_body req) "action") (JStr "")) ;;
     if negb (Num.truthy id) || JsString.isEmpty action then
       Ret (mkReply 400 (JObj [("error", JStr "Missing id or action")]))
     else
       r <- callSeal env ("/subscriptions/" ++ NumberToString id)
              (putJson (JObj [("action", JStr action)])) ;;
       if negb (ok r) then Ret (upstreamError r)
       else Ret (mkReply 200 (body_of r)))%prog
    bridgeException.

(** [PUT /api/subscription/:id/charge-now] *)
Definition put_api_subscription_charge_now (env : Env) (req : Request) : Prog HttpReply :=
  tryCatch
    (let id := Num.StringToNumber (params_id req) in
     if negb (Num.truthy id) then
       Ret (mkReply 400 (JObj [("error", JStr "Missing id")]))
     else
       let reset :=
         if Js.truthy (Js.getOpt (req_body req) "reset_schedule")
         then JStr "true" else JStr "true" in
       r <- callSeal env ("/subscriptions/" ++ NumberToString id ++ "/charge_now")
              (putJson (JObj [("reset_schedule", reset)])) ;;
       if negb (ok r) then Ret (upstreamError r)
       else Ret (mkReply 200 (body_of r)))%prog
    bridgeException.

(** Line 140: [req.body?.reset_schedule ? "true" : "true"] *)
Definition resetSchedule (v : JsVal) : JsVal :=
  if Js.truthy v then JStr "true" else JStr "true".

(** The operations of this revision. *)
Inductive Op : Type := ListSubscriptions | ChangeStatus | ChargeNow | Reschedule.

Definition handler (op : Op) : Env -> Request -> Prog HttpReply :=
  match op with
  | ListSubscriptions => get_api_subscriptions probe
  | ChangeStatus => put_api_subscription
  | ChargeNow => put_api_subscription_charge_now
  | Reschedule => put_api_subscription_reschedule resetSchedule
  end.

(** [app.METHOD(path, checkAuth, handler)] *)
Definition route (op : Op) (env : Env) (req : Request) : Prog HttpReply :=
  checkAuth env req (fun _ => handler op env req).

End WithRuntime.
End Part000.

(** ** A runtime to run the model on examples

    Integers print as JavaScript prints them below [10^21]; the examples
    use no other finite value.  Dates are read in the ISO forms
    [YYYY-MM-DD], [YYYY-MM-DDTHH:mm] and [YYYY-MM-DDTHH:mm:ss], with an
    optional final [Z], as UTC. *)

Module Example.

Definition printNumber (n : JsNum) : string :=
  match n with
  | NaN => "NaN"
  | Infinity false => "Infinity"
  | Infinity true => "-Infinity"
  | Finite q =>
      let q' := Qred q in
      match Qden q' with
      | xH => NilZero.string_of_int (Z.to_int (Qnum q'))
      | d => NilZero.string_of_int (Z.to_int (Qnum q')) ++ "/"
             ++ NilZero.string_of_int (Z.to_int (Zpos d))
      end
  end.

Definition two (a b : ascii) : option Z :=
  match Num.digitIn 10 a, Num.digitIn 10 b with
  | Some x, Some y => Some (10 * x + y)
  | _, _ => None
  end.

(** Days from 1970-01-01 to the civil date [y-m-d]. *)
Definition daysFromCivil (y m d : Z) : Z :=
  let y' := if m <=? 2 then y - 1 else y in
  let era := y' / 400 in
  let yoe := y' - era * 400 in
  let doy := (153 * (if 2 <? m then m - 3 else m + 9) + 2) / 5 + d - 1 in
  let doe := yoe * 365 + yoe / 4 - yoe / 100 + doy in
  era * 146097 + doe - 719468.

Definition clock (s : string) : option Z :=
  match s with
  | String h1 (String h2 (String ":" (String m1 (String m2 rest)))) =>
      match two h1 h2, two m1 m2 with
      | Some h, Some m =>
          if (h <? 24) && (m <? 60) then
            match rest with
            | EmptyString | String "Z" EmptyString => Some ((h * 60 + m) * 60000)
            | String ":" (String s1 (String s2 tail)) =>
                match two s1 s2, tail with
                | Some sec, EmptyString | Some sec, String "Z" EmptyString =>
                    if sec <? 60 then Some ((h * 60 + m) * 60000 + sec * 1000) else None
                | _, _ => None
                end
            | _ => None
            end
          else None
      | _, _ => None
      end
  | _ => None
  end.

(** [Date.parse] in a process whose time zone is UTC, for the forms
    [YYYY-MM-DD], [YYYY-MM-DDTHH:mm] and [YYYY-MM-DDTHH:mm:ss], the last two
    also with a space for the [T] or with a final [Z]; a text without
    digits is no date.  It stands for the engine's parser in the examples
    only. *)
Definition parseDate (s : string) : option Z :=
  match s with
  | String y1 (String y2 (String y3 (String y4 (String "-"
      (String m1 (String m2 (String "-" (String d1 (String d2 rest))))))))) =>
      match two y1 y2, two y3 y4, two m1 m2, two d1 d2 with
      | Some yh, Some yl, Some m, Some d =>
          if (1 <=? m) && (m <=? 12) && (1 <=? d) && (d <=? 31) then
            let day := daysFromCivil (100 * yh + yl) m d * 86400000 in
            match rest with
            | EmptyString => Some day
            | String "T" t | String " " t =>
                match clock t with
                | Some ms => Some (day + ms)
                | None => None
                end
            | _ => None
            end
          else None
      | _, _, _, _ => None
      end
  | _ => None
  end.

Definition runtime : Runtime :=
  {| NumberToString := printNumber; Date_parse := parseDate |}.

Definition env : Env := mkEnv (Some "s3cret") (Some "seal-token").

Definition jsonResponse (st : Z) (v : JsVal) : FetchOutcome :=
  Responded (mkResponse st (Some "application/json; charset=utf-8") (Some v) None).

(** An upstream that answers every call with [200] and [v]. *)
Definition always (v : JsVal) : Upstream := fun _ _ => jsonResponse 200 v.

(** An upstream that lists [attempts] on the first call and accepts the
    second. *)
Definition withAttempts (attempts : list JsVal) : Upstream :=
  fun n _ =>
    match n with
    | O => jsonResponse 200 (JObj [("success", JBool true); ("payload", JArr attempts)])
    | _ => jsonResponse 200 (JObj [("success", JBool true)])
    end.

Definition attempt (id : Z) (field stamp : string) : JsVal :=
  JObj [("id", JNum (Num.ofZ id)); (field, JStr stamp)].

Definition rescheduleBody : JsVal :=
  JObj [("date", JStr "2025-11-20"); ("time", JStr "09:30");
        ("timezone", JStr "America/Chicago")].

Definition request (id : string) (b : JsVal) : Request :=
  mkRequest (Some "Bearer s3cret") id JUndefined b.

End Example.

(** * The vocabulary of the properties

    The words the properties below are stated in: what a request or a
    reply is like, which call an operation issues, what the scheduled
    timestamp of a billing attempt is. *)

Unset Implicit Arguments.

(** ** The guard *)

(** The request carries exactly the header the guard expects. *)
Definition authorized (env : Env) (req : Request) : Prop :=
  authorization req = Some ("Bearer " ++ envText (BRIDGE_BEARER env)).

Definition unauthorized : HttpReply :=
  mkReply 401 (JObj [("error", JStr "Unauthorized")]).

(** ** The result of [callSeal] *)

(** [sub] occurs in [s]. *)
Definition contains (s sub : string) : Prop :=
  exists pre post, s = pre ++ sub ++ post.

(** The response carries a [content-type] header that names JSON; it
    carries none, or one that does not. *)
Definition jsonHeader (resp : FetchResponse) : Prop :=
  exists ct, resp_content_type resp = Some ct /\ contains ct "application/json".

Definition otherHeader (resp : FetchResponse) : Prop :=
  resp_content_type resp = None
  \/ (exists ct, resp_content_type resp = Some ct /\ ~ contains ct "application/json").

(** ** The list operation and its envelope probe *)

(** The [email] query parameter is missing, empty or white space only. *)
Definition missingEmail (req : Request) : Prop :=
  query_email req = JUndefined
  \/ exists s, query_email req = JStr s /\ JsString.whitespaceOnly s.

Definition missingEmailReply : HttpReply :=
  mkReply 200
    (JObj [("subscriptions", JArr []);
           ("error", JObj [("reason", JStr "missing_email")])]).

(** The three places where an upstream body may hold the subscription
    array. *)
Definition asArray (v : JsVal) : option (list JsVal) :=
  match v with
  | JArr l => Some l
  | _ => None
  end.

Definition atPayload (body : JsVal) : option (list JsVal) :=
  asArray (Js.getOpt body "payload").

Definition atSubscriptions (body : JsVal) : option (list JsVal) :=
  asArray (Js.getOpt body "subscriptions").

Definition atPayloadSubscriptions (body : JsVal) : option (list JsVal) :=
  asArray (Js.getOpt (Js.getOpt body "payload") "subscriptions").

(** The arrays found at the three places. *)
Definition holders (body : JsVal) : list (list JsVal) :=
  concat (map (fun o : option (list JsVal) => match o with Some l => [l] | None => [] end)
              [atPayload body; atSubscriptions body; atPayloadSubscriptions body]).

(** The first array of a list of candidates, the empty array when there is
    none. *)
Fixpoint firstArray (candidates : list (option (list JsVal))) : list JsVal :=
  match candidates with
  | [] => []
  | Some l :: _ => l
  | None :: rest => firstArray rest
  end.

(** ** Replies and calls of the operations *)

(** The result of [callSeal] on a response. *)
Definition sealResult (resp : FetchResponse) : SealResult :=
  mkResult (resp_ok resp) (resp_status resp) (readBody resp).

Definition missingId : HttpReply :=
  mkReply 400 (JObj [("error", JStr "Missing id")]).

(** The one call of the charge-now operation. *)
Definition chargeNowCall {rt : Runtime} (env : Env) (id : JsNum) : FetchRequest :=
  fetchArgs env ("/subscriptions/" ++ NumberToString id ++ "/charge_now")
    (putJson (JObj [("reset_schedule", JStr "true")])).

Definition missingSubscriptionId : HttpReply :=
  mkReply 400 (JObj [("error", JStr "Missing subscription id")]).

Definition missingIdOrAction : HttpReply :=
  mkReply 400 (JObj [("error", JStr "Missing id or action")]).

(** The [action] field has a string form: [(req.body?.action ||
    "").toString()] returns [s]. *)
Definition actionText {rt : Runtime} (req : Request) (s : string) : Prop :=
  Js.toString (bodyFieldCallee "toString") (Js.or (Js.getOpt (req_body req) "action") (JStr "")) = Ok s.

(** The field [k] of the body is the string [s], not blank. *)
Definition textField (req : Request) (k s : string) : Prop :=
  Js.getOpt (req_body req) k = JStr s /\ JsString.trim s <> "".

(** The [reset_schedule] the caller asks for: the boolean supplied, [true]
    when the field is omitted. *)
Definition requestedReset (v : JsVal) : option bool :=
  match v with
  | JBool b => Some b
  | JUndefined => Some true
  | _ => None
  end.

Definition invalidAction : HttpReply :=
  mkReply 400
    (JObj [("error", JStr "Invalid action. Must be: pause, resume, cancel, or reactivate")]).

(** ** Billing attempts and their timestamps *)

Section Timestamps.
Context {rt : Runtime}.











End Timestamps.

(** The upstream's answer holds the attempts array [l]: at [payload], or
    at [attempts] when [payload] is not an array. *)
Definition holdsAttempts (body : JsVal) (l : list JsVal) : Prop :=
  Js.getOpt body "payload" = JArr l
  \/ ((forall l', Js.getOpt body "payload" <> JArr l')
      /\ Js.getOpt body "attempts" = JArr l).

(** The reschedule call for an attempt id. *)
Definition rescheduleCall (env : Env) (req : Request) (date time timezone : string)
           (reset : JsVal) (attemptId : JsNum) : FetchRequest :=
  fetchArgs env "/subscription-billing-attempt"
    (putJson (reschedulePayload attemptId (Num.StringToNumber (params_id req))
                (JsString.trim date) (JsString.trim time) (JsString.trim timezone) reset)).

(** The attempts query of a reschedule request. *)
Definition attemptsCall {rt : Runtime} (env : Env) (req : Request) : FetchRequest :=
  fetchArgs env (attemptsPath (Num.StringToNumber (params_id req))) noInit.

(** ** The reply contract *)

(** [reply.body.error.reason], when it is a string. *)
Definition reasonOf (r : HttpReply) : option string :=
  match Js.prop (Js.prop (reply_body r) "error") "reason" with
  | JStr s => Some s
  | _ => None
  end.

(** A reply of status 200 that carries [error.reason = reason]. *)
Definition softError (reason : string) (r : HttpReply) : Prop :=
  reply_status r = 200 /\ reasonOf r = Some reason.

(** The shape of a computation that keeps the reply contract: it never
    ends in an uncaught exception; it answers 400 or 401 only before any
    upstream call, and 200 otherwise; a call that the upstream answers
    outside 2xx ends in [upstream_error], and one that the transport fails
    ends in [bridge_exception]. *)
Fixpoint Sound (called : bool) (p : Prog HttpReply) : Prop :=
  match p with
  | Ret r =>
      reply_status r = 200
      \/ (called = false /\ (reply_status r = 400 \/ reply_status r = 401))
  | Throw _ => False
  | Fetch _ k =>
      (forall resp,
          if resp_ok resp then Sound true (k (Responded resp))
          else exists r, k (Responded resp) = Ret r /\ softError "upstream_error" r)
      /\ (forall e, exists r, k (Rejected e) = Ret r /\ softError "bridge_exception" r)
  end.

(** The reply contract, on a run. *)
Definition keepsContract (up : Upstream) (n : nat) (p : Prog HttpReply) : Prop :=
  exists reply xs,
    run up n p = (Ok reply, xs)
    /\ (reply_status reply = 200
        \/ (xs = [] /\ (reply_status reply = 400 \/ reply_status reply = 401)))
    /\ (forall x e, In x xs -> snd x = Rejected e -> softError "bridge_exception" reply)
    /\ (forall x resp, In x xs -> snd x = Responded resp -> resp_ok resp = false ->
                       softError "upstream_error" reply).



(** * Further vocabulary: what a computation may call and reply *)

(** Every call the computation can issue satisfies [P], and no run of it
    issues more than [budget] calls. *)
Fixpoint Calls {A} (P : FetchRequest -> Prop) (budget : nat) (p : Prog A) {struct p}
  : Prop :=
  match p with
  | Fetch req k =>
      match budget with
      | O => False
      | S b => P req /\ forall o, Calls P b (k o)
      end
  | _ => True
  end.

(** Every value the computation can return satisfies [P]. *)
Fixpoint Leaves {A} (P : A -> Prop) (p : Prog A) : Prop :=
  match p with
  | Ret a => P a
  | Throw _ => True
  | Fetch _ k => forall o, Leaves P (k o)
  end.

(** The two headers [callSeal] sets. *)
Definition sealHeaders (env : Env) : list (string * option string) :=
  [("Content-Type", Some "application/json"); ("X-Seal-Token", SEAL_TOKEN env)].

(** A call as the handlers issue them: to a path under [SEAL_BASE], with
    the two headers of [callSeal] and nothing else, and either without
    method and body (a GET) or as a PUT of a JSON text. *)
Definition handlerCall (env : Env) (r : FetchRequest) : Prop :=
  (exists path, url r = SEAL_BASE ++ path)
  /\ headers (init r) = Some (sealHeaders env)
  /\ ((method (init r) = None /\ body (init r) = None)
      \/ (method (init r) = Some "PUT" /\ exists v, body (init r) = Some (JSON_stringify v))).

(** The reply has a [subscriptions] array. *)
Definition hasSubscriptions (r : HttpReply) : Prop :=
  reply_status r = 200 /\ exists l, Js.prop (reply_body r) "subscriptions" = JArr l.

(** The calls a route can issue, as a bound: two for a reschedule, one
    otherwise. *)
Definition ServerJs_budget (op : ServerJs.Op) : nat :=
  match op with ServerJs.Reschedule => 2 | _ => 1 end.

Definition Part000_budget (op : Part000.Op) : nat :=
  match op with Part000.Reschedule => 2 | _ => 1 end.

(** ** The list operation *)

(** The first truthy value of a list, [d] when there is none: the value
    of [a || b || ... || d]. *)
Fixpoint firstTruthy (l : list JsVal) (d : JsVal) : JsVal :=
  match l with
  | [] => d
  | x :: rest => if Js.truthy x then x else firstTruthy rest d
  end.

(** An item of a subscription, normalised: [quantity] becomes [qty]. *)
Definition normalItem (i : JsVal) : JsVal :=
  JObj [("title", Js.prop i "title"); ("qty", Js.prop i "quantity"); ("id", Js.prop i "id")].

(** The items of an upstream subscription: its [items] when that is an
    array, none when it is falsy. *)
Definition itemsOf (s : JsVal) : option (list JsVal) :=
  match Js.or (Js.prop s "items") (JArr []) with
  | JArr l => Some l
  | _ => None
  end.

(** An upstream entry that can be normalised: neither [null] nor
    [undefined], with [items] falsy or an array without [null] and
    [undefined] entries. *)
Definition normalizable (s : JsVal) : bool :=
  negb (Js.nullish s)
  && match itemsOf s with
     | Some l => forallb (fun i => negb (Js.nullish i)) l
     | None => false
     end.

(** The normalised subscription of an entry. *)
Definition normalized (s : JsVal) : JsVal :=
  JObj [("id", Js.prop s "id");
        ("status", Js.prop s "status");
        ("next_charge_at",
         firstTruthy [Js.prop s "next_billing"; Js.prop s "next_order_datetime";
                      Js.prop s "next_charge_at"] JNull);
        ("items", JArr (map normalItem (match itemsOf s with Some l => l | None => [] end)));
        ("discounts", Js.or (Js.prop s "discount_codes") (JArr []))].

(** The [email] query parameter is a string that is not blank. *)
Definition emailGiven (req : Request) (email : string) : Prop :=
  query_email req = JStr email /\ JsString.trim email <> "".

(** The one call of the list operation. *)
Definition listCall (env : Env) (email : string) : FetchRequest :=
  fetchArgs env
    ("/subscriptions?query=" ++ Js.encodeURIComponent (JsString.trim email)
       ++ "&with-items=true") noInit.

(** The reply of the list operation to an exception. *)
Definition listFailure (message : string) : HttpReply :=
  mkReply 200
    (JObj [("subscriptions", JArr []);
           ("error", JObj [("reason", JStr "bridge_exception");
                           ("message", JStr message)])]).

(** A character that [encodeURIComponent] lets through or writes: an
    unreserved character or the percent sign. *)
Definition uriSafe (c : ascii) : bool :=
  Js.unreserved c || Ascii.eqb c "%".

(** ** Replies that hand the upstream's answer on *)

(** The reply carries the status and the body of the upstream's answer
    under [error]. *)
Definition echoes (resp : FetchResponse) (r : HttpReply) : Prop :=
  Js.prop (Js.prop (reply_body r) "error") "status" = statusNum (resp_status resp)
  /\ Js.prop (Js.prop (reply_body r) "error") "body" = readBody resp.

(** A computation that ends, on an answer outside 2xx, in a reply that
    carries the status and the body of that answer. *)
Fixpoint Echoes (p : Prog HttpReply) : Prop :=
  match p with
  | Fetch _ k =>
      (forall resp,
          if resp_ok resp then Echoes (k (Responded resp))
          else exists r, k (Responded resp) = Ret r /\ echoes resp r)
      /\ (forall e, Echoes (k (Rejected e)))
  | _ => True
  end.

(** A computation that issues at most one call, ends with its answer, and
    answers a 2xx answer with 200 and the body read off that answer. *)
Definition PassThrough (p : Prog HttpReply) : Prop :=
  match p with
  | Fetch _ k =>
      forall o, exists r,
        k o = Ret r
        /\ forall resp, o = Responded resp -> resp_ok resp = true ->
                        r = mkReply 200 (readBody resp)
  | _ => True
  end.

(** The status-change call of [server.js], and that of [part_000]. *)
Definition statusCall_ServerJs (env : Env) (id : JsNum) (action : string) : FetchRequest :=
  fetchArgs env "/subscription"
    (putJson (JObj [("id", JNum id); ("action", JStr action)])).

Definition statusCall_Part000 {rt : Runtime} (env : Env) (id : JsNum) (action : string)
  : FetchRequest :=
  fetchArgs env ("/subscriptions/" ++ NumberToString id)
    (putJson (JObj [("action", JStr action)])).

(** ** The reschedule operation *)

(** What [(v || "").trim()] reads off a field that is falsy or a string:
    the empty string, or the string trimmed. *)
Definition readsAs (v : JsVal) (s : string) : Prop :=
  (Js.truthy v = false /\ s = "")
  \/ (exists x, v = JStr x /\ s = JsString.trim x).

(** A truthy value that is not a string: [(v || "").trim] is not a
    function. *)
Definition notText (v : JsVal) : bool :=
  Js.truthy v && match v with JStr _ => false | _ => true end.

Definition missingSchedule : HttpReply :=
  mkReply 400 (JObj [("error", JStr "Missing date/time/timezone")]).

(** The reply of the catch clause of the handlers other than the list
    handler. *)
Definition bridgeFailure (message : string) : HttpReply :=
  mkReply 200
    (JObj [("error", JObj [("reason", JStr "bridge_exception");
                           ("message", JStr message)])]).

(** The reply to a reschedule that the upstream accepted. *)
Definition rescheduled (attemptId : JsNum) (resp : FetchResponse) : HttpReply :=
  mkReply 200
    (JObj [("ok", JBool true);
           ("billing_attempt_id", JNum attemptId);
           ("result", readBody resp)]).

(** ** Path ids, headers *)

Definition isDigit (c : ascii) : bool :=
  let n := JsString.code c in ((48 <=? n) && (n <=? 57))%N.

(** A non-empty string of decimal digits. *)
Definition allDigits (s : string) : bool :=
  negb (JsString.isEmpty s) && forallb isDigit (list_ascii_of_string s).

(** A string with a character other than ["0"]. *)
Definition hasNonZero (s : string) : bool :=
  existsb (fun c => negb (Ascii.eqb c "0")) (list_ascii_of_string s).

(** The value of a header in a header object: [None] when the object has
    no such key. *)
Fixpoint headerOf (k : string) (h : list (string * option string)) : option (option string) :=
  match h with
  | [] => None
  | (k', v) :: rest => if String.eqb k k' then Some v else headerOf k rest
  end.

(** The headers [callSeal] hands to [fetch]. *)
Definition sentHeaders (env : Env) (i : RequestInit) : list (string * option string) :=
  match headers (init (fetchArgs env "" i)) with
  | Some h => h
  | None => []
  end.

(** The number a string of decimal digits writes, continuing from [acc]. *)
Fixpoint decimalValue (acc : Z) (s : string) : Z :=
  match s with
  | EmptyString => acc
  | String c r => decimalValue (acc * 10 + (Z.of_N (JsString.code c) - 48)) r
  end.

(** * Properties *)

(** ** Strings *)

Lemma trimStart_whitespaceOnly (s : string) :
  JsString.whitespaceOnly s -> JsString.trimStart s = "".
Proof.
  unfold JsString.whitespaceOnly.
  induction s as [|c r IH]; simpl; intros H; [reflexivity|].
  inversion H as [|? ? Hc Hr]; subst.
  rewrite Hc. now apply IH.
Qed.

Lemma trim_whitespaceOnly (s : string) :
  JsString.whitespaceOnly s -> JsString.trim s = "".
Proof.
  intros H. unfold JsString.trim.
  now rewrite trimStart_whitespaceOnly.
Qed.

Lemma prefix_app (sub s : string) :
  prefix sub s = true <-> exists post, s = sub ++ post.
Proof.
  revert s. induction sub as [|c r IH]; intros s.
  - destruct s; simpl; (split; [intros _; eexists; reflexivity | intros _; reflexivity]).
  - destruct s as [|d t]; simpl.
    + split; [discriminate | intros [post H]; discriminate].
    + destruct (ascii_dec c d) as [->|Hne].
      * rewrite IH. split; intros [post H]; exists post.
        -- now rewrite H.
        -- now inversion H.
      * split; [discriminate | intros [post H]; inversion H; congruence].
Qed.

(** [includes] finds [sub] exactly when [s] is [pre ++ sub ++ post]. *)
Lemma includes_spec (s sub : string) :
  JsString.includes s sub = true <-> exists pre post, s = pre ++ sub ++ post.
Proof.
  induction s as [|c r IH]; cbn [JsString.includes].
  - destruct (prefix sub "") eqn:E.
    + split; [intros _|intros _; reflexivity].
      apply prefix_app in E as [post E]. now exists "", post.
    + split; [discriminate|].
      intros [pre [post H]].
      destruct pre; [|discriminate]. simpl in H.
      assert (prefix sub "" = true) by (apply prefix_app; now exists post).
      congruence.
  - destruct (prefix sub (String c r)) eqn:E.
    + split; [intros _|intros _; reflexivity].
      apply prefix_app in E as [post E]. now exists "", post.
    + rewrite IH. split.
      * intros [pre [post H]]. exists (String c pre), post. simpl. now rewrite H.
      * intros [pre [post H]]. destruct pre as [|d pre]; simpl in H.
        -- assert (prefix sub (String c r) = true) by (apply prefix_app; now exists post).
           congruence.
        -- inversion H. now exists pre, post.
Qed.

(** ** The guard *)

Lemma optString_neqb_true (a : option string) (b : string) :
  a <> Some b -> optString_neqb a b = true.
Proof.
  destruct a as [s|]; simpl; [|reflexivity].
  intros H. destruct (String.eqb_spec s b); [subst; congruence | reflexivity].
Qed.

Lemma checkAuth_pass (env : Env) (req : Request) (next : unit -> Prog HttpReply) :
  authorized env req -> checkAuth env req next = next tt.
Proof.
  unfold authorized, checkAuth. intros ->. simpl.
  now rewrite String.eqb_refl.
Qed.

Lemma checkAuth_reject (env : Env) (req : Request) (next : unit -> Prog HttpReply) :
  ~ authorized env req -> checkAuth env req next = Ret unauthorized.
Proof.
  unfold authorized, checkAuth. intros H.
  now rewrite optString_neqb_true.
Qed.

(** ** C8: the result of [callSeal] *)

Lemma readBody_json (resp : FetchResponse) :
  contains (contentType resp) "application/json" ->
  readBody resp = match resp_json resp with Some v => v | None => JObj [] end.
Proof.
  intros H. unfold readBody.
  apply includes_spec in H. now rewrite H.
Qed.

Lemma readBody_text (resp : FetchResponse) :
  ~ contains (contentType resp) "application/json" ->
  readBody resp = JObj [("non_json", JStr (orEmpty (resp_text resp)))].
Proof.
  intros H. unfold readBody.
  destruct (JsString.includes (contentType resp) "application/json") eqn:E;
    [|reflexivity].
  apply includes_spec in E. contradiction.
Qed.

Lemma contains_empty (sub : string) : sub <> "" -> ~ contains "" sub.
Proof.
  intros Hne (pre & post & H). destruct pre; [|discriminate H].
  destruct sub; [now apply Hne | discriminate H].
Qed.

Lemma jsonHeader_contentType (resp : FetchResponse) :
  jsonHeader resp -> contains (contentType resp) "application/json".
Proof. intros (ct & E & H). unfold contentType. now rewrite E. Qed.

Lemma otherHeader_contentType (resp : FetchResponse) :
  otherHeader resp -> ~ contains (contentType resp) "application/json".
Proof.
  unfold contentType. intros [E|(ct & E & H)]; rewrite E; [|exact H].
  apply contains_empty. discriminate.
Qed.

Lemma header_cases (resp : FetchResponse) : jsonHeader resp \/ otherHeader resp.
Proof.
  unfold jsonHeader, otherHeader.
  destruct (resp_content_type resp) as [ct|]; [|right; now left].
  destruct (JsString.includes ct "application/json") eqn:E.
  - left. exists ct. split; [reflexivity|]. now apply includes_spec.
  - right. right. exists ct. split; [reflexivity|].
    intros H. apply includes_spec in H. congruence.
Qed.

Lemma resp_ok_2xx (resp : FetchResponse) :
  resp_ok resp = true <-> 200 <= resp_status resp <= 299.
Proof. unfold resp_ok. lia. Qed.

(** C8.  [callSeal] issues one [fetch].  When the upstream answers, with
    whatever status, it returns the triple: [ok] is true exactly for a
    status from 200 to 299, [status] is the upstream status, and [body] is
    the parsed JSON when the response has a [content-type] header that
    contains [application/json] (the empty object when [json()] rejects)
    and [{non_json: text}] when the header is absent or does not contain
    it (the empty text when [text()] rejects).  It throws exactly when
    [fetch] rejects. *)
Theorem C8_callSeal_result (env : Env) (path : string) (i : RequestInit)
        (up : Upstream) (n : nat) :
  calls up n (callSeal env path i) = [fetchArgs env path i]
  /\ (forall resp, up n (fetchArgs env path i) = Responded resp ->
      exists r, result up n (callSeal env path i) = Ok r
        /\ status r = resp_status resp
        /\ (ok r = true <-> 200 <= resp_status resp <= 299)
        /\ (forall ct, resp_content_type resp = Some ct ->
                       contains ct "application/json" ->
            body_of r = match resp_json resp with Some v => v | None => JObj [] end)
        /\ (resp_content_type resp = None
            \/ (exists ct, resp_content_type resp = Some ct
                           /\ ~ contains ct "application/json") ->
            body_of r
            = JObj [("non_json",
                     JStr (match resp_text resp with Some t => t | None => "" end))]))
  /\ (forall e, result up n (callSeal env path i) = Raise e
                <-> up n (fetchArgs env path i) = Rejected e).
Proof.
  unfold calls, result, callSeal. cbn [run].
  destruct (up n (fetchArgs env path i)) as [resp|e0] eqn:E; cbn.
  - split; [reflexivity|]. split.
    + intros resp' [= <-]. eexists. split; [reflexivity|]. cbn.
      split; [reflexivity|]. split; [apply resp_ok_2xx|].
      split.
      * intros ct Hct Hin. apply readBody_json, jsonHeader_contentType.
        now exists ct.
      * intros H. now apply readBody_text, otherHeader_contentType.
    + intros e. split; discriminate.
  - split; [reflexivity|]. split.
    + intros resp; discriminate.
    + intros e. split; congruence.
Qed.

(** ** C2: the bearer guard *)

(** C2.  When the [Authorization] header is absent, or is any string other
    than [Bearer <secret>] compared character by character, the guard
    answers 401 with [{error: "Unauthorized"}] and never calls [next]: on
    every guarded route of both revisions the reply is that one and no
    upstream call is issued. *)
Theorem C2_unauthorized_short_circuits {rt : Runtime} (env : Env) (req : Request) :
  authorization req = None
  \/ (exists h, authorization req = Some h
                /\ h <> "Bearer " ++ envText (BRIDGE_BEARER env)) ->
  (forall next, checkAuth env req next = Ret unauthorized)
  /\ (forall op up n, run up n (ServerJs.route op env req) = (Ok unauthorized, []))
  /\ (forall op up n, run up n (Part000.route op env req) = (Ok unauthorized, [])).
Proof.
  intros H.
  assert (Hno : ~ authorized env req).
  { unfold authorized. destruct H as [-> | [h [-> Hne]]]; congruence. }
  split; [intros next; now apply checkAuth_reject|].
  split; intros op up n.
  - unfold ServerJs.route. now rewrite checkAuth_reject.
  - unfold Part000.route. now rewrite checkAuth_reject.
Qed.

Lemma C2_unauthorized_witness :
  run (Example.always JNull) 0
    (ServerJs.route (rt := Example.runtime) ServerJs.Reschedule Example.env
       (mkRequest (Some "bearer s3cret") "77" JUndefined Example.rescheduleBody))
  = (Ok unauthorized, [])
  /\ run (Example.always JNull) 0
       (Part000.route (rt := Example.runtime) Part000.ChargeNow Example.env
          (mkRequest None "77" JUndefined JNull))
     = (Ok unauthorized, []).
Proof.
  split.
  - apply (C2_unauthorized_short_circuits (rt := Example.runtime) Example.env
             (mkRequest (Some "bearer s3cret") "77" JUndefined Example.rescheduleBody)).
    right. exists "bearer s3cret". split; [reflexivity | discriminate].
  - apply (C2_unauthorized_short_circuits (rt := Example.runtime) Example.env
             (mkRequest None "77" JUndefined JNull)).
    left. reflexivity.
Defined.

(** ** C5: the list operation without an email *)

Lemma get_api_subscriptions_missing_email {rt : Runtime}
      (probe : JsVal -> list JsVal) (env : Env) (req : Request) :
  missingEmail req -> get_api_subscriptions probe env req = Ret missingEmailReply.
Proof.
  unfold get_api_subscriptions. intros [-> | [s [-> Hs]]].
  - reflexivity.
  - assert (E : Js.or (JStr s) (JStr "") = JStr s) by (now destruct s).
    rewrite E. cbn -[JsString.trim].
    now rewrite (trim_whitespaceOnly _ Hs).
Qed.

(** C5.  On both revisions an authorised list request whose [email] is
    missing, empty or white space only is answered 200 (not 400) with
    [{subscriptions: [], error: {reason: "missing_email"}}], and no
    upstream call is made. *)
Theorem C5_missing_email {rt : Runtime} (env : Env) (req : Request)
        (up : Upstream) (n : nat) :
  authorized env req ->
  missingEmail req ->
  run up n (ServerJs.route ServerJs.ListSubscriptions env req) = (Ok missingEmailReply, [])
  /\ run up n (Part000.route Part000.ListSubscriptions env req) = (Ok missingEmailReply, [])
  /\ reply_status missingEmailReply = 200.
Proof.
  intros Ha Hm.
  unfold ServerJs.route, Part000.route.
  rewrite !checkAuth_pass by assumption.
  cbn [ServerJs.handler Part000.handler].
  rewrite !get_api_subscriptions_missing_email by assumption.
  now cbn.
Qed.

Lemma C5_missing_email_witness :
  run (Example.always JNull) 0
      (ServerJs.route (rt := Example.runtime) ServerJs.ListSubscriptions Example.env
         (mkRequest (Some "Bearer s3cret") "" (JStr "   ") JNull))
  = (Ok missingEmailReply, []).
Proof.
  apply (C5_missing_email (rt := Example.runtime) Example.env
           (mkRequest (Some "Bearer s3cret") "" (JStr "   ") JNull)
           (Example.always JNull) 0).
  - reflexivity.
  - right. exists "   ". split; [reflexivity|].
    unfold JsString.whitespaceOnly. cbn. repeat constructor.
Defined.

(** ** C1: the envelope probe of the list operation *)

Lemma ServerJs_probe_order (body : JsVal) :
  ServerJs.probe body
  = firstArray [atPayloadSubscriptions body; atSubscriptions body; atPayload body].
Proof.
  unfold ServerJs.probe, atPayloadSubscriptions, atSubscriptions, atPayload, asArray.
  cbn [firstArray].
  generalize (Js.getOpt (Js.getOpt body "payload") "subscriptions").
  generalize (Js.getOpt body "subscriptions").
  generalize (Js.getOpt body "payload").
  intros [] [] []; reflexivity.
Qed.

Lemma Part000_probe_order (body : JsVal) :
  Part000.probe body
  = firstArray [atPayload body; atSubscriptions body; atPayloadSubscriptions body].
Proof.
  unfold Part000.probe, atPayloadSubscriptions, atSubscriptions, atPayload, asArray.
  cbn [firstArray].
  generalize (Js.getOpt (Js.getOpt body "payload") "subscriptions").
  generalize (Js.getOpt body "subscriptions").
  generalize (Js.getOpt body "payload").
  intros [] [] []; reflexivity.
Qed.

(** An array at [payload] has no [subscriptions] of its own. *)
Lemma payload_excludes_nested (body : JsVal) (l : list JsVal) :
  atPayload body = Some l -> atPayloadSubscriptions body = None.
Proof.
  unfold atPayload, atPayloadSubscriptions, asArray.
  destruct (Js.getOpt body "payload"); try discriminate. reflexivity.
Qed.

(** C1, as the code has it.  Each revision takes the first array in its
    own fixed order, [server.js] looking at [payload.subscriptions], then
    [subscriptions], then [payload], and [part_000] at [payload], then
    [subscriptions], then [payload.subscriptions]; both default to the
    empty array.  When exactly one place holds an array both return it.
    An array at [payload] excludes one at [payload.subscriptions]; when
    [payload] and [subscriptions] both hold arrays [part_000] selects
    [payload] and [server.js] selects [subscriptions]; when [subscriptions]
    and [payload.subscriptions] both do, [part_000] selects [subscriptions]
    and [server.js] selects [payload.subscriptions]. *)
Theorem C1_probe_priority (body : JsVal) :
  ServerJs.probe body
    = firstArray [atPayloadSubscriptions body; atSubscriptions body; atPayload body]
  /\ Part000.probe body
    = firstArray [atPayload body; atSubscriptions body; atPayloadSubscriptions body]
  /\ (forall l, holders body = [l] -> ServerJs.probe body = l /\ Part000.probe body = l)
  /\ (forall p, atPayload body = Some p -> atPayloadSubscriptions body = None)
  /\ (forall p s, atPayload body = Some p -> atSubscriptions body = Some s ->
                  Part000.probe body = p /\ ServerJs.probe body = s)
  /\ (forall s ps, atSubscriptions body = Some s -> atPayloadSubscriptions body = Some ps ->
                   Part000.probe body = s /\ ServerJs.probe body = ps).
Proof.
  rewrite ServerJs_probe_order, Part000_probe_order.
  split; [reflexivity|]. split; [reflexivity|].
  split; [|split; [|split]].
  - intros l. unfold holders. cbn [map concat firstArray].
    destruct (atPayload body), (atSubscriptions body), (atPayloadSubscriptions body);
      cbn; intros [= ]; subst; split; reflexivity.
  - apply payload_excludes_nested.
  - intros p s Hp Hs. rewrite (payload_excludes_nested _ _ Hp), Hp, Hs.
    split; reflexivity.
  - intros s ps Hs Hps. rewrite Hs, Hps. cbn [firstArray].
    destruct (atPayload body) as [p|] eqn:Hp; [|split; reflexivity].
    rewrite (payload_excludes_nested _ _ Hp) in Hps. discriminate.
Qed.

(** C1 as stated fails on [server.js]: with arrays at both [payload] and
    [subscriptions], it selects the one at [subscriptions]. *)
Lemma C1_payload_not_selected :
  let body := JObj [("payload", JArr [JStr "from payload"]);
                    ("subscriptions", JArr [JStr "from subscriptions"])] in
  atPayload body = Some [JStr "from payload"]
  /\ atSubscriptions body = Some [JStr "from subscriptions"]
  /\ ServerJs.probe body = [JStr "from subscriptions"]
  /\ ~ (forall b p, (2 <= length (holders b))%nat -> atPayload b = Some p ->
                    ServerJs.probe b = p /\ Part000.probe b = p).
Proof.
  cbn zeta. split; [reflexivity|]. split; [reflexivity|]. split; [reflexivity|].
  intros H.
  specialize (H (JObj [("payload", JArr [JStr "from payload"]);
                       ("subscriptions", JArr [JStr "from subscriptions"])])
                [JStr "from payload"]).
  destruct H as [H _]; [cbn; lia | reflexivity | discriminate H].
Qed.

(** ** Running composed computations *)

Lemma run_bind {A B} (up : Upstream) (m : Prog A) (f : A -> Prog B) (n : nat) :
  run up n (bind m f)
  = match run up n m with
    | (Ok a, xs) =>
        let '(r, ys) := run up (n + List.length xs) (f a) in (r, (xs ++ ys)%list)
    | (Raise e, xs) => (Raise e, xs)
    end.
Proof.
  revert n. induction m as [a|e|req k IH]; intros n; cbn [bind run].
  - rewrite Nat.add_0_r. now destruct (run up n (f a)).
  - reflexivity.
  - rewrite IH. destruct (run up (S n) (k (up n req))) as [[a|e] xs]; cbn [length].
    + rewrite Nat.add_succ_r. cbn [Nat.add].
      now destruct (run up (S (n + List.length xs)) (f a)).
    + reflexivity.
Qed.

Lemma run_tryCatch {A} (up : Upstream) (m : Prog A) (h : JsError -> Prog A) (n : nat) :
  run up n (tryCatch m h)
  = match run up n m with
    | (Ok a, xs) => (Ok a, xs)
    | (Raise e, xs) =>
        let '(r, ys) := run up (n + List.length xs) (h e) in (r, (xs ++ ys)%list)
    end.
Proof.
  revert n. induction m as [a|e|req k IH]; intros n; cbn [tryCatch run].
  - reflexivity.
  - rewrite Nat.add_0_r. now destruct (run up n (h e)).
  - rewrite IH. destruct (run up (S n) (k (up n req))) as [[a|e] xs]; cbn [length].
    + reflexivity.
    + rewrite Nat.add_succ_r. cbn [Nat.add].
      now destruct (run up (S (n + List.length xs)) (h e)).
Qed.

Lemma run_liftExc {A} (up : Upstream) (m : Exc A) (n : nat) :
  run up n (liftExc m) = (m, []).
Proof. now destruct m. Qed.

Lemma run_callSeal (up : Upstream) (env : Env) (path : string) (i : RequestInit) (n : nat) :
  run up n (callSeal env path i)
  = (match up n (fetchArgs env path i) with
     | Responded resp => Ok (sealResult resp)
     | Rejected e => Raise e
     end,
     [(fetchArgs env path i, up n (fetchArgs env path i))]).
Proof.
  unfold callSeal. cbn [run].
  now destruct (up n (fetchArgs env path i)).
Qed.

Lemma if_same {A} (b : bool) (x : A) : (if b then x else x) = x.
Proof. now destruct b. Qed.

(** ** C7: charge now *)

(** C7.  An authorised charge-now request whose id converts to a number
    other than NaN and 0 issues exactly one upstream call, [PUT
    /subscriptions/:id/charge_now] with body [{reset_schedule: "true"}],
    the string, whatever the body of the request holds, and is answered
    200; an id that converts to NaN or 0 is answered 400 without any call. *)
Theorem C7_charge_now {rt : Runtime} (env : Env) (req : Request)
        (up : Upstream) (n : nat) :
  authorized env req ->
  let id := Num.StringToNumber (params_id req) in
  (Num.truthy id = true ->
   calls up n (Part000.route Part000.ChargeNow env req) = [chargeNowCall env id]
   /\ method (init (chargeNowCall env id)) = Some "PUT"
   /\ url (chargeNowCall env id)
      = SEAL_BASE ++ "/subscriptions/" ++ NumberToString id ++ "/charge_now"
   /\ body (init (chargeNowCall env id))
      = Some (JSON_stringify (JObj [("reset_schedule", JStr "true")]))
   /\ exists reply, result up n (Part000.route Part000.ChargeNow env req) = Ok reply
                    /\ reply_status reply = 200)
  /\ (Num.truthy id = false ->
      run up n (Part000.route Part000.ChargeNow env req) = (Ok missingId, [])).
Proof.
  intros Ha id. unfold calls, result, Part000.route.
  rewrite checkAuth_pass by assumption.
  cbn [Part000.handler]. unfold Part000.put_api_subscription_charge_now.
  fold id. rewrite if_same.
  split; intros Hid; rewrite Hid; cbn [negb]; [|reflexivity].
  rewrite run_tryCatch, run_bind, run_callSeal.
  fold (chargeNowCall env id).
  split; [|repeat split].
  - destruct (up n (chargeNowCall env id)) as [resp|e]; cbn;
      [destruct (resp_ok resp)|]; reflexivity.
  - destruct (up n (chargeNowCall env id)) as [resp|e]; cbn;
      [destruct (resp_ok resp)|]; cbn; eexists; split; reflexivity.
Qed.

Lemma C7_charge_now_witness :
  calls (Example.always JNull) 0
    (Part000.route (rt := Example.runtime) Part000.ChargeNow Example.env
       (Example.request "42" (JObj [("reset_schedule", JBool false)])))
  = [chargeNowCall (rt := Example.runtime) Example.env (Num.ofZ 42)].
Proof.
  apply (C7_charge_now (rt := Example.runtime) Example.env
           (Example.request "42" (JObj [("reset_schedule", JBool false)]))
           (Example.always JNull) 0); reflexivity.
Defined.

(** ** C10: a path id that converts to NaN or 0 *)

Lemma not_truthy_iff (x : JsNum) :
  Num.truthy x = false <-> Num.isNaN x = true \/ Num.isZero x = true.
Proof.
  unfold Num.truthy. rewrite negb_false_iff. apply orb_true_iff.
Qed.

(** C10, as the code has it.  The string ["0"] converts to the number 0.
    For an authorised request whose path id converts to NaN or to 0,
    charge-now and reschedule answer 400 without an upstream call; so does
    the status change, in both revisions, whenever the [action] field of
    the body has a string form.  (The status change converts [action]
    before it looks at the id, and a conversion that throws is answered
    200 by the catch clause.) *)
Theorem C10_falsy_id_rejected {rt : Runtime} (env : Env) (req : Request)
        (up : Upstream) (n : nat) :
  authorized env req ->
  Num.isNaN (Num.StringToNumber (params_id req)) = true
  \/ Num.isZero (Num.StringToNumber (params_id req)) = true ->
  Num.isZero (Num.StringToNumber "0") = true
  /\ run up n (Part000.route Part000.ChargeNow env req) = (Ok missingId, [])
  /\ run up n (ServerJs.route ServerJs.Reschedule env req) = (Ok missingSubscriptionId, [])
  /\ run up n (Part000.route Part000.Reschedule env req) = (Ok missingSubscriptionId, [])
  /\ (forall s, actionText req s ->
        run up n (ServerJs.route ServerJs.ChangeStatus env req) = (Ok missingIdOrAction, [])
        /\ run up n (Part000.route Part000.ChangeStatus env req) = (Ok missingIdOrAction, [])).
Proof.
  intros Ha Hid. apply not_truthy_iff in Hid.
  split; [reflexivity|].
  unfold ServerJs.route, Part000.route.
  rewrite !checkAuth_pass by assumption.
  cbn [ServerJs.handler Part000.handler].
  unfold Part000.put_api_subscription_charge_now, put_api_subscription_reschedule,
    ServerJs.put_api_subscription, Part000.put_api_subscription.
  cbv zeta. rewrite Hid. cbn [negb orb].
  split; [reflexivity|]. split; [reflexivity|]. split; [reflexivity|].
  intros s Hs. unfold actionText in Hs. rewrite Hs.
  split; reflexivity.
Qed.

Lemma C10_falsy_id_witness :
  run (Example.always JNull) 0
    (ServerJs.route (rt := Example.runtime) ServerJs.Reschedule Example.env
       (Example.request "0" Example.rescheduleBody))
  = (Ok missingSubscriptionId, []).
Proof.
  apply (C10_falsy_id_rejected (rt := Example.runtime) Example.env
           (Example.request "0" Example.rescheduleBody) (Example.always JNull) 0).
  - reflexivity.
  - right. reflexivity.
Defined.

(** C10 as stated fails on the status change: with the path id ["0"] and
    an [action] object that has an own [toString] property, the conversion
    of [action] throws before the id is looked at, and the reply is 200
    with [bridge_exception], in both revisions. *)
Lemma C10_status_change_throws_first :
  let req := Example.request "0" (JObj [("action", JObj [("toString", JNum (Num.ofZ 1))])]) in
  exists message,
    let thrown :=
      mkReply 200
        (JObj [("error",
                JObj [("reason", JStr "bridge_exception");
                      ("message", JStr message)])]) in
    authorized Example.env req
    /\ Num.isZero (Num.StringToNumber (params_id req)) = true
    /\ run (Example.always JNull) 0
         (ServerJs.route (rt := Example.runtime) ServerJs.ChangeStatus Example.env req)
       = (Ok thrown, [])
    /\ run (Example.always JNull) 0
         (Part000.route (rt := Example.runtime) Part000.ChangeStatus Example.env req)
       = (Ok thrown, [])
    /\ reply_status thrown <> 400.
Proof.
  cbv zeta. eexists. repeat split; try reflexivity. discriminate.
Qed.

(** ** Requests that pass validation *)

Lemma isEmpty_false (s : string) : s <> "" -> JsString.isEmpty s = false.
Proof. destruct s; [congruence | reflexivity]. Qed.

Lemma textField_read {rt : Runtime} (req : Request) (k s : string) :
  textField req k s ->
  Js.trim (bodyFieldCallee "trim") (Js.or (Js.getOpt (req_body req) k) (JStr "")) = Ok (JsString.trim s)
  /\ JsString.isEmpty (JsString.trim s) = false.
Proof.
  intros [-> Hs]. split; [|now apply isEmpty_false].
  destruct s; [now elim Hs | reflexivity].
Qed.

Lemma get_of_getOpt (v : JsVal) (k : string) (x : JsVal) :
  Js.getOpt v k = x -> x <> JUndefined -> Js.get v k = Ok x.
Proof.
  unfold Js.getOpt, Js.get. destruct (Js.nullish v); congruence.
Qed.

Lemma run_rescheduleAttempt {rt : Runtime} (up : Upstream) (n : nat) (env : Env)
      (sub : JsNum) (date time timezone : string) (reset : JsVal) (a : JsNum) :
  Num.truthy a = true ->
  exists reply,
    run up n (rescheduleAttempt env sub date time timezone reset a)
    = (reply,
       [(fetchArgs env "/subscription-billing-attempt"
           (putJson (reschedulePayload a sub date time timezone reset)),
         up n (fetchArgs env "/subscription-billing-attempt"
                 (putJson (reschedulePayload a sub date time timezone reset))))]).
Proof.
  intros Ha. unfold rescheduleAttempt. rewrite Ha. cbn [negb].
  rewrite run_bind, run_callSeal.
  destruct (up n _) as [resp|e]; cbn; [destruct (resp_ok resp)|]; eexists; reflexivity.
Qed.

(** A validated reschedule request that brings its own attempt id issues
    the reschedule call alone. *)
Lemma reschedule_with_attempt_id {rt : Runtime} (resetOf : JsVal -> JsVal)
      (env : Env) (req : Request) (up : Upstream) (n : nat)
      (date time timezone : string) (a : JsNum) :
  Num.truthy (Num.StringToNumber (params_id req)) = true ->
  textField req "date" date ->
  textField req "time" time ->
  textField req "timezone" timezone ->
  Js.getOpt (req_body req) "attempt_id" = JNum a ->
  Num.truthy a = true ->
  calls up n (put_api_subscription_reschedule resetOf env req)
  = [fetchArgs env "/subscription-billing-attempt"
       (putJson (reschedulePayload a (Num.StringToNumber (params_id req))
                   (JsString.trim date) (JsString.trim time) (JsString.trim timezone)
                   (resetOf (Js.getOpt (req_body req) "reset_schedule"))))].
Proof.
  intros Hid Hd Ht Hz Ha Hta.
  apply textField_read in Hd as [Hd Hd'], Ht as [Ht Ht'], Hz as [Hz Hz'].
  unfold calls, put_api_subscription_reschedule. cbv zeta.
  rewrite Hid, Hd, Ht, Hz. cbn [negb liftExc bind].
  rewrite Hd', Ht', Hz'. cbn [orb].
  rewrite (get_of_getOpt _ _ _ Ha) by discriminate.
  rewrite Ha. cbn [Js.truthy]. rewrite Hta.
  cbn [excBind Js.ToNumber liftExc bind]. rewrite Hta. cbn [negb].
  rewrite run_tryCatch.
  destruct (run_rescheduleAttempt up n env (Num.StringToNumber (params_id req))
              (JsString.trim date) (JsString.trim time) (JsString.trim timezone)
              (resetOf (Js.getOpt (req_body req) "reset_schedule")) a Hta) as [reply ->].
  destruct reply; reflexivity.
Qed.

(** ** C9: [reset_schedule] of the reschedule operation *)

(** On [server.js] the claim of C9 holds: a validated reschedule request
    forwards [reset_schedule] as the boolean supplied, and as [true] when
    the field is omitted. *)
Lemma ServerJs_reset_schedule_forwarded {rt : Runtime} (env : Env) (req : Request)
      (up : Upstream) (n : nat) (date time timezone : string) (a : JsNum) (b : bool) :
  authorized env req ->
  Num.truthy (Num.StringToNumber (params_id req)) = true ->
  textField req "date" date ->
  textField req "time" time ->
  textField req "timezone" timezone ->
  Js.getOpt (req_body req) "attempt_id" = JNum a ->
  Num.truthy a = true ->
  requestedReset (Js.getOpt (req_body req) "reset_schedule") = Some b ->
  calls up n (ServerJs.route ServerJs.Reschedule env req)
  = [fetchArgs env "/subscription-billing-attempt"
       (putJson (reschedulePayload a (Num.StringToNumber (params_id req))
                   (JsString.trim date) (JsString.trim time) (JsString.trim timezone)
                   (JBool b)))].
Proof.
  intros Hauth Hid Hd Ht Hz Ha Hta Hb.
  unfold ServerJs.route. rewrite checkAuth_pass by assumption.
  cbn [ServerJs.handler].
  rewrite (reschedule_with_attempt_id _ env req up n date time timezone a) by assumption.
  replace (ServerJs.resetSchedule (Js.getOpt (req_body req) "reset_schedule"))
    with (JBool b); [reflexivity|].
  unfold ServerJs.resetSchedule.
  destruct (Js.getOpt (req_body req) "reset_schedule") as [| |[]| | | |];
    cbn in Hb |- *; congruence.
Qed.

Lemma ServerJs_reset_schedule_false_witness :
  calls (Example.always JNull) 0
    (ServerJs.route (rt := Example.runtime) ServerJs.Reschedule Example.env
       (Example.request "77"
          (JObj [("date", JStr "2025-11-20"); ("time", JStr "09:30");
                 ("timezone", JStr "America/Chicago");
                 ("reset_schedule", JBool false);
                 ("attempt_id", JNum (Num.ofZ 7))])))
  = [fetchArgs Example.env "/subscription-billing-attempt"
       (putJson (reschedulePayload (Num.ofZ 7) (Num.ofZ 77)
                   "2025-11-20" "09:30" "America/Chicago" (JBool false)))].
Proof.
  apply (ServerJs_reset_schedule_forwarded (rt := Example.runtime) Example.env
           (Example.request "77"
              (JObj [("date", JStr "2025-11-20"); ("time", JStr "09:30");
                     ("timezone", JStr "America/Chicago");
                     ("reset_schedule", JBool false);
                     ("attempt_id", JNum (Num.ofZ 7))]))
           (Example.always JNull) 0
           "2025-11-20" "09:30" "America/Chicago" (Num.ofZ 7) false);
    try reflexivity; split; (reflexivity || discriminate).
Defined.

(** C9 on [part_000]: the caller supplies [reset_schedule: false]; the
    reschedule call carries the string ["true"], as line 140 of that
    revision computes it whatever the input. *)
Theorem C9_part000_forwards_string_true :
  calls (Example.always JNull) 0
    (Part000.route (rt := Example.runtime) Part000.Reschedule Example.env
       (Example.request "77"
          (JObj [("date", JStr "2025-11-20"); ("time", JStr "09:30");
                 ("timezone", JStr "America/Chicago");
                 ("reset_schedule", JBool false);
                 ("attempt_id", JNum (Num.ofZ 7))])))
  = [fetchArgs Example.env "/subscription-billing-attempt"
       (putJson (reschedulePayload (Num.ofZ 7) (Num.ofZ 77)
                   "2025-11-20" "09:30" "America/Chicago" (JStr "true")))]
  /\ forall v, Part000.resetSchedule v = JStr "true".
Proof.
  split; [reflexivity|]. intros v. apply if_same.
Qed.

(** ** C3: validation of [action] in the status change *)

(** On [server.js] the claim of C3 holds for every [action] that has a
    string form: outside the set, compared in lower case, the reply is 400
    and nothing is forwarded; inside the set, with a usable id, the action
    is forwarded in lower case. *)
Lemma ServerJs_action_validated {rt : Runtime} (env : Env) (req : Request)
      (up : Upstream) (n : nat) (s : string) :
  authorized env req ->
  actionText req s ->
  (JsString.mem (JsString.toLowerCase s) ServerJs.actions = false ->
   exists reply, run up n (ServerJs.route ServerJs.ChangeStatus env req) = (Ok reply, [])
                 /\ reply_status reply = 400)
  /\ (JsString.mem (JsString.toLowerCase s) ServerJs.actions = true ->
      Num.truthy (Num.StringToNumber (params_id req)) = true ->
      calls up n (ServerJs.route ServerJs.ChangeStatus env req)
      = [fetchArgs env "/subscription"
           (putJson (JObj [("id", JNum (Num.StringToNumber (params_id req)));
                           ("action", JStr (JsString.toLowerCase s))]))]).
Proof.
  intros Hauth Hs. unfold actionText in Hs.
  unfold calls, ServerJs.route. rewrite checkAuth_pass by assumption.
  cbn [ServerJs.handler]. unfold ServerJs.put_api_subscription. cbv zeta.
  rewrite Hs. cbn [excBind liftExc bind].
  split.
  - intros Hmem. rewrite Hmem. cbn [negb].
    destruct (negb (Num.truthy _) || JsString.isEmpty _);
      eexists; split; reflexivity.
  - intros Hmem Hid. rewrite Hmem, Hid. cbn [negb orb].
    destruct (JsString.isEmpty (JsString.toLowerCase s)) eqn:E.
    + destruct (JsString.toLowerCase s); [discriminate Hmem | discriminate E].
    + rewrite run_tryCatch, run_bind, run_callSeal.
      destruct (up n _) as [resp|e]; cbn; [destruct (resp_ok resp)|]; reflexivity.
Qed.

Lemma ServerJs_action_validated_witness :
  exists reply,
    run (Example.always JNull) 0
      (ServerJs.route (rt := Example.runtime) ServerJs.ChangeStatus Example.env
         (Example.request "5" (JObj [("action", JStr "Delete")])))
    = (Ok reply, [])
    /\ reply_status reply = 400.
Proof.
  apply (ServerJs_action_validated (rt := Example.runtime) Example.env
           (Example.request "5" (JObj [("action", JStr "Delete")]))
           (Example.always JNull) 0 "Delete"); reflexivity.
Defined.

(** C3 on [part_000]: an action outside the set is forwarded and answered
    200, and an action of the set written in capitals is forwarded as
    written. *)
Theorem C3_part000_forwards_any_action :
  run (Example.always JNull) 0
    (Part000.route (rt := Example.runtime) Part000.ChangeStatus Example.env
       (Example.request "5" (JObj [("action", JStr "delete")])))
  = (Ok (mkReply 200 JNull),
     [(fetchArgs Example.env "/subscriptions/5" (putJson (JObj [("action", JStr "delete")])),
       Example.jsonResponse 200 JNull)])
  /\ calls (Example.always JNull) 0
       (Part000.route (rt := Example.runtime) Part000.ChangeStatus Example.env
          (Example.request "5" (JObj [("action", JStr "PAUSE")])))
     = [fetchArgs Example.env "/subscriptions/5" (putJson (JObj [("action", JStr "PAUSE")]))]
  /\ JsString.mem (JsString.toLowerCase "delete") ServerJs.actions = false.
Proof.
  repeat split.
Qed.

(** ** C4: the attempt the reschedule operation selects *)

Section EarliestAttempt.
Context {rt : Runtime}.













End EarliestAttempt.

(** A validated reschedule request without an attempt id of its own: the
    attempts are queried, and the id resolved from an answer read as
    success goes into the reschedule call, when it is a usable number. *)
Lemma reschedule_resolves {rt : Runtime} (resetOf : JsVal -> JsVal)
      (env : Env) (req : Request) (up : Upstream) (n : nat)
      (date time timezone : string) (resp : FetchResponse) (attemptId : JsNum) :
  Num.truthy (Num.StringToNumber (params_id req)) = true ->
  textField req "date" date ->
  textField req "time" time ->
  textField req "timezone" timezone ->
  Js.truthy (Js.getOpt (req_body req) "attempt_id") = false ->
  up n (attemptsCall env req) = Responded resp ->
  resp_ok resp = true ->
  resolveAttempt (readBody resp) (Num.ofZ 0) = Ok attemptId ->
  calls up n (put_api_subscription_reschedule resetOf env req)
  = attemptsCall env req
    :: (if Num.truthy attemptId
        then [rescheduleCall env req date time timezone
                (resetOf (Js.getOpt (req_body req) "reset_schedule")) attemptId]
        else []).
Proof.
  intros Hid Hd Ht Hz Ha Hup Hok Hres.
  apply textField_read in Hd as [Hd Hd'], Ht as [Ht Ht'], Hz as [Hz Hz'].
  unfold calls, put_api_subscription_reschedule. cbv zeta.
  rewrite Hid, Hd, Ht, Hz. cbn [negb liftExc bind].
  rewrite Hd', Ht', Hz', Ha. cbn [orb liftExc bind].
  change (Num.truthy (Num.ofZ 0)) with false. cbn [negb].
  rewrite run_tryCatch, run_bind, run_callSeal.
  fold (attemptsCall env req). rewrite Hup.
  cbn [sealResult ok body_of]. rewrite Hok. cbn [negb].
  rewrite Hres. cbn [liftExc bind length Nat.add].
  unfold rescheduleCall.
  destruct (Num.truthy attemptId) eqn:Hta.
  - destruct (run_rescheduleAttempt up (n + 1) env (Num.StringToNumber (params_id req))
                (JsString.trim date) (JsString.trim time) (JsString.trim timezone)
                (resetOf (Js.getOpt (req_body req) "reset_schedule")) attemptId Hta)
      as [reply ->].
    destruct reply; reflexivity.
  - unfold rescheduleAttempt. rewrite Hta. reflexivity.
Qed.

Lemma attemptsOf_holds (body : JsVal) (l : list JsVal) :
  holdsAttempts body l -> attemptsOf body = l.
Proof.
  unfold attemptsOf. intros [->|[Hno ->]]; [reflexivity|].
  destruct (Js.getOpt body "payload") as [| | | | |l'|]; try reflexivity.
  now elim (Hno l').
Qed.

(** The calls of the handlers, as they go out. *)
Lemma attemptsCall_sent {rt : Runtime} (env : Env) (req : Request) :
  attemptsCall env req
  = mkFetch (SEAL_BASE ++ "/subscription-billing-attempts?subscription_id="
               ++ NumberToString (Num.StringToNumber (params_id req)))
      (mkInit None None
         (Some [("Content-Type", Some "application/json");
                ("X-Seal-Token", SEAL_TOKEN env)])).
Proof. reflexivity. Qed.

Lemma rescheduleCall_sent (env : Env) (req : Request) (date time timezone : string)
      (reset : JsVal) (attemptId : JsNum) :
  rescheduleCall env req date time timezone reset attemptId
  = mkFetch (SEAL_BASE ++ "/subscription-billing-attempt")
      (mkInit (Some "PUT")
         (Some (JSON_stringify
                  (JObj [("id", JNum attemptId);
                         ("subscription_id", JNum (Num.StringToNumber (params_id req)));
                         ("action", JStr "reschedule");
                         ("date", JStr (JsString.trim date));
                         ("time", JStr (JsString.trim time));
                         ("timezone", JStr (JsString.trim timezone));
                         ("reset_schedule", reset)])))
         (Some [("Content-Type", Some "application/json");
                ("X-Seal-Token", SEAL_TOKEN env)])).
Proof. reflexivity. Qed.

Lemma ServerJs_resetSchedule_sent (v : JsVal) :
  ServerJs.resetSchedule v = JBool (match v with JBool false => false | _ => true end).
Proof. destruct v as [| |[|]| | | |]; reflexivity. Qed.

Lemma Part000_resetSchedule_sent (v : JsVal) : Part000.resetSchedule v = JStr "true".
Proof. unfold Part000.resetSchedule. now destruct (Js.truthy v). Qed.




(** The same example, evaluated: the reschedule call carries the id 12. *)
Example reschedule_selects_2025_11_10 :
  calls (Example.withAttempts
           [Example.attempt 11 "date_time" "2025-11-12T00:00";
            Example.attempt 12 "datetime" "2025-11-10T09:30";
            Example.attempt 13 "scheduled_at" "2025-11-15T00:00"]) 0
    (ServerJs.route (rt := Example.runtime) ServerJs.Reschedule Example.env
       (Example.request "77" Example.rescheduleBody))
  = [attemptsCall (rt := Example.runtime) Example.env
       (Example.request "77" Example.rescheduleBody);
     rescheduleCall Example.env (Example.request "77" Example.rescheduleBody)
       "2025-11-20" "09:30" "America/Chicago" (JBool true) (Num.ofZ 12)].
Proof. reflexivity. Qed.

(** ** C6: what a reply can be *)

Lemma Sound_run (p : Prog HttpReply) :
  forall called up n,
    Sound called p ->
    exists reply xs,
      run up n p = (Ok reply, xs)
      /\ (reply_status reply = 200
          \/ (called = false /\ xs = [] /\ (reply_status reply = 400 \/ reply_status reply = 401)))
      /\ (forall x e, In x xs -> snd x = Rejected e -> softError "bridge_exception" reply)
      /\ (forall x resp, In x xs -> snd x = Responded resp -> resp_ok resp = false ->
                         softError "upstream_error" reply).
Proof.
  induction p as [r|e|req k IH]; intros called up n HS; cbn [Sound run] in *.
  - exists r, []. split; [reflexivity|]. split; [|split; intros x ? []].
    destruct HS as [H|[H1 H2]]; [now left | right; repeat split; assumption].
  - contradiction.
  - destruct HS as [Hresp Hrej].
    destruct (up n req) as [resp|e] eqn:Hup.
    + specialize (Hresp resp). destruct (resp_ok resp) eqn:Hok.
      * destruct (IH _ true up (S n) Hresp) as (reply & xs & Hrun & Hst & Hbe & Hue).
        exists reply, ((req, Responded resp) :: xs). rewrite Hrun.
        split; [reflexivity|]. split; [|split].
        -- destruct Hst as [H|[H _]]; [now left | discriminate].
        -- intros x e [<-|Hin] Hx; [discriminate | eauto].
        -- intros x resp' [<-|Hin] Hx Hno; [|eauto].
           cbn in Hx. injection Hx as <-. congruence.
      * destruct Hresp as (r & Hk & Hsoft). rewrite Hk. cbn [run].
        exists r, [(req, Responded resp)].
        split; [reflexivity|]. split; [left; apply Hsoft|].
        split; intros x ? [<-|[]] Hx; [discriminate | intros _; assumption].
    + destruct (Hrej e) as (r & Hk & Hsoft). rewrite Hk. cbn [run].
      exists r, [(req, Rejected e)].
      split; [reflexivity|]. split; [left; apply Hsoft|].
      split; intros x ? [<-|[]] Hx; [assumption | discriminate].
Qed.

Lemma Sound_keepsContract (p : Prog HttpReply) (up : Upstream) (n : nat) :
  Sound false p -> keepsContract up n p.
Proof.
  intros HS. destruct (Sound_run p false up n HS) as (reply & xs & Hrun & Hst & Hbe & Hue).
  exists reply, xs.
  split; [assumption|]. split; [|split; assumption].
  destruct Hst as [H|(_ & H1 & H2)]; [now left | now right].
Qed.

(** Symbolic execution of a handler: reduce the control operators, split
    on the next undecided test, close the leaves by evaluation. *)
Ltac reduce_handler :=
  cbn [Sound tryCatch bind liftExc excBind callSeal negb orb andb
       ok status body_of sealResult listException bridgeException
       upstreamError rescheduleAttempt orElse].

Ltac split_next :=
  match goal with
  | |- context [match ?x with _ => _ end] =>
      lazymatch x with
      | context [match _ with _ => _ end] => fail
      | _ => destruct x eqn:?
      end
  end.

Ltac close_leaf :=
  solve [ left; reflexivity
        | right; split; [reflexivity | (left; reflexivity) || (right; reflexivity)]
        | eexists; split; [reflexivity | split; reflexivity] ].

Ltac run_handler :=
  repeat first
    [ close_leaf
    | progress reduce_handler
    | split
    | intros ?
    | split_next ].

Section Contract.
Context {rt : Runtime}.

Lemma get_api_subscriptions_sound (probe : JsVal -> list JsVal)
      (env : Env) (req : Request) :
  Sound false (get_api_subscriptions probe env req).
Proof.
  unfold get_api_subscriptions.
  destruct (Js.toString queryEmailCallee (Js.or (query_email req) (JStr ""))) as [s|e];
    [|run_handler].
  cbn [excBind liftExc bind tryCatch].
  destruct (JsString.isEmpty (JsString.trim s)); [run_handler|].
  reduce_handler. split; [intros resp|intros e; close_leaf].
  destruct (resp_ok resp); reduce_handler; [|close_leaf].
  destruct (mapExc normalizeSubscription (probe (readBody resp))); run_handler.
Qed.










End Contract.







(** A validated reschedule request without an attempt id, answered by the
    upstream with no attempt at all. *)
Lemma reschedule_no_attempt {rt : Runtime} (resetOf : JsVal -> JsVal)
      (env : Env) (req : Request) (up : Upstream) (n : nat)
      (date time timezone : string) (resp : FetchResponse) :
  Num.truthy (Num.StringToNumber (params_id req)) = true ->
  textField req "date" date ->
  textField req "time" time ->
  textField req "timezone" timezone ->
  Js.truthy (Js.getOpt (req_body req) "attempt_id") = false ->
  up n (attemptsCall env req) = Responded resp ->
  resp_ok resp = true ->
  attemptsOf (readBody resp) = [] ->
  run up n (put_api_subscription_reschedule resetOf env req)
  = (Ok noBillingAttempt, [(attemptsCall env req, Responded resp)]).
Proof.
  intros Hid Hd Ht Hz Ha Hup Hok Hnone.
  apply textField_read in Hd as [Hd Hd'], Ht as [Ht Ht'], Hz as [Hz Hz'].
  unfold put_api_subscription_reschedule. cbv zeta.
  rewrite Hid, Hd, Ht, Hz. cbn [negb liftExc bind].
  rewrite Hd', Ht', Hz', Ha. cbn [orb liftExc bind].
  change (Num.truthy (Num.ofZ 0)) with false. cbn [negb].
  rewrite run_tryCatch, run_bind, run_callSeal.
  fold (attemptsCall env req). rewrite Hup.
  cbn [sealResult ok body_of]. rewrite Hok. cbn [negb].
  unfold resolveAttempt. rewrite Hnone. reflexivity.
Qed.


(** Two runs of the list operation: the transport fails, and the upstream
    answers 503 with a page of text. *)
Example list_transport_failure :
  result (fun _ _ => Rejected (mkError "FetchError" "request failed, reason: ECONNREFUSED")) 0
    (ServerJs.route (rt := Example.runtime) ServerJs.ListSubscriptions Example.env
       (mkRequest (Some "Bearer s3cret") "" (JStr "a@b.example") JNull))
  = Ok (mkReply 200
          (JObj [("subscriptions", JArr []);
                 ("error", JObj [("reason", JStr "bridge_exception");
                                 ("message", JStr "request failed, reason: ECONNREFUSED")])])).
Proof. reflexivity. Qed.

Example list_upstream_503 :
  run (fun _ _ => Responded (mkResponse 503 (Some "text/html") None (Some "Service Unavailable"))) 0
    (Part000.route (rt := Example.runtime) Part000.ListSubscriptions Example.env
       (mkRequest (Some "Bearer s3cret") "" (JStr "a@b.example") JNull))
  = (Ok (mkReply 200
           (JObj [("subscriptions", JArr []);
                  ("error", JObj [("reason", JStr "upstream_error");
                                  ("status", statusNum 503);
                                  ("body", JObj [("non_json", JStr "Service Unavailable")])])])),
     [(fetchArgs Example.env "/subscriptions?query=a%40b.example&with-items=true" noInit,
       Responded (mkResponse 503 (Some "text/html") None (Some "Service Unavailable")))]).
Proof. reflexivity. Qed.

(** * Further properties of the handlers *)

(** ** Calls and replies of a computation *)

Lemma Calls_run {A} (P : FetchRequest -> Prop) (p : Prog A) :
  forall budget up n,
    Calls P budget p ->
    Forall P (calls up n p) /\ (List.length (calls up n p) <= budget)%nat.
Proof.
  unfold calls.
  induction p as [a|e|req k IH]; intros budget up n H; cbn [run snd map List.length].
  - split; [constructor | lia].
  - split; [constructor | lia].
  - cbn [Calls] in H. destruct budget as [|b]; [exfalso; exact H|]. destruct H as [HP Hk].
    specialize (IH (up n req) b up (S n) (Hk _)).
    destruct (run up (S n) (k (up n req))) as [r xs]. cbn [snd map List.length fst] in *.
    destruct IH as [IH1 IH2]. split; [now constructor | lia].
Qed.

Lemma Calls_mono {A} (P : FetchRequest -> Prop) (p : Prog A) :
  forall b b', (b <= b')%nat -> Calls P b p -> Calls P b' p.
Proof.
  induction p as [a|e|req k IH]; intros b b' Hle H; cbn [Calls] in *; try exact I.
  destruct b as [|b]; [exfalso; exact H|]. destruct b' as [|b']; [lia|].
  destruct H as [HP Hk]. split; [assumption|].
  intros o. apply (IH o b b'); [lia | apply Hk].
Qed.

Lemma Calls_tryCatch {A} (P : FetchRequest -> Prop) (m : Prog A) (h : JsError -> Prog A) :
  forall b, Calls P b m -> (forall e, Calls P 0 (h e)) -> Calls P b (tryCatch m h).
Proof.
  induction m as [a|e|req k IH]; intros b Hm Hh; cbn [tryCatch Calls] in *.
  - exact I.
  - apply Calls_mono with (b := 0%nat); [lia | apply Hh].
  - destruct b as [|b]; [exfalso; exact Hm|]. destruct Hm as [HP Hk].
    split; [assumption|]. intros o. now apply IH.
Qed.

Lemma Calls_bind_liftExc {A B} (P : FetchRequest -> Prop) (m : Exc A) (f : A -> Prog B)
      (b : nat) :
  (forall a, m = Ok a -> Calls P b (f a)) -> Calls P b (bind (liftExc m) f).
Proof.
  destruct m as [a|e]; cbn [liftExc bind Calls]; [intros H; now apply H | trivial].
Qed.

Lemma Calls_bind_callSeal {B} (P : FetchRequest -> Prop) (env : Env) (path : string)
      (i : RequestInit) (f : SealResult -> Prog B) (b : nat) :
  P (fetchArgs env path i) ->
  (forall resp, Calls P b (f (sealResult resp))) ->
  Calls P (S b) (bind (callSeal env path i) f).
Proof.
  intros HP Hf. cbn [callSeal bind Calls]. split; [assumption|].
  intros [resp|e]; cbn [bind Calls]; [apply Hf | exact I].
Qed.

Lemma Leaves_run {A} (P : A -> Prop) (p : Prog A) :
  forall up n a, Leaves P p -> result up n p = Ok a -> P a.
Proof.
  unfold result.
  induction p as [a0|e|req k IH]; intros up n a H; cbn [run fst Leaves] in *.
  - now intros [= <-].
  - discriminate.
  - specialize (IH (up n req) up (S n) a (H _)).
    destruct (run up (S n) (k (up n req))) as [r xs]. exact IH.
Qed.

Lemma Leaves_bind {A B} (P : B -> Prop) (m : Prog A) (f : A -> Prog B) :
  Leaves (fun a => Leaves P (f a)) m -> Leaves P (bind m f).
Proof.
  induction m as [a|e|req k IH]; cbn [bind Leaves]; auto.
Qed.

Lemma Leaves_tryCatch {A} (P : A -> Prop) (m : Prog A) (h : JsError -> Prog A) :
  Leaves P m -> (forall e, Leaves P (h e)) -> Leaves P (tryCatch m h).
Proof.
  intros Hm Hh. induction m as [a|e|req k IH]; cbn [tryCatch Leaves] in *; auto.
Qed.

Lemma Leaves_liftExc {A} (P : A -> Prop) (m : Exc A) :
  (forall a, m = Ok a -> P a) -> Leaves P (liftExc m).
Proof.
  destruct m as [a|e]; cbn [liftExc Leaves]; auto.
Qed.

Lemma Leaves_callSeal (P : SealResult -> Prop) (env : Env) (path : string) (i : RequestInit) :
  (forall resp, P (sealResult resp)) -> Leaves P (callSeal env path i).
Proof.
  intros H. cbn [callSeal Leaves]. intros [resp|e]; cbn [Leaves]; [apply H | exact I].
Qed.

(** ** The calls the routes issue *)

Lemma handlerCall_get (env : Env) (path : string) :
  handlerCall env (fetchArgs env path noInit).
Proof.
  split; [now exists path|]. split; [reflexivity|]. left. split; reflexivity.
Qed.

Lemma handlerCall_put (env : Env) (path : string) (v : JsVal) :
  handlerCall env (fetchArgs env path (putJson v)).
Proof.
  split; [now exists path|]. split; [reflexivity|]. right. split; [reflexivity|].
  now exists v.
Qed.

Section CallsOfHandlers.
Context {rt : Runtime}.

Lemma get_api_subscriptions_calls (probe : JsVal -> list JsVal) (env : Env) (req : Request) :
  Calls (handlerCall env) 1 (get_api_subscriptions probe env req).
Proof.
  unfold get_api_subscriptions.
  apply Calls_tryCatch; [|intros e; exact I].
  apply Calls_bind_liftExc. intros rawEmail _.
  destruct (JsString.isEmpty rawEmail); [exact I|].
  apply Calls_bind_callSeal; [apply handlerCall_get|].
  intros resp. destruct (negb (ok (sealResult resp))); [exact I|].
  apply Calls_bind_liftExc. intros subs _. exact I.
Qed.

Lemma rescheduleAttempt_calls (env : Env) (sub : JsNum) (date time timezone : string)
      (reset : JsVal) (a : JsNum) :
  Calls (handlerCall env) 1 (rescheduleAttempt env sub date time timezone reset a).
Proof.
  unfold rescheduleAttempt.
  destruct (negb (Num.truthy a)); [exact I|]. cbv zeta.
  apply Calls_bind_callSeal; [apply handlerCall_put|].
  intros resp. destruct (negb (ok (sealResult resp))); exact I.
Qed.

Lemma put_api_subscription_reschedule_calls (resetOf : JsVal -> JsVal)
      (env : Env) (req : Request) :
  Calls (handlerCall env) 2 (put_api_subscription_reschedule resetOf env req).
Proof.
  unfold put_api_subscription_reschedule. cbv zeta.
  apply Calls_tryCatch; [|intros e; exact I].
  destruct (negb (Num.truthy (Num.StringToNumber (params_id req)))); [exact I|].
  apply Calls_bind_liftExc. intros date _.
  apply Calls_bind_liftExc. intros time _.
  apply Calls_bind_liftExc. intros timezone _.
  apply Calls_bind_liftExc. intros attemptId0 _.
  destruct (JsString.isEmpty date || JsString.isEmpty time || JsString.isEmpty timezone);
    [exact I|].
  destruct (negb (Num.truthy attemptId0)).
  - apply Calls_bind_callSeal; [apply handlerCall_get|].
    intros resp. destruct (negb (ok (sealResult resp))); [exact I|].
    apply Calls_bind_liftExc. intros attemptId _. apply rescheduleAttempt_calls.
  - apply Calls_mono with (b := 1%nat); [lia | apply rescheduleAttempt_calls].
Qed.

Lemma ServerJs_put_api_subscription_calls (env : Env) (req : Request) :
  Calls (handlerCall env) 1 (ServerJs.put_api_subscription env req).
Proof.
  unfold ServerJs.put_api_subscription. cbv zeta.
  apply Calls_tryCatch; [|intros e; exact I].
  apply Calls_bind_liftExc. intros action _.
  destruct (negb (Num.truthy _) || JsString.isEmpty action); [exact I|].
  destruct (negb (JsString.mem action ServerJs.actions)); [exact I|].
  apply Calls_bind_callSeal; [apply handlerCall_put|].
  intros resp. destruct (negb (ok (sealResult resp))); exact I.
Qed.

Lemma Part000_put_api_subscription_calls (env : Env) (req : Request) :
  Calls (handlerCall env) 1 (Part000.put_api_subscription env req).
Proof.
  unfold Part000.put_api_subscription. cbv zeta.
  apply Calls_tryCatch; [|intros e; exact I].
  apply Calls_bind_liftExc. intros action _.
  destruct (negb (Num.truthy _) || JsString.isEmpty action); [exact I|].
  apply Calls_bind_callSeal; [apply handlerCall_put|].
  intros resp. destruct (negb (ok (sealResult resp))); exact I.
Qed.

Lemma Part000_charge_now_calls (env : Env) (req : Request) :
  Calls (handlerCall env) 1 (Part000.put_api_subscription_charge_now env req).
Proof.
  unfold Part000.put_api_subscription_charge_now. cbv zeta.
  apply Calls_tryCatch; [|intros e; exact I].
  destruct (negb (Num.truthy _)); [exact I|].
  apply Calls_bind_callSeal; [apply handlerCall_put|].
  intros resp. destruct (negb (ok (sealResult resp))); exact I.
Qed.

Lemma checkAuth_calls (env : Env) (req : Request) (next : unit -> Prog HttpReply) (b : nat) :
  Calls (handlerCall env) b (next tt) -> Calls (handlerCall env) b (checkAuth env req next).
Proof.
  intros H. unfold checkAuth. destruct (optString_neqb _ _); [exact I | assumption].
Qed.

Lemma ServerJs_route_calls (op : ServerJs.Op) (env : Env) (req : Request) :
  Calls (handlerCall env) (ServerJs_budget op) (ServerJs.route op env req).
Proof.
  apply checkAuth_calls. destruct op; cbn [ServerJs.handler ServerJs_budget].
  - apply get_api_subscriptions_calls.
  - apply ServerJs_put_api_subscription_calls.
  - apply put_api_subscription_reschedule_calls.
Qed.

Lemma Part000_route_calls (op : Part000.Op) (env : Env) (req : Request) :
  Calls (handlerCall env) (Part000_budget op) (Part000.route op env req).
Proof.
  apply checkAuth_calls. destruct op; cbn [Part000.handler Part000_budget].
  - apply get_api_subscriptions_calls.
  - apply Part000_put_api_subscription_calls.
  - apply Part000_charge_now_calls.
  - apply put_api_subscription_reschedule_calls.
Qed.

End CallsOfHandlers.

(** X1.  Whatever the request and whatever the upstream answers, every
    call a route issues goes to a path under [SEAL_BASE], carries exactly
    the headers [Content-Type: application/json] and [X-Seal-Token], and is
    either a GET without body or a PUT of a JSON text. *)
Theorem X1_calls_go_to_seal {rt : Runtime} (env : Env) (req : Request)
        (up : Upstream) (n : nat) :
  (forall op, Forall (handlerCall env) (calls up n (ServerJs.route op env req)))
  /\ (forall op, Forall (handlerCall env) (calls up n (Part000.route op env req))).
Proof.
  split; intros op.
  - apply (Calls_run _ _ _ up n (ServerJs_route_calls op env req)).
  - apply (Calls_run _ _ _ up n (Part000_route_calls op env req)).
Qed.

(** X2.  No request makes a route issue more than two upstream calls, and
    only the reschedule operation issues more than one. *)
Theorem X2_call_budget {rt : Runtime} (env : Env) (req : Request)
        (up : Upstream) (n : nat) :
  (forall op, (List.length (calls up n (ServerJs.route op env req)) <= 2)%nat)
  /\ (forall op, (List.length (calls up n (Part000.route op env req)) <= 2)%nat)
  /\ (forall op, op <> ServerJs.Reschedule ->
                 (List.length (calls up n (ServerJs.route op env req)) <= 1)%nat)
  /\ (forall op, op <> Part000.Reschedule ->
                 (List.length (calls up n (Part000.route op env req)) <= 1)%nat).
Proof.
  assert (HS : forall op, (List.length (calls up n (ServerJs.route op env req))
                           <= ServerJs_budget op)%nat)
    by (intros op; apply (Calls_run _ _ _ up n (ServerJs_route_calls op env req))).
  assert (HP : forall op, (List.length (calls up n (Part000.route op env req))
                           <= Part000_budget op)%nat)
    by (intros op; apply (Calls_run _ _ _ up n (Part000_route_calls op env req))).
  repeat split; intros op; try intros Hop.
  - specialize (HS op). destruct op; cbn in HS; lia.
  - specialize (HP op). destruct op; cbn in HP; lia.
  - specialize (HS op). destruct op; cbn in HS; congruence || lia.
  - specialize (HP op). destruct op; cbn in HP; congruence || lia.
Qed.

(** ** The list operation *)

Lemma get_defined (v : JsVal) (k : string) :
  Js.nullish v = false -> Js.get v k = Ok (Js.prop v k).
Proof. unfold Js.get. now intros ->. Qed.

Lemma get_nullish (v : JsVal) (k : string) :
  Js.nullish v = true -> exists e, Js.get v k = Raise e.
Proof. unfold Js.get. intros ->. eexists. reflexivity. Qed.

Lemma normalizeItem_spec (i : JsVal) :
  (Js.nullish i = false -> normalizeItem i = Ok (normalItem i))
  /\ (Js.nullish i = true -> exists e, normalizeItem i = Raise e).
Proof.
  unfold normalizeItem. split; intros H.
  - now rewrite !get_defined by assumption.
  - destruct (get_nullish i "title" H) as [e ->]. now exists e.
Qed.

Lemma mapExc_all {A B} (f : A -> Exc B) (g : A -> B) (ok : A -> bool) (l : list A) :
  (forall x, ok x = true -> f x = Ok (g x)) ->
  forallb ok l = true -> mapExc f l = Ok (map g l).
Proof.
  intros Hf. induction l as [|x xs IH]; cbn [forallb mapExc map]; [reflexivity|].
  intros H. apply andb_true_iff in H as [Hx Hxs].
  rewrite (Hf x Hx), (IH Hxs). reflexivity.
Qed.

Lemma mapExc_some {A B} (f : A -> Exc B) (ok : A -> bool) (l : list A) :
  (forall x, ok x = false -> exists e, f x = Raise e) ->
  forallb ok l = false -> exists e, mapExc f l = Raise e.
Proof.
  intros Hf. induction l as [|x xs IH]; cbn [forallb mapExc]; [discriminate|].
  intros H. destruct (ok x) eqn:Hx.
  - destruct (IH H) as [e He]. rewrite He.
    destruct (f x) as [y|e']; cbn [excBind]; eexists; reflexivity.
  - destruct (Hf x Hx) as [e ->]. now exists e.
Qed.

Section Normalisation.
Context {rt : Runtime}.

Lemma normalizeSubscription_spec (s : JsVal) :
  (normalizable s = true -> normalizeSubscription s = Ok (normalized s))
  /\ (normalizable s = false -> exists e, normalizeSubscription s = Raise e).
Proof.
  unfold normalizable, normalized, normalizeSubscription, itemsOf, orElse.
  destruct (Js.nullish s) eqn:Hs; cbn [negb andb].
  - split; [discriminate|]. intros _.
    destruct (get_nullish s "id" Hs) as [e ->]. now exists e.
  - rewrite !get_defined by assumption. cbn [excBind firstTruthy].
    assert (Hnext :
             (if Js.truthy (Js.prop s "next_billing") then Ok (Js.prop s "next_billing")
              else if Js.truthy (Js.prop s "next_order_datetime")
                   then Ok (Js.prop s "next_order_datetime")
                   else Ok (Js.or (Js.prop s "next_charge_at") JNull))
             = Ok (if Js.truthy (Js.prop s "next_billing") then Js.prop s "next_billing"
                   else if Js.truthy (Js.prop s "next_order_datetime")
                        then Js.prop s "next_order_datetime"
                        else if Js.truthy (Js.prop s "next_charge_at")
                             then Js.prop s "next_charge_at" else JNull)).
    { unfold Js.or.
      destruct (Js.truthy (Js.prop s "next_billing")),
        (Js.truthy (Js.prop s "next_order_datetime")); reflexivity. }
    rewrite Hnext. cbn [excBind].
    destruct (Js.or (Js.prop s "items") (JArr [])) as [| | | | |items|];
      try (split; [discriminate | intros _; eexists; reflexivity]).
    split; intros H.
    + rewrite (mapExc_all normalizeItem normalItem _ items
                 (fun i Hi => proj1 (normalizeItem_spec i) (proj1 (negb_true_iff _) Hi)) H).
      reflexivity.
    + destruct (mapExc_some normalizeItem _ items
                  (fun i Hi => proj2 (normalizeItem_spec i) (proj1 (negb_false_iff _) Hi)) H)
        as [e ->].
      now exists e.
Qed.

(** X3.  The arrow function of the list handler succeeds exactly on the
    entries that are neither [null] nor [undefined] and whose [items] is
    falsy or an array without [null] and [undefined] entries, and throws
    on every other entry.  Where it succeeds it returns the five fields
    [id], [status], [next_charge_at], [items], [discounts]:
    [next_charge_at] is the first truthy of [next_billing],
    [next_order_datetime] and [next_charge_at], and [null] without one;
    each item keeps [title] and [id] and has its [quantity] as [qty];
    [discounts] is [discount_codes] when truthy and the empty array
    otherwise. *)
Theorem X3_normalizeSubscription (s : JsVal) :
  (normalizable s = true -> normalizeSubscription s = Ok (normalized s))
  /\ (normalizable s = false -> exists e, normalizeSubscription s = Raise e).
Proof. exact (normalizeSubscription_spec s). Qed.

Lemma normalizeSubscription_ok (s : JsVal) :
  normalizable s = true -> normalizeSubscription s = Ok (normalized s).
Proof. apply normalizeSubscription_spec. Qed.

Lemma normalizeSubscription_throws (s : JsVal) :
  normalizable s = false -> exists e, normalizeSubscription s = Raise e.
Proof. apply normalizeSubscription_spec. Qed.

End Normalisation.

(** ** Runs of the list operation *)

Section ListRuns.
Context {rt : Runtime}.

Lemma emailGiven_read (req : Request) (email : string) :
  emailGiven req email ->
  Js.toString queryEmailCallee (Js.or (query_email req) (JStr "")) = Ok email
  /\ JsString.isEmpty (JsString.trim email) = false.
Proof.
  intros [-> Hne]. split; [|now apply isEmpty_false].
  destruct email; [now elim Hne | reflexivity].
Qed.

(** The run of the list handler on a request with an email. *)
Lemma list_run (probe : JsVal -> list JsVal) (env : Env) (req : Request)
      (up : Upstream) (n : nat) (email : string) :
  emailGiven req email ->
  run up n (get_api_subscriptions probe env req)
  = (match up n (listCall env email) with
     | Rejected e => Ok (listFailure (errText e))
     | Responded resp =>
         if resp_ok resp then
           match mapExc normalizeSubscription (probe (readBody resp)) with
           | Ok subs => Ok (mkReply 200 (JObj [("subscriptions", JArr subs)]))
           | Raise e => Ok (listFailure (errText e))
           end
         else
           Ok (mkReply 200
                 (JObj [("subscriptions", JArr []);
                        ("error", JObj [("reason", JStr "upstream_error");
                                        ("status", statusNum (resp_status resp));
                                        ("body", readBody resp)])]))
     end,
     [(listCall env email, up n (listCall env email))]).
Proof.
  intros Hemail. apply emailGiven_read in Hemail as [Hs Hne].
  unfold get_api_subscriptions. rewrite Hs. cbn [excBind liftExc bind].
  rewrite Hne. cbv zeta.
  rewrite run_tryCatch, run_bind, run_callSeal. fold (listCall env email).
  destruct (up n (listCall env email)) as [resp|e]; [|reflexivity].
  cbn [sealResult ok status body_of].
  destruct (resp_ok resp); cbn [negb]; [|reflexivity].
  rewrite run_bind, run_liftExc.
  destruct (mapExc normalizeSubscription (probe (readBody resp))); reflexivity.
Qed.

Lemma route_list_ServerJs (env : Env) (req : Request) :
  authorized env req ->
  ServerJs.route ServerJs.ListSubscriptions env req
  = get_api_subscriptions ServerJs.probe env req.
Proof. intros H. unfold ServerJs.route. now rewrite checkAuth_pass. Qed.

Lemma route_list_Part000 (env : Env) (req : Request) :
  authorized env req ->
  Part000.route Part000.ListSubscriptions env req
  = get_api_subscriptions Part000.probe env req.
Proof. intros H. unfold Part000.route. now rewrite checkAuth_pass. Qed.

Lemma list_all_or_nothing (probe : JsVal -> list JsVal) (env : Env) (req : Request)
      (up : Upstream) (n : nat) (email : string) (resp : FetchResponse) :
  emailGiven req email ->
  up n (listCall env email) = Responded resp ->
  resp_ok resp = true ->
  (forallb normalizable (probe (readBody resp)) = true ->
   result up n (get_api_subscriptions probe env req)
   = Ok (mkReply 200
           (JObj [("subscriptions", JArr (map normalized (probe (readBody resp))))])))
  /\ (forallb normalizable (probe (readBody resp)) = false ->
      exists message,
        result up n (get_api_subscriptions probe env req) = Ok (listFailure message)).
Proof.
  intros Hemail Hup Hok. unfold result.
  rewrite (list_run probe env req up n email Hemail), Hup, Hok. cbn [fst].
  split; intros H.
  - now rewrite (mapExc_all normalizeSubscription normalized normalizable _
                   normalizeSubscription_ok H).
  - destruct (mapExc_some normalizeSubscription normalizable _
                normalizeSubscription_throws H) as [e ->].
    now exists (errText e).
Qed.

End ListRuns.

(** X4.  A list request with an email, answered by the upstream with a
    2xx status, is all or nothing in both revisions: when every entry of
    the array found can be normalised the reply is 200 with
    [{subscriptions: [...]}], one normalised subscription per entry and in
    the order of the entries; when one entry cannot (a [null] entry, an
    [items] that is not an array, a [null] item) the reply is 200 with an
    empty [subscriptions] and a [bridge_exception], and no entry is
    returned. *)
Theorem X4_list_all_or_nothing {rt : Runtime} (env : Env) (req : Request)
        (up : Upstream) (n : nat) (email : string) (resp : FetchResponse) :
  authorized env req ->
  emailGiven req email ->
  up n (listCall env email) = Responded resp ->
  resp_ok resp = true ->
  (forallb normalizable (ServerJs.probe (readBody resp)) = true ->
   result up n (ServerJs.route ServerJs.ListSubscriptions env req)
   = Ok (mkReply 200
           (JObj [("subscriptions",
                   JArr (map normalized (ServerJs.probe (readBody resp))))])))
  /\ (forallb normalizable (ServerJs.probe (readBody resp)) = false ->
      exists message,
        result up n (ServerJs.route ServerJs.ListSubscriptions env req)
        = Ok (listFailure message))
  /\ (forallb normalizable (Part000.probe (readBody resp)) = true ->
      result up n (Part000.route Part000.ListSubscriptions env req)
      = Ok (mkReply 200
              (JObj [("subscriptions",
                      JArr (map normalized (Part000.probe (readBody resp))))])))
  /\ (forallb normalizable (Part000.probe (readBody resp)) = false ->
      exists message,
        result up n (Part000.route Part000.ListSubscriptions env req)
        = Ok (listFailure message)).
Proof.
  intros Hauth Hemail Hup Hok.
  rewrite route_list_ServerJs, route_list_Part000 by assumption.
  destruct (list_all_or_nothing ServerJs.probe env req up n email resp Hemail Hup Hok).
  destruct (list_all_or_nothing Part000.probe env req up n email resp Hemail Hup Hok).
  repeat split; assumption.
Qed.

Lemma X4_list_all_or_nothing_witness :
  let entry := JObj [("id", JNum (Num.ofZ 9)); ("status", JStr "ACTIVE");
                     ("next_order_datetime", JStr "2025-12-01T00:00:00Z");
                     ("items", JArr [JObj [("title", JStr "Tea"); ("quantity", JNum (Num.ofZ 2));
                                           ("id", JNum (Num.ofZ 31))]])] in
  result (Example.always (JObj [("payload", JObj [("subscriptions", JArr [entry])])])) 0
    (ServerJs.route (rt := Example.runtime) ServerJs.ListSubscriptions Example.env
       (mkRequest (Some "Bearer s3cret") "" (JStr " a@b.example ") JNull))
  = Ok (mkReply 200
          (JObj [("subscriptions",
                  JArr [JObj [("id", JNum (Num.ofZ 9)); ("status", JStr "ACTIVE");
                              ("next_charge_at", JStr "2025-12-01T00:00:00Z");
                              ("items", JArr [JObj [("title", JStr "Tea");
                                                    ("qty", JNum (Num.ofZ 2));
                                                    ("id", JNum (Num.ofZ 31))]]);
                              ("discounts", JArr [])]])])).
Proof.
  cbv zeta.
  apply (X4_list_all_or_nothing (rt := Example.runtime) Example.env
           (mkRequest (Some "Bearer s3cret") "" (JStr " a@b.example ") JNull)
           (Example.always
              (JObj [("payload",
                      JObj [("subscriptions",
                             JArr [JObj [("id", JNum (Num.ofZ 9)); ("status", JStr "ACTIVE");
                                         ("next_order_datetime", JStr "2025-12-01T00:00:00Z");
                                         ("items",
                                          JArr [JObj [("title", JStr "Tea");
                                                      ("quantity", JNum (Num.ofZ 2));
                                                      ("id", JNum (Num.ofZ 31))]])]])])]))
           0 " a@b.example "
           (mkResponse 200 (Some "application/json; charset=utf-8")
              (Some (JObj [("payload",
                      JObj [("subscriptions",
                             JArr [JObj [("id", JNum (Num.ofZ 9)); ("status", JStr "ACTIVE");
                                         ("next_order_datetime", JStr "2025-12-01T00:00:00Z");
                                         ("items",
                                          JArr [JObj [("title", JStr "Tea");
                                                      ("quantity", JNum (Num.ofZ 2));
                                                      ("id", JNum (Num.ofZ 31))]])]])])]))
              None)).
  - reflexivity.
  - split; [reflexivity | discriminate].
  - reflexivity.
  - reflexivity.
  - reflexivity.
Defined.

Section ListReplies.
Context {rt : Runtime}.

Lemma get_api_subscriptions_leaves (probe : JsVal -> list JsVal) (env : Env) (req : Request) :
  Leaves hasSubscriptions (get_api_subscriptions probe env req).
Proof.
  unfold get_api_subscriptions.
  apply Leaves_tryCatch;
    [|intros e; split; [reflexivity | now exists []]].
  apply Leaves_bind, Leaves_liftExc. intros rawEmail _.
  destruct (JsString.isEmpty rawEmail);
    [split; [reflexivity | now exists []]|].
  apply Leaves_bind, Leaves_callSeal. intros resp.
  destruct (negb (ok (sealResult resp)));
    [split; [reflexivity | now exists []]|].
  apply Leaves_bind, Leaves_liftExc. intros subs _.
  split; [reflexivity | now exists subs].
Qed.

Lemma get_api_subscriptions_replies (probe : JsVal -> list JsVal) (env : Env) (req : Request)
      (up : Upstream) (n : nat) :
  exists reply,
    result up n (get_api_subscriptions probe env req) = Ok reply
    /\ hasSubscriptions reply.
Proof.
  destruct (Sound_keepsContract _ up n (get_api_subscriptions_sound probe env req))
    as (reply & xs & Hrun & _).
  exists reply. unfold result. rewrite Hrun. split; [reflexivity|].
  apply (Leaves_run _ _ up n reply (get_api_subscriptions_leaves probe env req)).
  unfold result. now rewrite Hrun.
Qed.

End ListReplies.

(** X5.  Once the guard has let a list request through, the reply is 200
    and its body has a [subscriptions] array, in both revisions and on
    every path: without email, on an upstream error, on an exception and
    on success. *)
Theorem X5_list_reply_has_subscriptions {rt : Runtime} (env : Env) (req : Request)
        (up : Upstream) (n : nat) :
  authorized env req ->
  (exists reply,
      result up n (ServerJs.route ServerJs.ListSubscriptions env req) = Ok reply
      /\ hasSubscriptions reply)
  /\ (exists reply,
         result up n (Part000.route Part000.ListSubscriptions env req) = Ok reply
         /\ hasSubscriptions reply).
Proof.
  intros Hauth.
  rewrite route_list_ServerJs, route_list_Part000 by assumption.
  split; apply get_api_subscriptions_replies.
Qed.

Lemma X5_list_reply_witness :
  exists reply,
    result (fun _ _ => Rejected (mkError "FetchError" "socket hang up")) 0
      (Part000.route (rt := Example.runtime) Part000.ListSubscriptions Example.env
         (mkRequest (Some "Bearer s3cret") "" (JStr "a@b.example") JNull))
    = Ok reply
    /\ hasSubscriptions reply.
Proof.
  apply (X5_list_reply_has_subscriptions (rt := Example.runtime) Example.env
           (mkRequest (Some "Bearer s3cret") "" (JStr "a@b.example") JNull)
           (fun _ _ => Rejected (mkError "FetchError" "socket hang up")) 0).
  reflexivity.
Defined.

Lemma probes_without_array (body : JsVal) :
  holders body = [] -> ServerJs.probe body = [] /\ Part000.probe body = [].
Proof.
  rewrite ServerJs_probe_order, Part000_probe_order.
  unfold holders. cbn [map concat].
  destruct (atPayload body), (atSubscriptions body), (atPayloadSubscriptions body);
    cbn; try discriminate. now split.
Qed.

Lemma holders_of_text (resp : FetchResponse) :
  ~ contains (contentType resp) "application/json" -> holders (readBody resp) = [].
Proof.
  intros H. now rewrite (readBody_text resp H).
Qed.

(** X6.  A 2xx answer in which none of the three places holds an array is
    taken as an empty result, without any error: the reply is 200 with
    [{subscriptions: []}] in both revisions.  This is so for a JSON answer
    (a [content-type] header that contains [application/json]) whose parsed
    body, or the empty object when [json()] rejects, has no array at
    [payload], [subscriptions] or [payload.subscriptions], and for every
    2xx answer without a [content-type] header or with one that does not
    contain [application/json], whatever its text. *)
Theorem X6_list_without_array_is_empty {rt : Runtime} (env : Env) (req : Request)
        (up : Upstream) (n : nat) (email : string) (resp : FetchResponse) :
  authorized env req ->
  emailGiven req email ->
  up n (listCall env email) = Responded resp ->
  resp_ok resp = true ->
  (exists ct, resp_content_type resp = Some ct
              /\ contains ct "application/json"
              /\ holders (match resp_json resp with Some v => v | None => JObj [] end) = [])
  \/ resp_content_type resp = None
  \/ (exists ct, resp_content_type resp = Some ct /\ ~ contains ct "application/json") ->
  result up n (ServerJs.route ServerJs.ListSubscriptions env req)
  = Ok (mkReply 200 (JObj [("subscriptions", JArr [])]))
  /\ result up n (Part000.route Part000.ListSubscriptions env req)
     = Ok (mkReply 200 (JObj [("subscriptions", JArr [])])).
Proof.
  intros Hauth Hemail Hup Hok Hnone.
  assert (Hh : holders (readBody resp) = []).
  { destruct Hnone as [(ct & Hct & Hin & Hh)|Hother].
    - rewrite readBody_json; [assumption|].
      apply jsonHeader_contentType. now exists ct.
    - now apply holders_of_text, otherHeader_contentType. }
  destruct (probes_without_array _ Hh) as [HS HP].
  rewrite route_list_ServerJs, route_list_Part000 by assumption.
  unfold result.
  rewrite !(list_run _ env req up n email Hemail), Hup, Hok, HS, HP.
  split; reflexivity.
Qed.

Lemma X6_list_without_array_witness :
  result (fun _ _ => Responded (mkResponse 200 (Some "text/html") None (Some "<html></html>"))) 0
    (ServerJs.route (rt := Example.runtime) ServerJs.ListSubscriptions Example.env
       (mkRequest (Some "Bearer s3cret") "" (JStr "a@b.example") JNull))
  = Ok (mkReply 200 (JObj [("subscriptions", JArr [])])).
Proof.
  apply (X6_list_without_array_is_empty (rt := Example.runtime) Example.env
           (mkRequest (Some "Bearer s3cret") "" (JStr "a@b.example") JNull)
           (fun _ _ => Responded (mkResponse 200 (Some "text/html") None (Some "<html></html>")))
           0 "a@b.example"
           (mkResponse 200 (Some "text/html") None (Some "<html></html>"))).
  - reflexivity.
  - split; [reflexivity | discriminate].
  - reflexivity.
  - reflexivity.
  - right. right. exists "text/html". split; [reflexivity|].
    intros H. apply includes_spec in H. discriminate H.
Defined.

Lemma probes_agree (body : JsVal) :
  (List.length (holders body) <= 1)%nat -> ServerJs.probe body = Part000.probe body.
Proof.
  rewrite ServerJs_probe_order, Part000_probe_order.
  unfold holders. cbn [map concat].
  destruct (atPayload body), (atSubscriptions body), (atPayloadSubscriptions body);
    cbn; intros H; try reflexivity; lia.
Qed.

(** X7.  The two revisions of the list operation answer alike, reply and
    calls, whenever the upstream's answer holds an array in at most one of
    the three places. *)
Theorem X7_list_revisions_agree {rt : Runtime} (env : Env) (req : Request)
        (up : Upstream) (n : nat) :
  (forall call resp, up n call = Responded resp ->
                     (List.length (holders (readBody resp)) <= 1)%nat) ->
  run up n (ServerJs.route ServerJs.ListSubscriptions env req)
  = run up n (Part000.route Part000.ListSubscriptions env req).
Proof.
  intros Hone. unfold ServerJs.route, Part000.route, checkAuth.
  destruct (optString_neqb _ _); [reflexivity|].
  cbn [ServerJs.handler Part000.handler]. unfold get_api_subscriptions.
  destruct (Js.toString queryEmailCallee (Js.or (query_email req) (JStr ""))) as [s|e]; [|reflexivity].
  cbn [excBind liftExc bind].
  destruct (JsString.isEmpty (JsString.trim s)); [reflexivity|]. cbv zeta.
  rewrite !run_tryCatch, !run_bind, !run_callSeal.
  destruct (up n _) as [resp|e] eqn:Hup; [|reflexivity].
  cbn [sealResult ok status body_of].
  now rewrite (probes_agree _ (Hone _ _ Hup)).
Qed.

Lemma X7_list_revisions_agree_witness :
  run (Example.always (JObj [("subscriptions", JArr [JObj [("id", JNum (Num.ofZ 4))]])])) 0
    (ServerJs.route (rt := Example.runtime) ServerJs.ListSubscriptions Example.env
       (mkRequest (Some "Bearer s3cret") "" (JStr "a@b.example") JNull))
  = run (Example.always (JObj [("subscriptions", JArr [JObj [("id", JNum (Num.ofZ 4))]])])) 0
      (Part000.route (rt := Example.runtime) Part000.ListSubscriptions Example.env
         (mkRequest (Some "Bearer s3cret") "" (JStr "a@b.example") JNull)).
Proof.
  apply (X7_list_revisions_agree (rt := Example.runtime) Example.env
           (mkRequest (Some "Bearer s3cret") "" (JStr "a@b.example") JNull)
           (Example.always (JObj [("subscriptions", JArr [JObj [("id", JNum (Num.ofZ 4))]])]))
           0).
  intros call resp [= <-]. cbn. lia.
Defined.

Lemma list_ascii_of_string_app (a b : string) :
  list_ascii_of_string (a ++ b) = (list_ascii_of_string a ++ list_ascii_of_string b)%list.
Proof.
  induction a as [|c r IH]; cbn; [reflexivity | now rewrite IH].
Qed.

Lemma encoded_char_safeb (c : ascii) :
  forallb uriSafe
    (list_ascii_of_string
       (if Js.unreserved c then String c EmptyString
        else if (JsString.code c <? 128)%N then Js.percent (JsString.code c)
             else Js.percent (192 + JsString.code c / 64)
                  ++ Js.percent (128 + JsString.code c mod 64)))
  = true.
Proof.
  destruct c as [[] [] [] [] [] [] [] []]; vm_compute; reflexivity.
Qed.

Lemma encoded_char_safe (c : ascii) :
  Forall (fun x => uriSafe x = true)
    (list_ascii_of_string
       (if Js.unreserved c then String c EmptyString
        else if (JsString.code c <? 128)%N then Js.percent (JsString.code c)
             else Js.percent (192 + JsString.code c / 64)
                  ++ Js.percent (128 + JsString.code c mod 64))).
Proof.
  apply Forall_forall. apply forallb_forall. apply encoded_char_safeb.
Qed.

Lemma encodeURIComponent_safe (s : string) :
  Forall (fun x => uriSafe x = true) (list_ascii_of_string (Js.encodeURIComponent s)).
Proof.
  induction s as [|c r IH]; cbn [Js.encodeURIComponent]; [constructor|].
  cbv zeta. rewrite list_ascii_of_string_app.
  apply Forall_app. split; [apply encoded_char_safe | exact IH].
Qed.

(** X8.  A list request with an email issues exactly one call, whatever
    the upstream answers: a GET of [/subscriptions?query=<email>&with-items=true]
    in which the email is trimmed and then percent-encoded.  The encoded
    email consists of unreserved characters and percent signs only, so it
    cannot end the [query] parameter or start another one. *)
Theorem X8_list_call {rt : Runtime} (env : Env) (req : Request)
        (up : Upstream) (n : nat) (email : string) :
  authorized env req ->
  emailGiven req email ->
  calls up n (ServerJs.route ServerJs.ListSubscriptions env req) = [listCall env email]
  /\ calls up n (Part000.route Part000.ListSubscriptions env req) = [listCall env email]
  /\ url (listCall env email)
     = SEAL_BASE ++ "/subscriptions?query="
         ++ Js.encodeURIComponent (JsString.trim email) ++ "&with-items=true"
  /\ method (init (listCall env email)) = None
  /\ Forall (fun c => uriSafe c = true)
       (list_ascii_of_string (Js.encodeURIComponent (JsString.trim email))).
Proof.
  intros Hauth Hemail.
  rewrite route_list_ServerJs, route_list_Part000 by assumption.
  unfold calls. rewrite !(list_run _ env req up n email Hemail).
  repeat split; try reflexivity. apply encodeURIComponent_safe.
Qed.

Lemma X8_list_call_witness :
  calls (Example.always JNull) 0
    (ServerJs.route (rt := Example.runtime) ServerJs.ListSubscriptions Example.env
       (mkRequest (Some "Bearer s3cret") "" (JStr " a&b=c@d.example ") JNull))
  = [fetchArgs Example.env "/subscriptions?query=a%26b%3Dc%40d.example&with-items=true" noInit].
Proof.
  apply (X8_list_call (rt := Example.runtime) Example.env
           (mkRequest (Some "Bearer s3cret") "" (JStr " a&b=c@d.example ") JNull)
           (Example.always JNull) 0 " a&b=c@d.example ").
  - reflexivity.
  - split; [reflexivity | discriminate].
Defined.

(** ** Replies that hand the upstream's answer on *)

Lemma Echoes_run (p : Prog HttpReply) :
  forall up n reply call resp,
    Echoes p ->
    result up n p = Ok reply ->
    In (call, Responded resp) (snd (run up n p)) ->
    resp_ok resp = false ->
    echoes resp reply.
Proof.
  unfold result.
  induction p as [r|e|req k IH]; intros up n reply call resp HE; cbn [run Echoes] in *.
  - intros _ [].
  - intros _ [].
  - destruct HE as [HE HR].
    specialize (IH (up n req) up (S n) reply call resp).
    destruct (up n req) as [resp0|e0] eqn:Hup.
    + specialize (HE resp0). destruct (resp_ok resp0) eqn:Hok0.
      * specialize (IH HE).
        destruct (run up (S n) (k (Responded resp0))) as [r xs]. cbn [fst snd] in *.
        intros Hr [Heq|Hin] Hno; [|now apply IH].
        injection Heq as _ <-. congruence.
      * destruct HE as (r & Hk & Hecho). rewrite Hk. cbn [run fst snd].
        intros [= <-] [Heq|[]] _. injection Heq as _ <-. exact Hecho.
    + specialize (IH (HR e0)).
      destruct (run up (S n) (k (Rejected e0))) as [r xs]. cbn [fst snd] in *.
      intros Hr [Heq|Hin] Hno; [discriminate Heq | now apply IH].
Qed.

Lemma PassThrough_run (p : Prog HttpReply) (up : Upstream) (n : nat)
      (call : FetchRequest) (resp : FetchResponse) :
  PassThrough p ->
  In (call, Responded resp) (snd (run up n p)) ->
  resp_ok resp = true ->
  run up n p = (Ok (mkReply 200 (readBody resp)), [(call, Responded resp)]).
Proof.
  destruct p as [r|e|req k]; cbn [run PassThrough snd].
  - intros _ [].
  - intros _ [].
  - intros HP. destruct (HP (up n req)) as (r & Hk & Hr). rewrite Hk. cbn [run snd].
    intros [Heq|[]] Hok. injection Heq as <- Hup.
    rewrite Hup. now rewrite (Hr resp Hup Hok).
Qed.

Ltac reduce_tree :=
  cbn [Echoes PassThrough tryCatch bind liftExc excBind callSeal negb orb andb
       ok status body_of sealResult listException bridgeException
       upstreamError rescheduleAttempt orElse].

Ltac echo_leaf :=
  solve [ exact I | eexists; split; [reflexivity | split; reflexivity] ].

Ltac walk_echo :=
  repeat first
    [ echo_leaf
    | progress reduce_tree
    | split
    | intros ?
    | split_next ].

Ltac pass_leaf :=
  solve [ exact I
        | eexists; split;
          [ reflexivity
          | let resp := fresh "resp" in
            let Heq := fresh "Heq" in
            let Hok := fresh "Hok" in
            intros resp Heq Hok;
            first [ discriminate Heq
                  | injection Heq as <-; first [ reflexivity | congruence ] ] ] ].

Section Echo.
Context {rt : Runtime}.

Lemma get_api_subscriptions_echoes (probe : JsVal -> list JsVal)
      (env : Env) (req : Request) :
  Echoes (get_api_subscriptions probe env req).
Proof.
  unfold get_api_subscriptions.
  destruct (Js.toString queryEmailCallee (Js.or (query_email req) (JStr ""))) as [s|e];
    [|walk_echo].
  cbn [excBind liftExc bind tryCatch].
  destruct (JsString.isEmpty (JsString.trim s)); [walk_echo|].
  reduce_tree. split; [intros resp|intros e; exact I].
  destruct (resp_ok resp); reduce_tree; [|echo_leaf].
  destruct (mapExc normalizeSubscription (probe (readBody resp))); walk_echo.
Qed.

Lemma rescheduleAttempt_echoes (env : Env) (sub : JsNum) (date time timezone : string)
      (reset : JsVal) (a : JsNum) :
  Echoes (tryCatch (rescheduleAttempt env sub date time timezone reset a) bridgeException).
Proof.
  unfold rescheduleAttempt.
  destruct (Num.truthy a); reduce_tree; [|exact I].
  split; [intros resp|intros e; exact I].
  destruct (resp_ok resp); reduce_tree; echo_leaf.
Qed.

Lemma put_api_subscription_reschedule_echoes (resetOf : JsVal -> JsVal)
      (env : Env) (req : Request) :
  Echoes (put_api_subscription_reschedule resetOf env req).
Proof.
  unfold put_api_subscription_reschedule. cbv zeta.
  destruct (Num.truthy (Num.StringToNumber (params_id req))); cbn [negb];
    [|walk_echo].
  destruct (Js.trim (bodyFieldCallee "trim") (Js.or (Js.getOpt (req_body req) "date") (JStr ""))) as [date|e];
    [|walk_echo].
  destruct (Js.trim (bodyFieldCallee "trim") (Js.or (Js.getOpt (req_body req) "time") (JStr ""))) as [time|e];
    [|walk_echo].
  destruct (Js.trim (bodyFieldCallee "trim") (Js.or (Js.getOpt (req_body req) "timezone") (JStr ""))) as [tz|e];
    [|walk_echo].
  cbn [liftExc bind].
  match goal with
  | |- context [liftExc ?m] => destruct m as [a0|e]
  end; [|walk_echo].
  cbn [liftExc bind].
  destruct (JsString.isEmpty date || JsString.isEmpty time || JsString.isEmpty tz);
    [walk_echo|].
  destruct (Num.truthy a0); cbn [negb].
  - apply rescheduleAttempt_echoes.
  - cbn [tryCatch bind callSeal Echoes]. split; [intros resp|intros e; exact I].
    cbn [ok sealResult]. destruct (resp_ok resp); cbn [negb]; [|echo_leaf].
    cbn [body_of sealResult].
    destruct (resolveAttempt (readBody resp) a0) as [a|e];
      cbn [liftExc bind]; [apply rescheduleAttempt_echoes | walk_echo].
Qed.

Lemma ServerJs_put_api_subscription_echoes (env : Env) (req : Request) :
  Echoes (ServerJs.put_api_subscription env req)
  /\ PassThrough (ServerJs.put_api_subscription env req).
Proof.
  unfold ServerJs.put_api_subscription. cbv zeta.
  destruct (Js.toString (bodyFieldCallee "toString") (Js.or (Js.getOpt (req_body req) "action") (JStr "")))
    as [s|e]; [|split; exact I].
  cbn [excBind liftExc bind].
  destruct (negb (Num.truthy (Num.StringToNumber (params_id req)))
            || JsString.isEmpty (JsString.toLowerCase s)); [split; exact I|].
  destruct (JsString.mem (JsString.toLowerCase s) ServerJs.actions); cbn [negb];
    [|split; exact I].
  reduce_tree. split.
  - split; [intros resp|intros e; exact I].
    destruct (resp_ok resp); reduce_tree; echo_leaf.
  - intros [resp|e]; reduce_tree; [destruct (resp_ok resp) eqn:Hok|]; reduce_tree; pass_leaf.
Qed.

Lemma Part000_put_api_subscription_echoes (env : Env) (req : Request) :
  Echoes (Part000.put_api_subscription env req)
  /\ PassThrough (Part000.put_api_subscription env req).
Proof.
  unfold Part000.put_api_subscription. cbv zeta.
  destruct (Js.toString (bodyFieldCallee "toString") (Js.or (Js.getOpt (req_body req) "action") (JStr "")))
    as [s|e]; [|split; exact I].
  cbn [liftExc bind].
  destruct (negb (Num.truthy (Num.StringToNumber (params_id req)))
            || JsString.isEmpty s); [split; exact I|].
  reduce_tree. split.
  - split; [intros resp|intros e; exact I].
    destruct (resp_ok resp); reduce_tree; echo_leaf.
  - intros [resp|e]; reduce_tree; [destruct (resp_ok resp) eqn:Hok|]; reduce_tree; pass_leaf.
Qed.

Lemma Part000_charge_now_echoes (env : Env) (req : Request) :
  Echoes (Part000.put_api_subscription_charge_now env req)
  /\ PassThrough (Part000.put_api_subscription_charge_now env req).
Proof.
  unfold Part000.put_api_subscription_charge_now. cbv zeta.
  destruct (Num.truthy (Num.StringToNumber (params_id req))); cbn [negb];
    [|split; exact I].
  reduce_tree. split.
  - split; [intros resp|intros e; exact I].
    destruct (resp_ok resp); reduce_tree; echo_leaf.
  - intros [resp|e]; reduce_tree; [destruct (resp_ok resp) eqn:Hok|]; reduce_tree; pass_leaf.
Qed.

Lemma checkAuth_echoes (env : Env) (req : Request) (next : unit -> Prog HttpReply) :
  Echoes (next tt) -> Echoes (checkAuth env req next).
Proof.
  intros H. unfold checkAuth. destruct (optString_neqb _ _); [exact I | assumption].
Qed.

Lemma checkAuth_passThrough (env : Env) (req : Request) (next : unit -> Prog HttpReply) :
  PassThrough (next tt) -> PassThrough (checkAuth env req next).
Proof.
  intros H. unfold checkAuth. destruct (optString_neqb _ _); [exact I | assumption].
Qed.

Lemma ServerJs_route_echoes (op : ServerJs.Op) (env : Env) (req : Request) :
  Echoes (ServerJs.route op env req).
Proof.
  apply checkAuth_echoes. destruct op; cbn [ServerJs.handler].
  - apply get_api_subscriptions_echoes.
  - apply ServerJs_put_api_subscription_echoes.
  - apply put_api_subscription_reschedule_echoes.
Qed.

Lemma Part000_route_echoes (op : Part000.Op) (env : Env) (req : Request) :
  Echoes (Part000.route op env req).
Proof.
  apply checkAuth_echoes. destruct op; cbn [Part000.handler].
  - apply get_api_subscriptions_echoes.
  - apply Part000_put_api_subscription_echoes.
  - apply Part000_charge_now_echoes.
  - apply put_api_subscription_reschedule_echoes.
Qed.

End Echo.

(** X9.  On every route of both revisions, a reply that follows an
    upstream answer outside 2xx carries that answer under [error]: its
    status as [error.status] and the body read off it as [error.body]. *)
Theorem X9_upstream_error_echoes_answer {rt : Runtime} (env : Env) (req : Request)
        (up : Upstream) (n : nat) (call : FetchRequest) (resp : FetchResponse) :
  resp_ok resp = false ->
  (forall op reply,
      result up n (ServerJs.route op env req) = Ok reply ->
      In (call, Responded resp) (snd (run up n (ServerJs.route op env req))) ->
      echoes resp reply)
  /\ (forall op reply,
         result up n (Part000.route op env req) = Ok reply ->
         In (call, Responded resp) (snd (run up n (Part000.route op env req))) ->
         echoes resp reply).
Proof.
  intros Hno. split; intros op reply Hr Hin.
  - exact (Echoes_run _ up n reply call resp (ServerJs_route_echoes op env req) Hr Hin Hno).
  - exact (Echoes_run _ up n reply call resp (Part000_route_echoes op env req) Hr Hin Hno).
Qed.

Lemma X9_upstream_error_witness :
  echoes (mkResponse 422 (Some "application/json") (Some (JObj [("success", JBool false)])) None)
    (mkReply 200
       (JObj [("error",
               JObj [("reason", JStr "upstream_error");
                     ("status", statusNum 422);
                     ("body", JObj [("success", JBool false)])])])).
Proof.
  apply (proj2 (X9_upstream_error_echoes_answer (rt := Example.runtime) Example.env
                  (Example.request "5" (JObj [("action", JStr "pause")]))
                  (fun _ _ => Responded (mkResponse 422 (Some "application/json")
                                           (Some (JObj [("success", JBool false)])) None))
                  0
                  (statusCall_Part000 (rt := Example.runtime) Example.env (Num.ofZ 5) "pause")
                  (mkResponse 422 (Some "application/json")
                     (Some (JObj [("success", JBool false)])) None)
                  eq_refl)
           Part000.ChangeStatus).
  - reflexivity.
  - left. reflexivity.
Defined.

(** X10.  The status change of both revisions and the charge-now
    operation hand a 2xx answer on unchanged: when the upstream answers
    the call with a 2xx status, the reply is 200 with the body read off
    that answer as its whole body, and that call is the only one. *)
Theorem X10_success_passes_body_through {rt : Runtime} (env : Env) (req : Request)
        (up : Upstream) (n : nat) (call : FetchRequest) (resp : FetchResponse) :
  resp_ok resp = true ->
  (In (call, Responded resp) (snd (run up n (ServerJs.route ServerJs.ChangeStatus env req))) ->
   run up n (ServerJs.route ServerJs.ChangeStatus env req)
   = (Ok (mkReply 200 (readBody resp)), [(call, Responded resp)]))
  /\ (In (call, Responded resp) (snd (run up n (Part000.route Part000.ChangeStatus env req))) ->
      run up n (Part000.route Part000.ChangeStatus env req)
      = (Ok (mkReply 200 (readBody resp)), [(call, Responded resp)]))
  /\ (In (call, Responded resp) (snd (run up n (Part000.route Part000.ChargeNow env req))) ->
      run up n (Part000.route Part000.ChargeNow env req)
      = (Ok (mkReply 200 (readBody resp)), [(call, Responded resp)])).
Proof.
  intros Hok. repeat split; intros Hin;
    (apply PassThrough_run; [apply checkAuth_passThrough | assumption | assumption]).
  - apply ServerJs_put_api_subscription_echoes.
  - apply Part000_put_api_subscription_echoes.
  - apply Part000_charge_now_echoes.
Qed.

Lemma X10_success_passes_body_through_witness :
  run (Example.always (JObj [("success", JBool true)])) 0
    (Part000.route (rt := Example.runtime) Part000.ChargeNow Example.env
       (Example.request "42" JNull))
  = (Ok (mkReply 200 (JObj [("success", JBool true)])),
     [(chargeNowCall (rt := Example.runtime) Example.env (Num.ofZ 42),
       Example.jsonResponse 200 (JObj [("success", JBool true)]))]).
Proof.
  apply (X10_success_passes_body_through (rt := Example.runtime) Example.env
           (Example.request "42" JNull)
           (Example.always (JObj [("success", JBool true)])) 0
           (chargeNowCall (rt := Example.runtime) Example.env (Num.ofZ 42))
           (mkResponse 200 (Some "application/json; charset=utf-8")
              (Some (JObj [("success", JBool true)])) None)).
  - reflexivity.
  - left. reflexivity.
Defined.

(** ** The status change *)

(** X11.  A status change without an [action], or with one that is falsy
    ([null], [false], [0], the empty string), is answered 400 with
    [Missing id or action] without any upstream call, in both revisions
    and whatever the id. *)
Theorem X11_missing_action {rt : Runtime} (env : Env) (req : Request)
        (up : Upstream) (n : nat) :
  authorized env req ->
  Js.truthy (Js.getOpt (req_body req) "action") = false ->
  run up n (ServerJs.route ServerJs.ChangeStatus env req) = (Ok missingIdOrAction, [])
  /\ run up n (Part000.route Part000.ChangeStatus env req) = (Ok missingIdOrAction, []).
Proof.
  intros Hauth Hfalsy.
  unfold ServerJs.route, Part000.route. rewrite !checkAuth_pass by assumption.
  cbn [ServerJs.handler Part000.handler].
  unfold ServerJs.put_api_subscription, Part000.put_api_subscription, Js.or.
  rewrite Hfalsy. cbn [Js.toString Js.ToString excBind liftExc bind JsString.toLowerCase
                         JsString.isEmpty].
  rewrite !orb_true_r. split; reflexivity.
Qed.

Lemma X11_missing_action_witness :
  run (Example.always JNull) 0
    (ServerJs.route (rt := Example.runtime) ServerJs.ChangeStatus Example.env
       (Example.request "5" (JObj [("action", JNull)])))
  = (Ok missingIdOrAction, []).
Proof.
  apply (X11_missing_action (rt := Example.runtime) Example.env
           (Example.request "5" (JObj [("action", JNull)])) (Example.always JNull) 0);
    reflexivity.
Defined.

Lemma mem_nonempty (s : string) : JsString.mem s ServerJs.actions = true -> s <> "".
Proof. intros H ->. discriminate H. Qed.

(** X12.  The two revisions address the provider differently.  For an
    authorised status change with a usable id, [server.js] issues [PUT
    /subscription] with body [{id, action}], the id as the number the
    path id converts to and the action in lower case, when the action in
    lower case is [pause], [resume], [cancel] or [reactivate], and no call
    for any other action; [part_000] issues [PUT /subscriptions/<id>] with
    body [{action}], the action as given, when the action is not empty.
    Each issues that call alone, with the two headers of [callSeal]. *)
Theorem X12_status_change_calls {rt : Runtime} (env : Env) (req : Request)
        (up : Upstream) (n : nat) (s : string) :
  authorized env req ->
  Num.truthy (Num.StringToNumber (params_id req)) = true ->
  actionText req s ->
  (In (JsString.toLowerCase s) ["pause"; "resume"; "cancel"; "reactivate"] ->
   calls up n (ServerJs.route ServerJs.ChangeStatus env req)
   = [mkFetch (SEAL_BASE ++ "/subscription")
        (mkInit (Some "PUT")
           (Some (JSON_stringify
                    (JObj [("id", JNum (Num.StringToNumber (params_id req)));
                           ("action", JStr (JsString.toLowerCase s))])))
           (Some [("Content-Type", Some "application/json");
                  ("X-Seal-Token", SEAL_TOKEN env)]))])
  /\ (~ In (JsString.toLowerCase s) ["pause"; "resume"; "cancel"; "reactivate"] ->
      calls up n (ServerJs.route ServerJs.ChangeStatus env req) = [])
  /\ (s <> "" ->
      calls up n (Part000.route Part000.ChangeStatus env req)
      = [mkFetch (SEAL_BASE ++ "/subscriptions/"
                    ++ NumberToString (Num.StringToNumber (params_id req)))
           (mkInit (Some "PUT")
              (Some (JSON_stringify (JObj [("action", JStr s)])))
              (Some [("Content-Type", Some "application/json");
                     ("X-Seal-Token", SEAL_TOKEN env)]))]).
Proof.
  intros Hauth Hid Hs. unfold actionText in Hs.
  unfold calls, ServerJs.route, Part000.route. rewrite !checkAuth_pass by assumption.
  cbn [ServerJs.handler Part000.handler].
  unfold ServerJs.put_api_subscription, Part000.put_api_subscription. cbv zeta.
  rewrite Hs, Hid. cbn [excBind liftExc bind negb orb].
  split.
  - intros Hin.
    assert (Hmem : JsString.mem (JsString.toLowerCase s) ServerJs.actions = true).
    { cbn [In] in Hin.
      destruct Hin as [<-|[<-|[<-|[<-|[]]]]]; reflexivity. }
    rewrite Hmem, (isEmpty_false _ (mem_nonempty _ Hmem)). cbn [negb].
    rewrite run_tryCatch, run_bind, run_callSeal.
    fold (statusCall_ServerJs env (Num.StringToNumber (params_id req)) (JsString.toLowerCase s)).
    destruct (up n _) as [resp|e]; cbn; [destruct (resp_ok resp)|]; reflexivity.
  - split.
    intros Hout.
    destruct (JsString.isEmpty (JsString.toLowerCase s)); [reflexivity|].
    destruct (JsString.mem (JsString.toLowerCase s) ServerJs.actions) eqn:Hmem;
      [|reflexivity].
    exfalso. apply Hout. unfold JsString.mem in Hmem.
    apply existsb_exists in Hmem as (a & Hin & Heq).
    apply String.eqb_eq in Heq. subst a. exact Hin.
    intros Hne. rewrite (isEmpty_false _ Hne).
    rewrite run_tryCatch, run_bind, run_callSeal.
    fold (statusCall_Part000 env (Num.StringToNumber (params_id req)) s).
    destruct (up n _) as [resp|e]; cbn; [destruct (resp_ok resp)|]; reflexivity.
Qed.

Lemma X12_status_change_calls_witness :
  calls (Example.always JNull) 0
    (ServerJs.route (rt := Example.runtime) ServerJs.ChangeStatus Example.env
       (Example.request "5" (JObj [("action", JStr "Resume")])))
  = [mkFetch (SEAL_BASE ++ "/subscription")
       (mkInit (Some "PUT")
          (Some (JSON_stringify
                   (JObj [("id", JNum (Num.ofZ 5)); ("action", JStr "resume")])))
          (Some [("Content-Type", Some "application/json");
                 ("X-Seal-Token", Some "seal-token")]))]
  /\ calls (Example.always JNull) 0
       (Part000.route (rt := Example.runtime) Part000.ChangeStatus Example.env
          (Example.request "5" (JObj [("action", JStr "Resume")])))
     = [mkFetch (SEAL_BASE ++ "/subscriptions/5")
          (mkInit (Some "PUT")
             (Some (JSON_stringify (JObj [("action", JStr "Resume")])))
             (Some [("Content-Type", Some "application/json");
                    ("X-Seal-Token", Some "seal-token")]))].
Proof.
  destruct (X12_status_change_calls (rt := Example.runtime) Example.env
              (Example.request "5" (JObj [("action", JStr "Resume")]))
              (Example.always JNull) 0 "Resume" eq_refl eq_refl eq_refl)
    as (HS & _ & HP).
  split; [apply HS; right; left; reflexivity | apply HP; discriminate].
Defined.

(** X13.  When the upstream answers the status change of [server.js]
    outside 2xx, the reply names what was attempted: [error.attempted_endpoint]
    is the URL of the call that was issued and [error.request_payload] is
    the value whose JSON text was its body, beside [error.status] and
    [error.body]. *)
Theorem X13_ServerJs_failure_names_attempt {rt : Runtime} (env : Env) (req : Request)
        (up : Upstream) (n : nat) (s : string) (resp : FetchResponse) :
  authorized env req ->
  Num.truthy (Num.StringToNumber (params_id req)) = true ->
  actionText req s ->
  JsString.mem (JsString.toLowerCase s) ServerJs.actions = true ->
  let call := statusCall_ServerJs env (Num.StringToNumber (params_id req))
                (JsString.toLowerCase s) in
  up n call = Responded resp ->
  resp_ok resp = false ->
  exists payload,
    body (init call) = Some (JSON_stringify payload)
    /\ result up n (ServerJs.route ServerJs.ChangeStatus env req)
       = Ok (mkReply 200
               (JObj [("error",
                       JObj [("reason", JStr "upstream_error");
                             ("status", statusNum (resp_status resp));
                             ("body", readBody resp);
                             ("attempted_endpoint", JStr (url call));
                             ("request_payload", payload)])])).
Proof.
  intros Hauth Hid Hs Hmem call Hup Hno. unfold actionText in Hs.
  eexists. split; [reflexivity|].
  unfold result, ServerJs.route. rewrite checkAuth_pass by assumption.
  cbn [ServerJs.handler]. unfold ServerJs.put_api_subscription. cbv zeta.
  rewrite Hs, Hid. cbn [excBind liftExc bind negb orb].
  rewrite Hmem, (isEmpty_false _ (mem_nonempty _ Hmem)). cbn [negb].
  rewrite run_tryCatch, run_bind, run_callSeal.
  fold (statusCall_ServerJs env (Num.StringToNumber (params_id req)) (JsString.toLowerCase s)).
  fold call. rewrite Hup. cbn [sealResult ok status body_of]. rewrite Hno. reflexivity.
Qed.

Lemma X13_ServerJs_failure_witness :
  result (fun _ _ => Responded (mkResponse 404 (Some "text/plain") None (Some "Not Found"))) 0
    (ServerJs.route (rt := Example.runtime) ServerJs.ChangeStatus Example.env
       (Example.request "5" (JObj [("action", JStr "cancel")])))
  = Ok (mkReply 200
          (JObj [("error",
                  JObj [("reason", JStr "upstream_error");
                        ("status", statusNum 404);
                        ("body", JObj [("non_json", JStr "Not Found")]);
                        ("attempted_endpoint",
                         JStr "https://app.sealsubscriptions.com/shopify/merchant/api/subscription");
                        ("request_payload",
                         JObj [("id", JNum (Num.ofZ 5)); ("action", JStr "cancel")])])])).
Proof.
  destruct (X13_ServerJs_failure_names_attempt (rt := Example.runtime) Example.env
              (Example.request "5" (JObj [("action", JStr "cancel")]))
              (fun _ _ => Responded (mkResponse 404 (Some "text/plain") None (Some "Not Found")))
              0 "cancel"
              (mkResponse 404 (Some "text/plain") None (Some "Not Found"))
              eq_refl eq_refl eq_refl eq_refl eq_refl eq_refl) as (payload & Hbody & Hres).
  injection Hbody as <-. exact Hres.
Defined.

(** ** The reschedule operation *)

Section RescheduleRuns.
Context {rt : Runtime}.

Lemma readsAs_trim (v : JsVal) (s : string) :
  readsAs v s -> Js.trim (bodyFieldCallee "trim") (Js.or v (JStr "")) = Ok s.
Proof.
  unfold Js.or. intros [[Hf ->]|(x & -> & ->)].
  - now rewrite Hf.
  - destruct x; reflexivity.
Qed.

Lemma notText_trim (v : JsVal) :
  notText v = true ->
  Js.trim (bodyFieldCallee "trim") (Js.or v (JStr ""))
  = Raise (Js.notAFunction (bodyFieldCallee "trim")).
Proof.
  unfold notText, Js.or. intros H. apply andb_true_iff in H as [Ht Hs].
  rewrite Ht. destruct v; try discriminate Hs; reflexivity.
Qed.

Lemma text_or_not (v : JsVal) :
  notText v = true \/ exists s, readsAs v s.
Proof.
  unfold notText, readsAs.
  destruct (Js.truthy v) eqn:Ht; [|right; exists ""; now left].
  destruct v; cbn [andb]; try (now left).
  right. eexists. right. eexists. split; reflexivity.
Qed.

Lemma route_reschedule_ServerJs (env : Env) (req : Request) :
  authorized env req ->
  ServerJs.route ServerJs.Reschedule env req
  = put_api_subscription_reschedule ServerJs.resetSchedule env req.
Proof. intros H. unfold ServerJs.route. now rewrite checkAuth_pass. Qed.

Lemma route_reschedule_Part000 (env : Env) (req : Request) :
  authorized env req ->
  Part000.route Part000.Reschedule env req
  = put_api_subscription_reschedule Part000.resetSchedule env req.
Proof. intros H. unfold Part000.route. now rewrite checkAuth_pass. Qed.

(** The attempt id a request brings: [Number(attempt_id)] when the field
    is truthy, 0 otherwise. *)
Lemma attempt_id_read (req : Request) (x : JsNum) :
  Js.ToNumber (Js.getOpt (req_body req) "attempt_id") = Ok x ->
  exists a0,
    (if Js.truthy (Js.getOpt (req_body req) "attempt_id")
     then (a <- Js.get (req_body req) "attempt_id" ;; Js.ToNumber a)%exc
     else Ok (Num.ofZ 0)) = Ok a0
    /\ (Js.truthy (Js.getOpt (req_body req) "attempt_id") = true -> a0 = x).
Proof.
  intros Hx. destruct (Js.truthy (Js.getOpt (req_body req) "attempt_id")) eqn:Ht.
  - exists x. split; [|reflexivity].
    rewrite (get_of_getOpt (req_body req) "attempt_id" _ eq_refl).
    + exact Hx.
    + intros E. rewrite E in Ht. discriminate Ht.
  - exists (Num.ofZ 0). split; [reflexivity | discriminate].
Qed.

Lemma reschedule_blank (resetOf : JsVal -> JsVal) (env : Env) (req : Request)
      (up : Upstream) (n : nat) (date time timezone : string) (x : JsNum) :
  Num.truthy (Num.StringToNumber (params_id req)) = true ->
  readsAs (Js.getOpt (req_body req) "date") date ->
  readsAs (Js.getOpt (req_body req) "time") time ->
  readsAs (Js.getOpt (req_body req) "timezone") timezone ->
  Js.ToNumber (Js.getOpt (req_body req) "attempt_id") = Ok x ->
  date = "" \/ time = "" \/ timezone = "" ->
  run up n (put_api_subscription_reschedule resetOf env req) = (Ok missingSchedule, []).
Proof.
  intros Hid Hd Ht Hz Hx Hblank.
  apply readsAs_trim in Hd, Ht, Hz.
  destruct (attempt_id_read req x Hx) as (a0 & Ha0 & _).
  unfold put_api_subscription_reschedule. cbv zeta.
  rewrite Hid, Hd, Ht, Hz. cbn [negb liftExc bind].
  rewrite Ha0. cbn [liftExc bind].
  assert (Hb : JsString.isEmpty date || JsString.isEmpty time || JsString.isEmpty timezone
               = true).
  { destruct Hblank as [ -> | [ -> | -> ] ]; cbn [JsString.isEmpty orb];
      rewrite ?orb_true_r; reflexivity. }
  rewrite Hb. reflexivity.
Qed.

Lemma reschedule_not_text (resetOf : JsVal -> JsVal) (env : Env) (req : Request)
      (up : Upstream) (n : nat) :
  Num.truthy (Num.StringToNumber (params_id req)) = true ->
  notText (Js.getOpt (req_body req) "date")
  || notText (Js.getOpt (req_body req) "time")
  || notText (Js.getOpt (req_body req) "timezone") = true ->
  run up n (put_api_subscription_reschedule resetOf env req)
  = (Ok (bridgeFailure (err_message (Js.notAFunction (bodyFieldCallee "trim")))), []).
Proof.
  intros Hid Hnot.
  unfold put_api_subscription_reschedule. cbv zeta. rewrite Hid. cbn [negb].
  destruct (text_or_not (Js.getOpt (req_body req) "date")) as [Hd|[d Hd]];
    [rewrite (notText_trim _ Hd); reflexivity|].
  rewrite (readsAs_trim _ _ Hd). cbn [liftExc bind].
  destruct (text_or_not (Js.getOpt (req_body req) "time")) as [Ht|[t Ht]];
    [rewrite (notText_trim _ Ht); reflexivity|].
  rewrite (readsAs_trim _ _ Ht). cbn [liftExc bind].
  destruct (text_or_not (Js.getOpt (req_body req) "timezone")) as [Hz|[z Hz]];
    [rewrite (notText_trim _ Hz); reflexivity|].
  exfalso.
  assert (Hno : forall v s, readsAs v s -> notText v = false).
  { intros v s [[Hf _]|(y & -> & _)]; unfold notText; [now rewrite Hf | apply andb_false_r]. }
  rewrite (Hno _ _ Hd), (Hno _ _ Ht), (Hno _ _ Hz) in Hnot. discriminate Hnot.
Qed.

End RescheduleRuns.

(** X14.  A reschedule whose [date], [time] or [timezone] is missing,
    empty or white space only is answered 400 with [Missing
    date/time/timezone] without any upstream call, in both revisions,
    provided the id is usable, the three fields are strings where they
    are given, and [attempt_id] converts to a number. *)
Theorem X14_reschedule_blank_field {rt : Runtime} (env : Env) (req : Request)
        (up : Upstream) (n : nat) (date time timezone : string) (x : JsNum) :
  authorized env req ->
  Num.truthy (Num.StringToNumber (params_id req)) = true ->
  readsAs (Js.getOpt (req_body req) "date") date ->
  readsAs (Js.getOpt (req_body req) "time") time ->
  readsAs (Js.getOpt (req_body req) "timezone") timezone ->
  Js.ToNumber (Js.getOpt (req_body req) "attempt_id") = Ok x ->
  date = "" \/ time = "" \/ timezone = "" ->
  run up n (ServerJs.route ServerJs.Reschedule env req) = (Ok missingSchedule, [])
  /\ run up n (Part000.route Part000.Reschedule env req) = (Ok missingSchedule, []).
Proof.
  intros Hauth Hid Hd Ht Hz Hx Hblank.
  rewrite route_reschedule_ServerJs, route_reschedule_Part000 by assumption.
  split; now apply reschedule_blank with (date := date) (time := time)
                                         (timezone := timezone) (x := x).
Qed.

Lemma X14_reschedule_blank_witness :
  run (Example.always JNull) 0
    (ServerJs.route (rt := Example.runtime) ServerJs.Reschedule Example.env
       (Example.request "77"
          (JObj [("date", JStr "2025-11-20"); ("time", JStr "   ");
                 ("timezone", JStr "America/Chicago")])))
  = (Ok missingSchedule, []).
Proof.
  apply (X14_reschedule_blank_field (rt := Example.runtime) Example.env
           (Example.request "77"
              (JObj [("date", JStr "2025-11-20"); ("time", JStr "   ");
                     ("timezone", JStr "America/Chicago")]))
           (Example.always JNull) 0 "2025-11-20" "" "America/Chicago" NaN).
  - reflexivity.
  - reflexivity.
  - right. exists "2025-11-20". split; reflexivity.
  - right. exists "   ". split; reflexivity.
  - right. exists "America/Chicago". split; reflexivity.
  - reflexivity.
  - right. left. reflexivity.
Defined.

(** X15.  A reschedule with a usable id in which [date], [time] or
    [timezone] is given as something other than a string (a number, [true],
    an array, an object) is not answered 400: [.trim] is not a function of
    that value, and the reply is 200 with [bridge_exception], without any
    upstream call, in both revisions. *)
Theorem X15_reschedule_field_not_text {rt : Runtime} (env : Env) (req : Request)
        (up : Upstream) (n : nat) :
  authorized env req ->
  Num.truthy (Num.StringToNumber (params_id req)) = true ->
  notText (Js.getOpt (req_body req) "date")
  || notText (Js.getOpt (req_body req) "time")
  || notText (Js.getOpt (req_body req) "timezone") = true ->
  exists message,
    run up n (ServerJs.route ServerJs.Reschedule env req)
    = (Ok (bridgeFailure message), [])
    /\ run up n (Part000.route Part000.Reschedule env req)
       = (Ok (bridgeFailure message), []).
Proof.
  intros Hauth Hid Hnot.
  rewrite route_reschedule_ServerJs, route_reschedule_Part000 by assumption.
  eexists. split; now apply reschedule_not_text.
Qed.

Lemma X15_reschedule_field_not_text_witness :
  exists message,
    run (Example.always JNull) 0
      (Part000.route (rt := Example.runtime) Part000.Reschedule Example.env
         (Example.request "77"
            (JObj [("date", JNum (Num.ofZ 20251120)); ("time", JStr "09:30");
                   ("timezone", JStr "America/Chicago")])))
    = (Ok (bridgeFailure message), []).
Proof.
  destruct (X15_reschedule_field_not_text (rt := Example.runtime) Example.env
              (Example.request "77"
                 (JObj [("date", JNum (Num.ofZ 20251120)); ("time", JStr "09:30");
                        ("timezone", JStr "America/Chicago")]))
              (Example.always JNull) 0 eq_refl eq_refl eq_refl) as (message & _ & HP).
  exists message. exact HP.
Defined.

Section RescheduleResolution.
Context {rt : Runtime}.

(** A validated reschedule request, past its checks. *)
Lemma reschedule_validated (resetOf : JsVal -> JsVal) (env : Env) (req : Request)
      (date time timezone : string) (x : JsNum) :
  Num.truthy (Num.StringToNumber (params_id req)) = true ->
  textField req "date" date ->
  textField req "time" time ->
  textField req "timezone" timezone ->
  Js.ToNumber (Js.getOpt (req_body req) "attempt_id") = Ok x ->
  exists a0,
    (Js.truthy (Js.getOpt (req_body req) "attempt_id") = true -> a0 = x)
    /\ (Js.truthy (Js.getOpt (req_body req) "attempt_id") = false -> a0 = Num.ofZ 0)
    /\ put_api_subscription_reschedule resetOf env req
       = tryCatch
           (if negb (Num.truthy a0) then
              bind (callSeal env (attemptsPath (Num.StringToNumber (params_id req))) noInit)
                (fun attemptsResp =>
                   if negb (ok attemptsResp) then Ret (upstreamError attemptsResp)
                   else
                     bind (liftExc (resolveAttempt (body_of attemptsResp) a0))
                       (fun attemptId =>
                          rescheduleAttempt env (Num.StringToNumber (params_id req))
                            (JsString.trim date) (JsString.trim time)
                            (JsString.trim timezone)
                            (resetOf (Js.getOpt (req_body req) "reset_schedule"))
                            attemptId))
            else
              rescheduleAttempt env (Num.StringToNumber (params_id req))
                (JsString.trim date) (JsString.trim time) (JsString.trim timezone)
                (resetOf (Js.getOpt (req_body req) "reset_schedule")) a0)
           bridgeException.
Proof.
  intros Hid Hd Ht Hz Hx.
  apply textField_read in Hd as [Hd Hd'], Ht as [Ht Ht'], Hz as [Hz Hz'].
  unfold put_api_subscription_reschedule. cbv zeta.
  rewrite Hid, Hd, Ht, Hz. cbn [negb liftExc bind].
  rewrite Hd', Ht', Hz'. cbn [orb].
  destruct (Js.truthy (Js.getOpt (req_body req) "attempt_id")) eqn:Hta.
  - exists x. split; [reflexivity|]. split; [discriminate|].
    rewrite (get_of_getOpt (req_body req) "attempt_id" _ eq_refl).
    + cbn [excBind]. rewrite Hx. reflexivity.
    + intros E. rewrite E in Hta. discriminate Hta.
  - exists (Num.ofZ 0). split; [discriminate|]. split; reflexivity.
Qed.

Lemma reschedule_supplied (resetOf : JsVal -> JsVal) (env : Env) (req : Request)
      (up : Upstream) (n : nat) (date time timezone : string) (x : JsNum) :
  Num.truthy (Num.StringToNumber (params_id req)) = true ->
  textField req "date" date ->
  textField req "time" time ->
  textField req "timezone" timezone ->
  Js.truthy (Js.getOpt (req_body req) "attempt_id") = true ->
  Js.ToNumber (Js.getOpt (req_body req) "attempt_id") = Ok x ->
  Num.truthy x = true ->
  let call := rescheduleCall env req date time timezone
                (resetOf (Js.getOpt (req_body req) "reset_schedule")) x in
  run up n (put_api_subscription_reschedule resetOf env req)
  = (match up n call with
     | Responded resp =>
         if resp_ok resp then Ok (rescheduled x resp) else Ok (upstreamError (sealResult resp))
     | Rejected e => Ok (bridgeFailure (errText e))
     end,
     [(call, up n call)]).
Proof.
  intros Hid Hd Ht Hz Hta Hx Htx call.
  destruct (reschedule_validated resetOf env req date time timezone x Hid Hd Ht Hz Hx)
    as (a0 & Ha & _ & ->).
  rewrite (Ha Hta), Htx. cbn [negb].
  unfold rescheduleAttempt. rewrite Htx. cbn [negb]. cbv zeta.
  rewrite run_tryCatch, run_bind, run_callSeal.
  fold (reschedulePayload x (Num.StringToNumber (params_id req)) (JsString.trim date)
          (JsString.trim time) (JsString.trim timezone)
          (resetOf (Js.getOpt (req_body req) "reset_schedule"))).
  change (fetchArgs env "/subscription-billing-attempt" _) with call.
  destruct (up n call) as [resp|e]; cbn; [destruct (resp_ok resp)|]; reflexivity.
Qed.

Lemma reschedule_falls_back (resetOf : JsVal -> JsVal) (env : Env) (req : Request)
      (up : Upstream) (n : nat) (date time timezone : string) (x : JsNum) :
  Num.truthy (Num.StringToNumber (params_id req)) = true ->
  textField req "date" date ->
  textField req "time" time ->
  textField req "timezone" timezone ->
  Js.ToNumber (Js.getOpt (req_body req) "attempt_id") = Ok x ->
  Js.truthy (Js.getOpt (req_body req) "attempt_id") = false \/ Num.truthy x = false ->
  exists rest,
    calls up n (put_api_subscription_reschedule resetOf env req)
    = attemptsCall env req :: rest.
Proof.
  intros Hid Hd Ht Hz Hx Hfalsy.
  destruct (reschedule_validated resetOf env req date time timezone x Hid Hd Ht Hz Hx)
    as (a0 & Ha & Ha' & ->).
  assert (Hta : Num.truthy a0 = false).
  { destruct (Js.truthy (Js.getOpt (req_body req) "attempt_id")) eqn:E.
    - rewrite (Ha eq_refl). destruct Hfalsy as [H|H]; [discriminate H | exact H].
    - now rewrite (Ha' eq_refl). }
  rewrite Hta. cbn [negb]. unfold calls.
  rewrite run_tryCatch, run_bind, run_callSeal. fold (attemptsCall env req).
  destruct (up n (attemptsCall env req)) as [resp|e]; cbn [List.length Nat.add].
  - match goal with
    | |- context [run up (n + 1) ?p] => destruct (run up (n + 1) p) as [[r|e] xs]
    end; cbn.
    + eexists. reflexivity.
    + eexists. reflexivity.
  - cbn. eexists. reflexivity.
Qed.

Lemma resolveAttempt_single (body : JsVal) (a : JsVal) (a0 : JsNum) :
  attemptsOf body = [a] ->
  Js.nullish a = false ->
  resolveAttempt body a0 = Js.ToNumber (Js.prop a "id").
Proof.
  intros Harr Ha. unfold resolveAttempt, Array_sort. rewrite Harr.
  cbn [List.length Nat.ltb Nat.leb filter].
  destruct a; try discriminate Ha; reflexivity.
Qed.

Lemma compareAttempts_null (a b : JsVal) :
  a = JNull \/ b = JNull -> exists e, compareAttempts a b = Raise e.
Proof.
  unfold compareAttempts. intros [->| ->].
  - eexists. reflexivity.
  - destruct (attemptDate a) as [d|e]; cbn [excBind]; eexists; reflexivity.
Qed.

Lemma insertBy_length (cmp : JsVal -> JsVal -> Exc JsNum) (x : JsVal) (l s : list JsVal) :
  insertBy cmp x l = Ok s -> List.length s = S (List.length l).
Proof.
  revert s. induction l as [|y ys IH]; intros s; cbn [insertBy].
  - now intros [= <-].
  - destruct (cmp x y) as [v|e]; cbn [excBind]; [|discriminate].
    destruct (Num.isPositive v); [|now intros [= <-]].
    destruct (insertBy cmp x ys) as [r|e]; cbn [excBind]; [|discriminate].
    intros [= <-]. cbn [List.length]. now rewrite (IH r eq_refl).
Qed.

Lemma sortBy_length (cmp : JsVal -> JsVal -> Exc JsNum) (l s : list JsVal) :
  sortBy cmp l = Ok s -> List.length s = List.length l.
Proof.
  revert s. induction l as [|x xs IH]; intros s; cbn [sortBy].
  - now intros [= <-].
  - destruct (sortBy cmp xs) as [r|e]; cbn [excBind]; [|discriminate].
    intros H. apply insertBy_length in H. cbn [List.length]. now rewrite H, (IH r eq_refl).
Qed.

Lemma sortBy_singleton (cmp : JsVal -> JsVal -> Exc JsNum) (x : JsVal) :
  sortBy cmp [x] = Ok [x].
Proof. reflexivity. Qed.

Lemma insertBy_onto_null (x : JsVal) (s : list JsVal) :
  In JNull (x :: s) -> s <> [] ->
  (forall y ys, s = y :: ys -> In JNull ys -> False) ->
  exists e, insertBy compareAttempts x s = Raise e.
Proof.
  intros Hin Hne Hhead. destruct s as [|y ys]; [congruence|].
  cbn [insertBy].
  destruct (compareAttempts_null x y) as [e He].
  - destruct Hin as [->|[<-|Hin]]; [now left | now right |].
    exfalso. exact (Hhead y ys eq_refl Hin).
  - rewrite He. now exists e.
Qed.

(** Sorting two or more attempts compares every one of them: a [null]
    among them makes the comparator throw. *)
Lemma sortBy_null (l : list JsVal) :
  In JNull l -> (2 <= List.length l)%nat ->
  exists e, sortBy compareAttempts l = Raise e.
Proof.
  induction l as [|x xs IH]; [intros []|]. intros Hin Hlen.
  cbn [sortBy]. destruct xs as [|y ys]; [cbn in Hlen; lia|].
  destruct ys as [|z zs].
  - rewrite sortBy_singleton. cbn [excBind insertBy].
    destruct (compareAttempts_null x y) as [e He].
    + destruct Hin as [->|[<-|[]]]; [now left | now right].
    + rewrite He. now exists e.
  - destruct (in_dec (fun a b : bool => bool_dec a b) true
                (map (fun v => match v with JNull => true | _ => false end) (y :: z :: zs)))
      as [Hnull|Hnone].
    + apply in_map_iff in Hnull as (v & Hv & Hvin).
      destruct v; try discriminate Hv.
      destruct (IH Hvin) as [e He]; [cbn [List.length]; lia|].
      rewrite He. now exists e.
    + assert (Hx : x = JNull).
      { destruct Hin as [->|Hin]; [reflexivity|].
        exfalso. apply Hnone. apply in_map_iff. exists JNull. now split. }
      subst x.
      destruct (sortBy compareAttempts (y :: z :: zs)) as [s|e] eqn:Hs;
        [|now exists e].
      cbn [excBind]. apply sortBy_length in Hs.
      destruct s as [|h t]; [discriminate Hs|].
      cbn [insertBy]. eexists. reflexivity.
Qed.

Lemma resolveAttempt_null (body : JsVal) (a0 : JsNum) :
  In JNull (attemptsOf body) -> exists e, resolveAttempt body a0 = Raise e.
Proof.
  intros Hin. unfold resolveAttempt, Array_sort.
  destruct (attemptsOf body) as [|x xs] eqn:Harr; [destruct Hin|].
  cbn [List.length Nat.ltb Nat.leb].
  set (defined := filter (fun v => negb (isUndefined v)) (x :: xs)).
  assert (Hd : In JNull defined) by (apply filter_In; now split).
  destruct (le_lt_dec 2 (List.length defined)) as [Hlen|Hlen].
  - destruct (sortBy_null defined Hd Hlen) as [e ->]. now exists e.
  - destruct defined as [|d ds]; [destruct Hd|].
    destruct ds as [|d' ds']; [|cbn in Hlen; lia].
    destruct Hd as [->|[]]. rewrite sortBy_singleton. cbn [excBind app nth].
    eexists. reflexivity.
Qed.

End RescheduleResolution.

(** X16.  A validated reschedule that brings an [attempt_id] converting
    to a number other than NaN and 0 (a number, or a numeric string) does
    not query the attempts: its one call is [PUT
    /subscription-billing-attempt] with the body [{id, subscription_id,
    action: "reschedule", date, time, timezone, reset_schedule}], [id]
    being that number, [subscription_id] the number the path id converts
    to, and [date], [time] and [timezone] trimmed; a 2xx answer to it is
    replied to with 200 and [{ok: true, billing_attempt_id, result}],
    [result] being the body read off the answer. *)
Theorem X16_reschedule_with_attempt_id {rt : Runtime} (env : Env) (req : Request)
        (up : Upstream) (n : nat) (date time timezone : string) (x : JsNum) :
  authorized env req ->
  Num.truthy (Num.StringToNumber (params_id req)) = true ->
  textField req "date" date ->
  textField req "time" time ->
  textField req "timezone" timezone ->
  Js.truthy (Js.getOpt (req_body req) "attempt_id") = true ->
  Js.ToNumber (Js.getOpt (req_body req) "attempt_id") = Ok x ->
  Num.truthy x = true ->
  let reschedule (reset : JsVal) :=
    mkFetch (SEAL_BASE ++ "/subscription-billing-attempt")
      (mkInit (Some "PUT")
         (Some (JSON_stringify
                  (JObj [("id", JNum x);
                         ("subscription_id", JNum (Num.StringToNumber (params_id req)));
                         ("action", JStr "reschedule");
                         ("date", JStr (JsString.trim date));
                         ("time", JStr (JsString.trim time));
                         ("timezone", JStr (JsString.trim timezone));
                         ("reset_schedule", reset)])))
         (Some [("Content-Type", Some "application/json");
                ("X-Seal-Token", SEAL_TOKEN env)])) in
  let callS := reschedule (JBool (match Js.getOpt (req_body req) "reset_schedule" with
                                  | JBool false => false
                                  | _ => true
                                  end)) in
  let callP := reschedule (JStr "true") in
  calls up n (ServerJs.route ServerJs.Reschedule env req) = [callS]
  /\ calls up n (Part000.route Part000.Reschedule env req) = [callP]
  /\ (forall resp, up n callS = Responded resp -> resp_ok resp = true ->
                   result up n (ServerJs.route ServerJs.Reschedule env req)
                   = Ok (rescheduled x resp))
  /\ (forall resp, up n callP = Responded resp -> resp_ok resp = true ->
                   result up n (Part000.route Part000.Reschedule env req)
                   = Ok (rescheduled x resp)).
Proof.
  intros Hauth Hid Hd Ht Hz Hta Hx Htx reschedule callS callP.
  subst callS callP reschedule. cbv beta.
  rewrite <- ServerJs_resetSchedule_sent.
  rewrite <- (Part000_resetSchedule_sent (Js.getOpt (req_body req) "reset_schedule")).
  rewrite <- !rescheduleCall_sent.
  rewrite route_reschedule_ServerJs, route_reschedule_Part000 by assumption.
  unfold calls, result.
  rewrite !(reschedule_supplied _ env req up n date time timezone x) by assumption.
  cbn [fst snd map].
  repeat split; intros resp Hup Hok; now rewrite Hup, Hok.
Qed.

Lemma X16_reschedule_with_attempt_id_witness :
  calls (Example.always (JObj [("success", JBool true)])) 0
    (ServerJs.route (rt := Example.runtime) ServerJs.Reschedule Example.env
       (Example.request "77"
          (JObj [("date", JStr " 2025-11-20"); ("time", JStr "09:30 ");
                 ("timezone", JStr "America/Chicago"); ("attempt_id", JStr "7")])))
  = [mkFetch (SEAL_BASE ++ "/subscription-billing-attempt")
       (mkInit (Some "PUT")
          (Some (JSON_stringify
                   (JObj [("id", JNum (Num.ofZ 7));
                          ("subscription_id", JNum (Num.ofZ 77));
                          ("action", JStr "reschedule");
                          ("date", JStr "2025-11-20");
                          ("time", JStr "09:30");
                          ("timezone", JStr "America/Chicago");
                          ("reset_schedule", JBool true)])))
          (Some [("Content-Type", Some "application/json");
                 ("X-Seal-Token", Some "seal-token")]))].
Proof.
  apply (X16_reschedule_with_attempt_id (rt := Example.runtime) Example.env
           (Example.request "77"
              (JObj [("date", JStr " 2025-11-20"); ("time", JStr "09:30 ");
                     ("timezone", JStr "America/Chicago"); ("attempt_id", JStr "7")]))
           (Example.always (JObj [("success", JBool true)])) 0
           " 2025-11-20" "09:30 " "America/Chicago" (Num.ofZ 7));
    try reflexivity; split; (reflexivity || discriminate).
Defined.

(** X17.  A validated reschedule whose [attempt_id] is absent or falsy,
    or converts to NaN or 0 (as ["abc"] does), starts by querying the
    attempts of the subscription: its first call is the GET (a call
    without method and body) of
    [/subscription-billing-attempts?subscription_id=<id>] under the base
    URL, [<id>] being the number the path id converts to, in both
    revisions. *)
Theorem X17_reschedule_falls_back_to_query {rt : Runtime} (env : Env) (req : Request)
        (up : Upstream) (n : nat) (date time timezone : string) (x : JsNum) :
  authorized env req ->
  Num.truthy (Num.StringToNumber (params_id req)) = true ->
  textField req "date" date ->
  textField req "time" time ->
  textField req "timezone" timezone ->
  Js.ToNumber (Js.getOpt (req_body req) "attempt_id") = Ok x ->
  Js.truthy (Js.getOpt (req_body req) "attempt_id") = false \/ Num.truthy x = false ->
  let query :=
    mkFetch (SEAL_BASE ++ "/subscription-billing-attempts?subscription_id="
               ++ NumberToString (Num.StringToNumber (params_id req)))
      (mkInit None None
         (Some [("Content-Type", Some "application/json");
                ("X-Seal-Token", SEAL_TOKEN env)])) in
  (exists rest, calls up n (ServerJs.route ServerJs.Reschedule env req) = query :: rest)
  /\ (exists rest, calls up n (Part000.route Part000.Reschedule env req) = query :: rest).
Proof.
  intros Hauth Hid Hd Ht Hz Hx Hfalsy query. subst query.
  rewrite <- (attemptsCall_sent env req).
  rewrite route_reschedule_ServerJs, route_reschedule_Part000 by assumption.
  split; now apply reschedule_falls_back with (date := date) (time := time)
                                              (timezone := timezone) (x := x).
Qed.

Lemma X17_reschedule_falls_back_witness :
  exists rest,
    calls (Example.withAttempts []) 0
      (ServerJs.route (rt := Example.runtime) ServerJs.Reschedule Example.env
         (Example.request "77"
            (JObj [("date", JStr "2025-11-20"); ("time", JStr "09:30");
                   ("timezone", JStr "America/Chicago"); ("attempt_id", JStr "abc")])))
    = mkFetch (SEAL_BASE ++ "/subscription-billing-attempts?subscription_id=77")
        (mkInit None None
           (Some [("Content-Type", Some "application/json");
                  ("X-Seal-Token", Some "seal-token")]))
      :: rest.
Proof.
  apply (X17_reschedule_falls_back_to_query (rt := Example.runtime) Example.env
           (Example.request "77"
              (JObj [("date", JStr "2025-11-20"); ("time", JStr "09:30");
                     ("timezone", JStr "America/Chicago"); ("attempt_id", JStr "abc")]))
           (Example.withAttempts []) 0
           "2025-11-20" "09:30" "America/Chicago" NaN);
    try reflexivity; try (split; (reflexivity || discriminate)).
  right. reflexivity.
Defined.

Lemma attemptsOf_payload (body : JsVal) (l : list JsVal) :
  Js.getOpt body "payload" = JArr l -> attemptsOf body = l.
Proof. unfold attemptsOf. now intros ->. Qed.

(** X18.  The attempts are looked for at [payload] first: when [payload]
    is an array, [attempts] is not read.  So a 2xx answer with an empty
    [payload] array ends a validated reschedule without attempt id in 200
    with [no_billing_attempt_found], after the query alone, whatever
    [attempts] holds. *)
Theorem X18_empty_payload_hides_attempts {rt : Runtime} (env : Env) (req : Request)
        (up : Upstream) (n : nat) (date time timezone : string) (resp : FetchResponse) :
  authorized env req ->
  Num.truthy (Num.StringToNumber (params_id req)) = true ->
  textField req "date" date ->
  textField req "time" time ->
  textField req "timezone" timezone ->
  Js.truthy (Js.getOpt (req_body req) "attempt_id") = false ->
  up n (attemptsCall env req) = Responded resp ->
  resp_ok resp = true ->
  Js.getOpt (readBody resp) "payload" = JArr [] ->
  run up n (ServerJs.route ServerJs.Reschedule env req)
  = (Ok noBillingAttempt, [(attemptsCall env req, Responded resp)])
  /\ run up n (Part000.route Part000.Reschedule env req)
     = (Ok noBillingAttempt, [(attemptsCall env req, Responded resp)]).
Proof.
  intros Hauth Hid Hd Ht Hz Ha Hup Hok Hpayload.
  rewrite route_reschedule_ServerJs, route_reschedule_Part000 by assumption.
  pose proof (attemptsOf_payload _ _ Hpayload) as Hnone.
  split; now apply reschedule_no_attempt
    with (date := date) (time := time) (timezone := timezone).
Qed.

Lemma X18_empty_payload_witness :
  let answer := JObj [("payload", JArr []);
                      ("attempts", JArr [Example.attempt 11 "date_time" "2025-11-12T00:00"])] in
  run (Example.always answer) 0
    (ServerJs.route (rt := Example.runtime) ServerJs.Reschedule Example.env
       (Example.request "77" Example.rescheduleBody))
  = (Ok noBillingAttempt,
     [(attemptsCall (rt := Example.runtime) Example.env
         (Example.request "77" Example.rescheduleBody),
       Example.jsonResponse 200 answer)]).
Proof.
  cbv zeta.
  apply (X18_empty_payload_hides_attempts (rt := Example.runtime) Example.env
           (Example.request "77" Example.rescheduleBody)
           (Example.always
              (JObj [("payload", JArr []);
                     ("attempts", JArr [Example.attempt 11 "date_time" "2025-11-12T00:00"])]))
           0 "2025-11-20" "09:30" "America/Chicago"
           (mkResponse 200 (Some "application/json; charset=utf-8")
              (Some (JObj [("payload", JArr []);
                           ("attempts",
                            JArr [Example.attempt 11 "date_time" "2025-11-12T00:00"])]))
              None));
    try reflexivity; split; (reflexivity || discriminate).
Defined.

(** X19.  An attempts array of one entry, at [payload] or at [attempts],
    is not sorted by comparison: the entry is taken whatever its timestamp
    fields hold, also when none of them can be read as a date.  Its [id],
    converted to a number, is the
    [id] in the body of the [PUT /subscription-billing-attempt] that
    follows the query when it is other than NaN and 0; otherwise no
    reschedule call is made. *)
Theorem X19_lone_attempt_is_taken {rt : Runtime} (env : Env) (req : Request)
        (up : Upstream) (n : nat) (date time timezone : string)
        (resp : FetchResponse) (a : JsVal) (x : JsNum) :
  let sent := Some [("Content-Type", Some "application/json");
                    ("X-Seal-Token", SEAL_TOKEN env)] in
  let query :=
    mkFetch (SEAL_BASE ++ "/subscription-billing-attempts?subscription_id="
               ++ NumberToString (Num.StringToNumber (params_id req)))
      (mkInit None None sent) in
  let reschedule (reset : JsVal) :=
    mkFetch (SEAL_BASE ++ "/subscription-billing-attempt")
      (mkInit (Some "PUT")
         (Some (JSON_stringify
                  (JObj [("id", JNum x);
                         ("subscription_id", JNum (Num.StringToNumber (params_id req)));
                         ("action", JStr "reschedule");
                         ("date", JStr (JsString.trim date));
                         ("time", JStr (JsString.trim time));
                         ("timezone", JStr (JsString.trim timezone));
                         ("reset_schedule", reset)])))
         sent) in
  authorized env req ->
  Num.truthy (Num.StringToNumber (params_id req)) = true ->
  textField req "date" date ->
  textField req "time" time ->
  textField req "timezone" timezone ->
  Js.truthy (Js.getOpt (req_body req) "attempt_id") = false ->
  up n query = Responded resp ->
  resp_ok resp = true ->
  holdsAttempts (readBody resp) [a] ->
  Js.nullish a = false ->
  Js.ToNumber (Js.prop a "id") = Ok x ->
  calls up n (ServerJs.route ServerJs.Reschedule env req)
  = query
    :: (if Num.truthy x
        then [reschedule (JBool (match Js.getOpt (req_body req) "reset_schedule" with
                                 | JBool false => false
                                 | _ => true
                                 end))]
        else [])
  /\ calls up n (Part000.route Part000.Reschedule env req)
     = query :: (if Num.truthy x then [reschedule (JStr "true")] else []).
Proof.
  intros sent query reschedule Hauth Hid Hd Ht Hz Ha Hup Hok Harr Hna Hx.
  subst sent query reschedule. cbv beta.
  rewrite <- (attemptsCall_sent env req) in *.
  rewrite <- ServerJs_resetSchedule_sent.
  rewrite <- (Part000_resetSchedule_sent (Js.getOpt (req_body req) "reset_schedule")).
  rewrite <- !rescheduleCall_sent.
  rewrite route_reschedule_ServerJs, route_reschedule_Part000 by assumption.
  apply attemptsOf_holds in Harr.
  assert (Hres : resolveAttempt (readBody resp) (Num.ofZ 0) = Ok x)
    by (now rewrite (resolveAttempt_single _ a _ Harr Hna)).
  split; now apply reschedule_resolves with (resp := resp).
Qed.

Lemma X19_lone_attempt_witness :
  let answer := JObj [("attempts", JArr [Example.attempt 21 "date_time" "next week"])] in
  let up : Upstream :=
    fun n _ => match n with
               | O => Example.jsonResponse 200 answer
               | _ => Example.jsonResponse 200 (JObj [("success", JBool true)])
               end in
  calls up 0
    (ServerJs.route (rt := Example.runtime) ServerJs.Reschedule Example.env
       (Example.request "77" Example.rescheduleBody))
  = [mkFetch (SEAL_BASE ++ "/subscription-billing-attempts?subscription_id=77")
       (mkInit None None
          (Some [("Content-Type", Some "application/json");
                 ("X-Seal-Token", Some "seal-token")]));
     mkFetch (SEAL_BASE ++ "/subscription-billing-attempt")
       (mkInit (Some "PUT")
          (Some (JSON_stringify
                   (JObj [("id", JNum (Num.ofZ 21));
                          ("subscription_id", JNum (Num.ofZ 77));
                          ("action", JStr "reschedule");
                          ("date", JStr "2025-11-20");
                          ("time", JStr "09:30");
                          ("timezone", JStr "America/Chicago");
                          ("reset_schedule", JBool true)])))
          (Some [("Content-Type", Some "application/json");
                 ("X-Seal-Token", Some "seal-token")]))].
Proof.
  cbv zeta.
  apply (X19_lone_attempt_is_taken (rt := Example.runtime) Example.env
           (Example.request "77" Example.rescheduleBody)
           (fun n _ =>
              match n with
              | O => Example.jsonResponse 200
                       (JObj [("attempts", JArr [Example.attempt 21 "date_time" "next week"])])
              | _ => Example.jsonResponse 200 (JObj [("success", JBool true)])
              end)
           0 "2025-11-20" "09:30" "America/Chicago"
           (mkResponse 200 (Some "application/json; charset=utf-8")
              (Some (JObj [("attempts", JArr [Example.attempt 21 "date_time" "next week"])]))
              None)
           (Example.attempt 21 "date_time" "next week") (Num.ofZ 21)).
  - reflexivity.
  - reflexivity.
  - split; [reflexivity | discriminate].
  - split; [reflexivity | discriminate].
  - split; [reflexivity | discriminate].
  - reflexivity.
  - reflexivity.
  - reflexivity.
  - right. split; [discriminate | reflexivity].
  - reflexivity.
  - reflexivity.
Defined.

Lemma falsy_ToNumber {rt : Runtime} (v : JsVal) :
  Js.truthy v = false -> exists x, Js.ToNumber v = Ok x.
Proof.
  destruct v; cbn [Js.truthy]; try discriminate; intros _; eexists; reflexivity.
Qed.

Lemma reschedule_resolution_throws {rt : Runtime} (resetOf : JsVal -> JsVal)
      (env : Env) (req : Request) (up : Upstream) (n : nat)
      (date time timezone : string) (resp : FetchResponse) (e : JsError) :
  Num.truthy (Num.StringToNumber (params_id req)) = true ->
  textField req "date" date ->
  textField req "time" time ->
  textField req "timezone" timezone ->
  Js.truthy (Js.getOpt (req_body req) "attempt_id") = false ->
  up n (attemptsCall env req) = Responded resp ->
  resp_ok resp = true ->
  resolveAttempt (readBody resp) (Num.ofZ 0) = Raise e ->
  run up n (put_api_subscription_reschedule resetOf env req)
  = (Ok (bridgeFailure (errText e)), [(attemptsCall env req, Responded resp)]).
Proof.
  intros Hid Hd Ht Hz Ha Hup Hok Hres.
  destruct (falsy_ToNumber _ Ha) as [x Hx].
  destruct (reschedule_validated resetOf env req date time timezone x Hid Hd Ht Hz Hx)
    as (a0 & _ & Ha0 & ->).
  rewrite (Ha0 Ha). change (Num.truthy (Num.ofZ 0)) with false. cbn [negb].
  rewrite run_tryCatch, run_bind, run_callSeal. fold (attemptsCall env req).
  rewrite Hup. cbn [sealResult ok body_of]. rewrite Hok. cbn [negb].
  rewrite Hres. reflexivity.
Qed.

(** X20.  A [null] among the attempts the upstream lists makes the
    resolution throw, whether while sorting or when reading the [id] of
    the first entry: a validated reschedule without attempt id then ends,
    after the query alone, in 200 with [bridge_exception], and no
    reschedule call is made, in both revisions. *)
Theorem X20_null_attempt_throws {rt : Runtime} (env : Env) (req : Request)
        (up : Upstream) (n : nat) (date time timezone : string) (resp : FetchResponse) :
  authorized env req ->
  Num.truthy (Num.StringToNumber (params_id req)) = true ->
  textField req "date" date ->
  textField req "time" time ->
  textField req "timezone" timezone ->
  Js.truthy (Js.getOpt (req_body req) "attempt_id") = false ->
  up n (attemptsCall env req) = Responded resp ->
  resp_ok resp = true ->
  In JNull (attemptsOf (readBody resp)) ->
  exists message,
    run up n (ServerJs.route ServerJs.Reschedule env req)
    = (Ok (bridgeFailure message), [(attemptsCall env req, Responded resp)])
    /\ run up n (Part000.route Part000.Reschedule env req)
       = (Ok (bridgeFailure message), [(attemptsCall env req, Responded resp)]).
Proof.
  intros Hauth Hid Hd Ht Hz Ha Hup Hok Hnull.
  rewrite route_reschedule_ServerJs, route_reschedule_Part000 by assumption.
  destruct (resolveAttempt_null (readBody resp) (Num.ofZ 0) Hnull) as [e He].
  exists (errText e).
  split; now apply reschedule_resolution_throws
    with (date := date) (time := time) (timezone := timezone).
Qed.

Lemma X20_null_attempt_witness :
  exists message,
    run (Example.withAttempts [Example.attempt 11 "date_time" "2025-11-12T00:00"; JNull]) 0
      (ServerJs.route (rt := Example.runtime) ServerJs.Reschedule Example.env
         (Example.request "77" Example.rescheduleBody))
    = (Ok (bridgeFailure message),
       [(attemptsCall (rt := Example.runtime) Example.env
           (Example.request "77" Example.rescheduleBody),
         Example.jsonResponse 200
           (JObj [("success", JBool true);
                  ("payload",
                   JArr [Example.attempt 11 "date_time" "2025-11-12T00:00"; JNull])]))]).
Proof.
  destruct (X20_null_attempt_throws (rt := Example.runtime) Example.env
              (Example.request "77" Example.rescheduleBody)
              (Example.withAttempts
                 [Example.attempt 11 "date_time" "2025-11-12T00:00"; JNull]) 0
              "2025-11-20" "09:30" "America/Chicago"
              (mkResponse 200 (Some "application/json; charset=utf-8")
                 (Some (JObj [("success", JBool true);
                              ("payload",
                               JArr [Example.attempt 11 "date_time" "2025-11-12T00:00";
                                     JNull])]))
                 None))
    as (message & HS & _);
    try reflexivity; try (split; (reflexivity || discriminate)).
  - right. left. reflexivity.
  - exists message. exact HS.
Defined.

(** ** The guard without a configured secret, path ids, headers *)

(** X21.  When [process.env.BRIDGE_BEARER] is not set, the guard compares
    the header with the text [Bearer undefined]: a request carrying that
    header is let through to the handler of its route, and every other
    header, like no header, is answered 401. *)
Theorem X21_guard_without_secret {rt : Runtime} (env : Env) (req : Request) :
  BRIDGE_BEARER env = None ->
  (authorization req = Some "Bearer undefined" ->
   (forall op, ServerJs.route op env req = ServerJs.handler op env req)
   /\ (forall op, Part000.route op env req = Part000.handler op env req))
  /\ (authorization req <> Some "Bearer undefined" ->
      (forall op, ServerJs.route op env req = Ret unauthorized)
      /\ (forall op, Part000.route op env req = Ret unauthorized)).
Proof.
  intros Hnone.
  assert (Hiff : authorized env req <-> authorization req = Some "Bearer undefined")
    by (unfold authorized; rewrite Hnone; reflexivity).
  split; intros H; split; intros op; unfold ServerJs.route, Part000.route.
  - apply checkAuth_pass. now apply Hiff.
  - apply checkAuth_pass. now apply Hiff.
  - apply checkAuth_reject. now rewrite Hiff.
  - apply checkAuth_reject. now rewrite Hiff.
Qed.

Lemma X21_guard_without_secret_witness :
  calls (Example.always JNull) 0
    (Part000.route (rt := Example.runtime) Part000.ChargeNow (mkEnv None (Some "seal-token"))
       (mkRequest (Some "Bearer undefined") "42" JUndefined JNull))
  = [chargeNowCall (rt := Example.runtime) (mkEnv None (Some "seal-token")) (Num.ofZ 42)].
Proof.
  rewrite (proj2 (proj1 (X21_guard_without_secret (rt := Example.runtime)
                            (mkEnv None (Some "seal-token"))
                            (mkRequest (Some "Bearer undefined") "42" JUndefined JNull)
                            eq_refl)
                    eq_refl)
             Part000.ChargeNow).
  reflexivity.
Defined.

Lemma trimStart_empty (s : string) :
  JsString.trimStart s = "" -> JsString.whitespaceOnly s.
Proof.
  unfold JsString.whitespaceOnly.
  induction s as [|c r IH]; cbn [JsString.trimStart list_ascii_of_string]; [constructor|].
  destruct (JsString.isWhiteSpace c) eqn:Hc; [|discriminate].
  intros H. constructor; [assumption | now apply IH].
Qed.

Lemma trimEnd_empty (s : string) :
  JsString.trimEnd s = "" -> JsString.trimStart s = "".
Proof.
  induction s as [|c r IH]; cbn [JsString.trimEnd JsString.trimStart]; [reflexivity|].
  destruct (JsString.trimEnd r) eqn:Hr; [|discriminate].
  destruct (JsString.isWhiteSpace c); [|discriminate].
  intros _. now apply IH.
Qed.

Lemma trimStart_idem (s : string) :
  JsString.trimStart (JsString.trimStart s) = JsString.trimStart s.
Proof.
  induction s as [|c r IH]; cbn [JsString.trimStart]; [reflexivity|].
  destruct (JsString.isWhiteSpace c) eqn:Hc; [exact IH|].
  cbn [JsString.trimStart]. now rewrite Hc.
Qed.

Lemma trim_empty_iff (s : string) :
  JsString.trim s = "" <-> JsString.whitespaceOnly s.
Proof.
  split; [|apply trim_whitespaceOnly].
  unfold JsString.trim. intros H. apply trimEnd_empty in H.
  rewrite trimStart_idem in H. now apply trimStart_empty.
Qed.

(** X22.  For a list request whose [email] is a string, no upstream call
    is made exactly when the email is empty or white space only; every
    other email leads to the one call of the operation, in both
    revisions. *)
Theorem X22_list_calls_iff_email {rt : Runtime} (env : Env) (req : Request)
        (up : Upstream) (n : nat) (email : string) :
  authorized env req ->
  query_email req = JStr email ->
  (calls up n (ServerJs.route ServerJs.ListSubscriptions env req) = []
   <-> JsString.whitespaceOnly email)
  /\ (calls up n (Part000.route Part000.ListSubscriptions env req) = []
      <-> JsString.whitespaceOnly email).
Proof.
  intros Hauth Hq.
  assert (H : forall probe,
             calls up n (get_api_subscriptions probe env req) = []
             <-> JsString.whitespaceOnly email).
  { intros probe. split.
    - intros Hcalls. apply trim_empty_iff.
      destruct (string_dec (JsString.trim email) "") as [E|E]; [assumption|].
      unfold calls in Hcalls.
      rewrite (list_run probe env req up n email (conj Hq E)) in Hcalls.
      discriminate Hcalls.
    - intros Hws. unfold calls.
      rewrite (get_api_subscriptions_missing_email probe env req); [reflexivity|].
      right. now exists email. }
  rewrite route_list_ServerJs, route_list_Part000 by assumption.
  split; apply H.
Qed.

Lemma X22_list_calls_iff_email_witness :
  calls (Example.always JNull) 0
    (ServerJs.route (rt := Example.runtime) ServerJs.ListSubscriptions Example.env
       (mkRequest (Some "Bearer s3cret") "" (JStr "") JNull))
  = [].
Proof.
  apply (X22_list_calls_iff_email (rt := Example.runtime) Example.env
           (mkRequest (Some "Bearer s3cret") "" (JStr "") JNull)
           (Example.always JNull) 0 "").
  - reflexivity.
  - reflexivity.
  - constructor.
Defined.

Lemma headerOf_setHeader (k k' : string) (v : option string)
      (h : list (string * option string)) :
  headerOf k (setHeader k' v h)
  = if String.eqb k k' then Some v else headerOf k h.
Proof.
  induction h as [|[k0 v0] rest IH]; cbn [setHeader headerOf]; [reflexivity|].
  destruct (String.eqb_spec k' k0) as [->|Hne]; cbn [headerOf].
  - destruct (String.eqb k k0); reflexivity.
  - rewrite IH. destruct (String.eqb_spec k k0) as [->|Hne'].
    + destruct (String.eqb_spec k0 k'); [congruence | reflexivity].
    + reflexivity.
Qed.

Lemma headerOf_absent (k : string) (h : list (string * option string)) :
  ~ In k (map fst h) -> headerOf k h = None.
Proof.
  induction h as [|[k0 v0] rest IH]; cbn [map fst In headerOf]; [reflexivity|].
  intros H. destruct (String.eqb_spec k k0) as [->|Hne]; [tauto|].
  apply IH. tauto.
Qed.

Lemma headerOf_spread (k : string) (caller : list (string * option string)) :
  NoDup (map fst caller) ->
  forall defaults,
    headerOf k (spreadHeaders defaults caller)
    = match headerOf k caller with
      | Some v => Some v
      | None => headerOf k defaults
      end.
Proof.
  unfold spreadHeaders.
  induction caller as [|[k0 v0] rest IH]; intros Hnd defaults; cbn [fold_left headerOf];
    [reflexivity|].
  cbn [map fst] in Hnd. inversion Hnd as [|? ? Hnotin Hnd']; subst.
  rewrite (IH Hnd'). cbn [fst snd]. rewrite headerOf_setHeader.
  destruct (String.eqb_spec k k0) as [->|Hne]; [|reflexivity].
  now rewrite (headerOf_absent k0 rest Hnotin).
Qed.

(** X23.  The headers [callSeal] sends are its two defaults,
    [Content-Type: application/json] and [X-Seal-Token] with the
    configured token, under the headers of its [init] argument: a header
    the caller sets has the caller's value, also for the two defaults,
    and every other header has the default.  Without [init.headers] the
    two defaults are sent as they are. *)
Theorem X23_callSeal_headers (env : Env) (path : string) (i : RequestInit)
        (caller : list (string * option string)) (k : string) :
  headers i = Some caller ->
  NoDup (map fst caller) ->
  headers (init (fetchArgs env path i)) = Some (sentHeaders env i)
  /\ headerOf k (sentHeaders env i)
     = match headerOf k caller with
       | Some v => Some v
       | None => headerOf k (sealHeaders env)
       end
  /\ sentHeaders env (mkInit (method i) (body i) None) = sealHeaders env.
Proof.
  intros Hh Hnd. unfold sentHeaders, fetchArgs. cbn [init headers]. rewrite Hh.
  split; [reflexivity|]. split; [|reflexivity].
  now apply headerOf_spread.
Qed.

Lemma X23_callSeal_headers_witness :
  headerOf "Content-Type"
    (sentHeaders Example.env
       (mkInit (Some "PUT") None (Some [("Content-Type", Some "text/plain")])))
  = Some (Some "text/plain").
Proof.
  apply (X23_callSeal_headers Example.env "/subscription"
           (mkInit (Some "PUT") None (Some [("Content-Type", Some "text/plain")]))
           [("Content-Type", Some "text/plain")] "Content-Type").
  - reflexivity.
  - repeat constructor. intros [].
Defined.

(** ** Path ids written in decimal digits *)

Lemma digit_facts (c : ascii) :
  isDigit c = true ->
  Num.digitIn 10 c = Some (Z.of_N (JsString.code c) - 48)
  /\ JsString.isWhiteSpace c = false
  /\ Ascii.eqb c "I" = false
  /\ (0 <=? Z.of_N (JsString.code c) - 48) = true
  /\ (Z.of_N (JsString.code c) - 48 =? 0) = Ascii.eqb c "0".
Proof.
  destruct c as [[] [] [] [] [] [] [] []]; vm_compute; intros H;
    (discriminate H || (repeat split)).
Qed.

Lemma digit_is (c : ascii) :
  isDigit c = true ->
  In c ["0"; "1"; "2"; "3"; "4"; "5"; "6"; "7"; "8"; "9"]%char.
Proof.
  destruct c as [[] [] [] [] [] [] [] []]; vm_compute; intros H;
    (discriminate H || tauto).
Qed.

Lemma digits_of_digits (s : string) :
  forallb isDigit (list_ascii_of_string s) = true ->
  forall acc,
    Num.digits 10 acc s = (decimalValue acc s, Z.of_nat (String.length s), "").
Proof.
  induction s as [|c r IH]; cbn [list_ascii_of_string forallb]; intros H acc.
  - reflexivity.
  - apply andb_true_iff in H as [Hc Hr].
    cbn [Num.digits decimalValue String.length].
    destruct (digit_facts c Hc) as (-> & _).
    rewrite (IH Hr). now rewrite Nat2Z.inj_succ, Z.add_1_r.
Qed.

Lemma decimalValue_zero (s : string) :
  forallb isDigit (list_ascii_of_string s) = true ->
  forall acc, 0 <= acc ->
    0 <= decimalValue acc s
    /\ ((decimalValue acc s =? 0) = (acc =? 0) && negb (hasNonZero s)).
Proof.
  unfold hasNonZero.
  induction s as [|c r IH]; cbn [list_ascii_of_string forallb existsb decimalValue];
    intros H acc Hacc.
  - split; [assumption|]. now rewrite andb_true_r.
  - apply andb_true_iff in H as [Hc Hr].
    destruct (digit_facts c Hc) as (_ & _ & _ & Hge & Hz).
    apply Z.leb_le in Hge.
    destruct (IH Hr (acc * 10 + (Z.of_N (JsString.code c) - 48))) as [Hnn Heq]; [lia|].
    split; [assumption|]. rewrite Heq. rewrite negb_orb, negb_involutive, <- Hz.
    rewrite andb_assoc. f_equal.
    destruct (Z.eqb_spec (acc * 10 + (Z.of_N (JsString.code c) - 48)) 0);
      destruct (Z.eqb_spec acc 0);
      destruct (Z.eqb_spec (Z.of_N (JsString.code c) - 48) 0); cbn; lia || reflexivity.
Qed.

Lemma trimEnd_digits (s : string) :
  forallb isDigit (list_ascii_of_string s) = true -> JsString.trimEnd s = s.
Proof.
  induction s as [|c r IH]; cbn [list_ascii_of_string forallb JsString.trimEnd];
    [reflexivity|].
  intros H. apply andb_true_iff in H as [Hc Hr].
  rewrite (IH Hr). destruct r; [|reflexivity].
  destruct (digit_facts c Hc) as (_ & -> & _). reflexivity.
Qed.

Lemma trim_digits (s : string) :
  forallb isDigit (list_ascii_of_string s) = true -> JsString.trim s = s.
Proof.
  intros H. unfold JsString.trim.
  destruct s as [|c r]; [reflexivity|].
  cbn [list_ascii_of_string forallb] in H.
  pose proof H as H'. apply andb_true_iff in H' as [Hc _].
  cbn [JsString.trimStart]. destruct (digit_facts c Hc) as (_ & -> & _).
  now apply trimEnd_digits.
Qed.

Lemma StringToNumber_digits (s : string) :
  allDigits s = true ->
  Num.StringToNumber s = Num.ofUnsignedDecimal false s.
Proof.
  unfold allDigits. intros H. apply andb_true_iff in H as [Hne Hd].
  unfold Num.StringToNumber. rewrite (trim_digits s Hd).
  destruct s as [|c r]; [discriminate Hne|].
  cbn [list_ascii_of_string forallb] in Hd. apply andb_true_iff in Hd as [Hc Hr].
  destruct r as [|c' r'].
  - destruct (digit_is c Hc) as [<-|[<-|[<-|[<-|[<-|[<-|[<-|[<-|[<-|[<-|[]]]]]]]]]]];
      reflexivity.
  - cbn [list_ascii_of_string forallb] in Hr. apply andb_true_iff in Hr as [Hc' _].
    destruct (digit_is c Hc) as [<-|[<-|[<-|[<-|[<-|[<-|[<-|[<-|[<-|[<-|[]]]]]]]]]]];
      try reflexivity.
    destruct (digit_is c' Hc') as [<-|[<-|[<-|[<-|[<-|[<-|[<-|[<-|[<-|[<-|[]]]]]]]]]]];
      reflexivity.
Qed.

Lemma roundHalfEven_ge (p q : Z) : p / q <= Num.roundHalfEven p q.
Proof.
  unfold Num.roundHalfEven. cbv zeta.
  destruct (2 * (p mod q) <? q); [lia|].
  destruct (q <? 2 * (p mod q)); [lia|].
  destruct (Z.even (p / q)); lia.
Qed.

Lemma binaryExponent_integer (a : Z) : Num.binaryExponent a 1 <= Z.log2 a.
Proof.
  unfold Num.binaryExponent. change (Z.log2 1) with 0. cbv zeta.
  destruct (Num.scale a 1 (Z.log2 a - 0)) as [p q].
  destruct (p <? q); lia.
Qed.

Lemma Qred_num_nonzero (q : Q) : Qnum q <> 0 -> Qnum (Qred q) <> 0.
Proof.
  intros Hq H. pose proof (Qred_correct q) as E. unfold Qeq in E.
  rewrite H in E. cbn [Z.mul] in E. symmetry in E.
  apply Z.mul_eq_0 in E as [E|E]; [contradiction|discriminate E].
Qed.

(** A positive integer never rounds to zero. *)
Lemma truthy_toBinary64_integer (neg : bool) (a : Z) :
  0 < a -> Num.truthy (Num.toBinary64 neg a 1) = true.
Proof.
  intros Ha. unfold Num.toBinary64. cbv zeta.
  pose proof (binaryExponent_integer a) as Hk.
  pose proof (Z.log2_spec a Ha) as [Hlo _].
  pose proof (Z.log2_nonneg a) as Hl0.
  set (e := Z.max (Num.binaryExponent a 1 - 52) (-1074)).
  assert (He : e <= Z.log2 a) by (unfold e; lia).
  unfold Num.scale.
  assert (Hsgn : (if neg then -1 else 1) <> 0) by (destruct neg; discriminate).
  destruct (Z.leb_spec 0 e) as [Hpos|Hneg].
  - assert (H2 : 0 < 2 ^ e) by (apply Z.pow_pos_nonneg; lia).
    assert (Hle : 2 ^ e <= a).
    { apply Z.le_trans with (2 ^ Z.log2 a); [|assumption].
      apply Z.pow_le_mono_r; lia. }
    rewrite Z.mul_1_l.
    pose proof (roundHalfEven_ge a (2 ^ e)) as Hn.
    assert (Hf : 1 <= a / 2 ^ e).
    { apply Z.div_le_lower_bound; lia. }
    destruct (Z.eqb_spec (Num.roundHalfEven a (2 ^ e)) 0) as [E|_]; [lia|].
    destruct (2 ^ 1024 <=? Num.roundHalfEven a (2 ^ e) * 2 ^ e); [reflexivity|].
    unfold Num.truthy, Num.ofZ, Num.isNaN, Num.isZero, inject_Z. cbn [Qnum orb].
    apply negb_true_iff, Z.eqb_neq.
    intros E. apply Z.mul_eq_0 in E as [E|E]; [contradiction|].
    apply Z.mul_eq_0 in E as [E|E]; lia.
  - assert (H2 : 0 < 2 ^ (- e)) by (apply Z.pow_pos_nonneg; lia).
    pose proof (roundHalfEven_ge (a * 2 ^ (- e)) 1) as Hn.
    rewrite Z.div_1_r in Hn.
    assert (Hp : 0 < a * 2 ^ (- e)) by (apply Z.mul_pos_pos; assumption).
    destruct (Z.eqb_spec (Num.roundHalfEven (a * 2 ^ (- e)) 1) 0) as [E|_]; [lia|].
    unfold Num.truthy, Num.isNaN, Num.isZero. cbn [orb].
    apply negb_true_iff, Z.eqb_neq, Qred_num_nonzero. cbn [Qnum].
    intros E. apply Z.mul_eq_0 in E as [E|E]; [contradiction|lia].
Qed.

Lemma truthy_ofDecimal_integer (v : Z) :
  0 <= v -> Num.truthy (Num.ofDecimal false v 0) = negb (v =? 0).
Proof.
  intros Hv. unfold Num.ofDecimal.
  destruct (Z.eqb_spec v 0) as [->|Hne]; [reflexivity|].
  change (0 <=? 0) with true. cbv iota.
  change (10 ^ 0) with 1. rewrite Z.mul_1_r.
  apply truthy_toBinary64_integer. lia.
Qed.

(** X24.  The id check [!Number(req.params.id)] of the status change, of
    charge-now and of reschedule, on a path id written in decimal digits:
    the id passes exactly when one of its digits is not [0].  So [0] and
    [000] count as missing, and every other such id, however long, is
    used. *)
Theorem X24_decimal_id_check (id : string) :
  allDigits id = true ->
  Num.truthy (Num.StringToNumber id) = hasNonZero id.
Proof.
  intros H. rewrite (StringToNumber_digits id H).
  unfold allDigits in H. apply andb_true_iff in H as [Hne Hd].
  unfold Num.ofUnsignedDecimal.
  destruct id as [|c r]; [discriminate Hne|].
  pose proof Hd as Hd'. cbn [list_ascii_of_string forallb] in Hd'.
  apply andb_true_iff in Hd' as [Hc _].
  assert (Hinf : String.eqb (String c r) "Infinity" = false).
  { cbn [String.eqb]. destruct (digit_facts c Hc) as (_ & _ & -> & _). reflexivity. }
  rewrite Hinf, (digits_of_digits _ Hd 0).
  cbn [String.length]. rewrite Nat2Z.inj_succ.
  assert (Hlen : (Z.succ (Z.of_nat (String.length r)) + 0 =? 0) = false)
    by (apply Z.eqb_neq; lia).
  cbv iota beta. rewrite Hlen.
  change (- 0) with 0.
  destruct (decimalValue_zero _ Hd 0) as [Hnn Hz]; [lia|].
  rewrite (truthy_ofDecimal_integer _ Hnn), Hz.
  cbn [Z.eqb andb]. now rewrite negb_involutive.
Qed.

Lemma X24_decimal_id_check_witness :
  Num.truthy (Num.StringToNumber "000") = false
  /\ Num.truthy (Num.StringToNumber "0100") = true.
Proof.
  split.
  - apply (X24_decimal_id_check "000"). reflexivity.
  - apply (X24_decimal_id_check "0100"). reflexivity.
Defined.
